(** * Hybrid book recommender: the [recommend] function and the Streamlit script

    Shallow embedding of

    - [src/streamlit/book_rec_app.py], the function [recommend], and
    - [src/streamlit/.ipynb_checkpoints/book_rec_app-checkpoint.py], the
      Streamlit script (sections 8 to 12 of the script: side bar, search,
      selection, hybrid score, ranking loop).

    Conventions of the embedding.

    - Text is a Rocq [string] read as a sequence of code points below 256;
      on that alphabet [lower] and [strip] below are Python's [str.lower]
      and [str.strip].
    - Numbers (ratings, similarities, weights, scores) are exact rationals
      [Q]: Python floats are idealised, rounding and NaN are not modelled.
      Division keeps Python's [ZeroDivisionError].
    - A data frame is the list of its rows; the index label of a row is its
      position (the [RangeIndex] that [read_csv] builds).
    - numpy arrays live in a store, because [cosine_sim[idx]] is a view of
      the matrix and [hybrid_score += ...] writes in place. *)

From Stdlib Require Import String Ascii Bool Arith PeanoNat Lia.
From Stdlib Require Import QArith Qabs Qfield Lqa Permutation Sorted List.
Import ListNotations.

Set Implicit Arguments.
Local Close Scope Q_scope.
Local Open Scope string_scope.
Local Open Scope list_scope.
Local Open Scope nat_scope.

(** ** Python text primitives *)

Module Text.

Definition chars : string -> list ascii := list_ascii_of_string.
Definition text : list ascii -> string := string_of_list_ascii.

(** [str.lower] on one code point below 256: A-Z, and the Latin-1
    capitals 192-214 and 216-222, move up by 32. *)
Definition lower_char (c : ascii) : ascii :=
  let n := nat_of_ascii c in
  if ((65 <=? n) && (n <=? 90)) || ((192 <=? n) && (n <=? 214))
     || ((216 <=? n) && (n <=? 222))
  then ascii_of_nat (n + 32) else c.

Definition lower (s : string) : string := text (map lower_char (chars s)).

(** [str.isspace] below 256: tab to carriage return, the four separators
    28-31, space, NEL and the no-break space. *)
Definition is_space (c : ascii) : bool :=
  let n := nat_of_ascii c in
  ((9 <=? n) && (n <=? 13)) || ((28 <=? n) && (n <=? 32))
  || (n =? 133) || (n =? 160).

Fixpoint lstrip (l : list ascii) : list ascii :=
  match l with
  | c :: r => if is_space c then lstrip r else l
  | [] => []
  end.

Definition strip (s : string) : string :=
  text (rev (lstrip (rev (lstrip (chars s))))).

(** Literal containment, Python's [needle in haystack]. *)
Fixpoint starts_with (p l : list ascii) : bool :=
  match p, l with
  | [], _ => true
  | a :: p', b :: l' => Ascii.eqb a b && starts_with p' l'
  | _ :: _, [] => false
  end.

Fixpoint contains_at_some_offset (p l : list ascii) : bool :=
  starts_with p l ||
  match l with
  | [] => false
  | _ :: l' => contains_at_some_offset p l'
  end.

Definition is_substring (needle haystack : string) : bool :=
  contains_at_some_offset (chars needle) (chars haystack).

End Text.

(** ** Outcomes of a Python call *)

Inductive exn : Type :=
| ReError (msg : string)      (* re.error of re.compile, msg is e.msg *)
| IndexError
| KeyError
| ZeroDivisionError
| ValueError.                 (* numpy: operands could not be broadcast *)

(** [NotModelled] marks an input the embedding does not cover (a regular
    expression outside the fragment below, a pandas operand of another length,
    or a store that holds no array where the code expects one); no theorem
    claims anything about what Python does there. *)
Inductive outcome (A : Type) : Type :=
| Returned (a : A)
| Raised (e : exn)
| NotModelled.
Arguments Raised {A} e.
Arguments NotModelled {A}.

(** ** A fragment of Python's [re]

    pandas' [Series.str.contains(pat)] has [regex=True] by default: it calls
    [re.compile(pat)] once and then [pattern.search] on every cell. The
    fragment has literals, [.], [|], groups, the greedy [*], [+], [?], and
    a backslash before a non-alphanumeric character. Classes, anchors,
    counted repeats, [(?...)] groups, alphanumeric escapes and a repeat
    applied to a repeat are left out ([Unsupported]). *)

Module Re.

Inductive regex : Type :=
| Eps
| Chr (c : ascii)
| Dot                     (* any character but a newline *)
| Cat (r1 r2 : regex)
| Alt (r1 r2 : regex)
| Star (r : regex).

Definition Plus (r : regex) : regex := Cat r (Star r).
Definition Opt (r : regex) : regex := Alt r Eps.

Inductive compiled : Type :=
| Pattern (r : regex)
| Error (msg : string)
| Unsupported.

(** One open group of the parser: the finished branches of the
    alternation (latest first), the items of the branch being read
    (latest first), and whether the latest item is already a repeat. *)
Record frame : Type := Frame {
  branches : list regex;
  items : list regex;
  repeated : bool
}.

Definition empty_frame : frame := Frame [] [] false.

Definition seq_of (its : list regex) : regex :=
  fold_left (fun acc r => Cat r acc) its Eps.

Definition close_frame (f : frame) : regex :=
  fold_left (fun acc r => Alt r acc) (branches f) (seq_of (items f)).

Definition push_item (r : regex) (f : frame) : frame :=
  Frame (branches f) (r :: items f) false.

Definition is_alnum (c : ascii) : bool :=
  let n := nat_of_ascii c in
  ((48 <=? n) && (n <=? 57)) || ((65 <=? n) && (n <=? 90))
  || ((97 <=? n) && (n <=? 122)).

(** The characters Python's parser treats specially. *)
Definition is_special (c : ascii) : bool :=
  existsb (Ascii.eqb c)
    ["."; "^"; "$"; "*"; "+"; "?"; "{"; "}"; "["; "]"; "\"; "|"; "("; ")"]%char.

Definition repeat_of (c : ascii) (r : regex) : regex :=
  if Ascii.eqb c "*" then Star r
  else if Ascii.eqb c "+" then Plus r
  else Opt r.

(** [parse cur stack l]: [cur] is the innermost open group, [stack] the
    groups around it. *)
Fixpoint parse (cur : frame) (stack : list frame) (l : list ascii)
  : compiled :=
  match l with
  | [] =>
      match stack with
      | [] => Pattern (close_frame cur)
      | _ :: _ => Error "missing ), unterminated subpattern"
      end
  | c :: rest =>
      if Ascii.eqb c "\" then
        match rest with
        | [] => Error "bad escape (end of pattern)"
        | d :: rest' =>
            if is_alnum d then Unsupported
            else parse (push_item (Chr d) cur) stack rest'
        end
      else if Ascii.eqb c "." then parse (push_item Dot cur) stack rest
      else if Ascii.eqb c "|" then
        parse (Frame (seq_of (items cur) :: branches cur) [] false)
              stack rest
      else if Ascii.eqb c "(" then
        match rest with
        | "?"%char :: _ => Unsupported
        | _ => parse empty_frame (cur :: stack) rest
        end
      else if Ascii.eqb c ")" then
        match stack with
        | [] => Error "unbalanced parenthesis"
        | outer :: stack' =>
            parse (push_item (close_frame cur) outer) stack' rest
        end
      else if Ascii.eqb c "*" || Ascii.eqb c "+" || Ascii.eqb c "?" then
        match items cur with
        | [] => Error "nothing to repeat"
        | r :: its =>
            if repeated cur then Unsupported
            else parse (Frame (branches cur) (repeat_of c r :: its) true)
                       stack rest
        end
      else if is_special c then Unsupported
      else parse (push_item (Chr c) cur) stack rest
  end.

Definition compile (pat : string) : compiled :=
  parse empty_frame [] (Text.chars pat).

(** Backtracking matcher: [run r l k] tries every way [r] can consume a
    prefix of [l] and hands the rest to [k]. An iteration of a star that
    consumes nothing is cut, as in Python's engine. *)
Fixpoint run (r : regex) (l : list ascii) (k : list ascii -> bool) : bool :=
  match r with
  | Eps => k l
  | Chr c =>
      match l with
      | d :: l' => Ascii.eqb c d && k l'
      | [] => false
      end
  | Dot =>
      match l with
      | d :: l' => negb (Ascii.eqb d "010") && k l'
      | [] => false
      end
  | Cat r1 r2 => run r1 l (fun l' => run r2 l' k)
  | Alt r1 r2 => run r1 l k || run r2 l k
  | Star r1 =>
      (fix loop (fuel : nat) (l0 : list ascii) : bool :=
         k l0 ||
         match fuel with
         | O => false
         | S fuel' =>
             run r1 l0 (fun l' =>
               if length l' <? length l0 then loop fuel' l' else false)
         end) (length l) l
  end.

(** [pattern.search(s) is not None]: a match starting at some offset. *)
Fixpoint search_from (r : regex) (l : list ascii) : bool :=
  run r l (fun _ => true) ||
  match l with
  | [] => false
  | _ :: l' => search_from r l'
  end.

Definition search (r : regex) (s : string) : bool :=
  search_from r (Text.chars s).

End Re.

(** ** The data frame *)

(** The one-hot genre columns, [genre_cols] of the script. *)
Inductive genre : Type :=
| activism | adult | bestseller | children_young_adult | fantasy | fiction
| guide | history | inspirational | literature | non_fiction | other
| poetry | romance | science | spiritual_religious | sport.

(** One row of [books_cluster.csv]. *)
Record book : Type := Book {
  title : string;
  author : string;
  avg_rating : Q;
  rating_count : Z;
  year_published : Z;
  all_genres : string;
  cluster : Z;
  genre_flag : genre -> Z;
  features_text : string
}.

Definition dataframe : Type := list book.

(** [enumerate df]: the rows with their index labels. *)
Definition enumerate (A : Type) (l : list A) : list (nat * A) :=
  combine (seq 0 (length l)) l.

(** The weights of the five signals. *)
Record weights : Type := Weights {
  w_title : Q;
  w_genre : Q;
  w_rating : Q;
  w_year : Q;
  w_cluster : Q
}.

Definition Qltb (a b : Q) : bool := negb (Qle_bool b a).

Definition w_sum (w : weights) : Q :=
  (w_title w + w_genre w + w_rating w + w_year w + w_cluster w)%Q.

(** [w / w_sum] for each weight. The weights are Python numbers, as the
    defaults of [recommend] and the values of the sliders are: their
    division raises on a zero divisor. (numpy scalars would give NaN
    there; the rationals have no such value.) *)
Definition normalize (w : weights) : outcome weights :=
  let s := w_sum w in
  if Qeq_bool s 0 then Raised ZeroDivisionError
  else Returned (Weights (w_title w / s) (w_genre w / s) (w_rating w / s)
                         (w_year w / s) (w_cluster w / s))%Q.

(** [(df["cluster"] == c).astype(int)] *)
Definition same_cluster (df : dataframe) (c : Z) : list Q :=
  map (fun b => if Z.eqb (cluster b) c then 1%Q else 0%Q) df.

(** [Series.str.contains(q)] over one text column: the pattern is compiled
    first, then searched in every cell. *)
Definition str_contains (q : string) (column : list string)
  : outcome (list bool) :=
  match Re.compile q with
  | Re.Pattern r => Returned (map (Re.search r) column)
  | Re.Error msg => Raised (ReError msg)
  | Re.Unsupported => NotModelled
  end.

(** [df[mask]]: the rows whose mask entry is true, with their labels. *)
Definition select_rows (df : dataframe) (mask : list bool)
  : list (nat * book) :=
  map fst (filter snd (combine (enumerate df) mask)).

Definition zip_add (a b : list Q) : list Q :=
  map (fun p => fst p + snd p)%Q (combine a b).

(** numpy's element-wise [a + b] on one-dimensional arrays, with
    broadcasting of a one-element operand. *)
Definition np_add (a b : list Q) : outcome (list Q) :=
  if length a =? length b then Returned (zip_add a b)
  else match a, b with
       | [x], _ => Returned (map (fun y => x + y)%Q b)
       | _, [y] => Returned (map (fun x => x + y)%Q a)
       | _, _ => Raised ValueError
       end.

Definition np_scale (w : Q) (a : list Q) : list Q := map (Qmult w) a.

(** ** The array store and its monad *)

Inductive ndarray : Type :=
| Arr1 (v : list Q)
| Arr2 (rows : list (list Q)).

Definition store : Type := list ndarray.

(** A one-dimensional array value: an array of its own, or the view
    [m[i]] of a row of a matrix. *)
Inductive vec : Type :=
| Whole (l : nat)
| RowOf (l : nat) (i : nat).

Definition M (A : Type) : Type := store -> outcome A * store.

Definition ret (A : Type) (a : A) : M A := fun st => (Returned a, st).

Definition bind (A B : Type) (m : M A) (f : A -> M B) : M B :=
  fun st =>
    match m st with
    | (Returned a, st') => f a st'
    | (Raised e, st') => (Raised e, st')
    | (NotModelled, st') => (NotModelled, st')
    end.

Definition lift (A : Type) (o : outcome A) : M A := fun st => (o, st).

Declare Scope py_scope.
Delimit Scope py_scope with py.
Notation "x <- m ;; k" := (bind m (fun x => k))
  (at level 61, m at next level, right associativity) : py_scope.
Notation "m ;;; k" := (bind m (fun _ => k))
  (at level 61, right associativity) : py_scope.
Local Open Scope py_scope.

Fixpoint replace_nth (A : Type) (n : nat) (x : A) (l : list A) : list A :=
  match l, n with
  | [], _ => []
  | _ :: r, O => x :: r
  | y :: r, S n' => y :: replace_nth n' x r
  end.

Definition read (st : store) (v : vec) : option (list Q) :=
  match v with
  | Whole l =>
      match nth_error st l with
      | Some (Arr1 d) => Some d
      | _ => None
      end
  | RowOf l i =>
      match nth_error st l with
      | Some (Arr2 rows) => nth_error rows i
      | _ => None
      end
  end.

Definition load (v : vec) : M (list Q) :=
  fun st =>
    match read st v with
    | Some d => (Returned d, st)
    | None => (NotModelled, st)
    end.

(** A new array object. *)
Definition alloc (d : list Q) : M vec :=
  fun st => (Returned (Whole (length st)), st ++ [Arr1 d]).

(** Writing through an array value reaches the object it views. *)
Definition write (v : vec) (d : list Q) : M unit :=
  fun st =>
    match v with
    | Whole l =>
        match nth_error st l with
        | Some (Arr1 _) => (Returned tt, replace_nth l (Arr1 d) st)
        | _ => (NotModelled, st)
        end
    | RowOf l i =>
        match nth_error st l with
        | Some (Arr2 rows) =>
            if i <? length rows
            then (Returned tt, replace_nth l (Arr2 (replace_nth i d rows)) st)
            else (NotModelled, st)
        | _ => (NotModelled, st)
        end
    end.

(** [m[idx]] on a two-dimensional array: a view, or [IndexError]. *)
Definition getitem (m : nat) (idx : nat) : M vec :=
  fun st =>
    match nth_error st m with
    | Some (Arr2 rows) =>
        if idx <? length rows then (Returned (RowOf m idx), st)
        else (Raised IndexError, st)
    | _ => (NotModelled, st)
    end.

(** [w * a]: a new array. *)
Definition scalar_mul (w : Q) (a : vec) : M vec :=
  d <- load a ;; alloc (np_scale w d).

(** [a + b]: a new array. *)
Definition add (a b : vec) : M vec :=
  x <- load a ;; y <- load b ;; s <- lift (np_add x y) ;; alloc s.

(** [a += series]: the sum is written into [a] itself. Operands of the
    same length only. *)
Definition iadd (a : vec) (series : list Q) : M unit :=
  x <- load a ;;
  if length x =? length series
  then write a (zip_add x series)
  else lift NotModelled.

(** ** [np.argsort]

    numpy's default sort kind is not stable: its contract is an index
    permutation that lists the values in ascending order, and the order of
    equal values is left to the implementation. *)
Record ArgSort : Type := {
  argsort :> list Q -> list nat;
  argsort_perm : forall v, Permutation (argsort v) (seq 0 (length v));
  argsort_sorted :
    forall v, StronglySorted (fun i j => nth i v 0 <= nth j v 0)%Q (argsort v)
}.

(** ** [recommend] of [book_rec_app.py] *)

Module Recommend.

(** The seven columns of the returned frame. *)
Record listing : Type := Listing {
  l_title : string;
  l_author : string;
  l_avg_rating : Q;
  l_rating_count : Z;
  l_year_published : Z;
  l_all_genres : string;
  l_cluster : Z
}.

Definition columns (b : book) : listing :=
  Listing (title b) (author b) (avg_rating b) (rating_count b)
          (year_published b) (all_genres b) (cluster b).

(** [recommend] returns a message string or a data frame. *)
Inductive result : Type :=
| Message (s : string)
| Table (rows : list (nat * listing)).

Definition not_found (query : string) : string :=
  "No books found for '" ++ query ++ "'. Try another keyword.".

(** Step 1: [q] and [matches]. *)
Definition normalized (query : string) : string :=
  Text.strip (Text.lower query).

Definition matches (query : string) (df : dataframe)
  : outcome (list (nat * book)) :=
  match str_contains (normalized query)
          (map (fun b => Text.lower (title b)) df) with
  | Returned mask => Returned (select_rows df mask)
  | Raised e => Raised e
  | NotModelled => NotModelled
  end.

(** Step 4: the weighted sum of the four rows, a new array at each
    product and each sum. *)
Definition weighted_sum (w : weights)
    (sim_title_vec sim_genre_vec sim_rating_vec sim_year_vec : vec)
  : M vec :=
  t <- scalar_mul (w_title w) sim_title_vec ;;
  g <- scalar_mul (w_genre w) sim_genre_vec ;;
  tg <- add t g ;;
  r <- scalar_mul (w_rating w) sim_rating_vec ;;
  tgr <- add tg r ;;
  y <- scalar_mul (w_year w) sim_year_vec ;;
  add tgr y.

(** Step 5: [hybrid_score += w_cluster * same_cluster]. *)
Definition cluster_boost (df : dataframe) (book_cluster : Z) (w : weights)
    (hybrid : vec) : M unit :=
  iadd hybrid (np_scale (w_cluster w) (same_cluster df book_cluster)).

(** Steps 2 to 5: the row views, the normalised weights, the weighted sum
    and the cluster boost. The matrices are given by the places of their
    array objects in the store. *)
Definition hybrid_score (df : dataframe) (idx : nat) (book_cluster : Z)
    (cosine_sim genre_sim rating_sim year_sim : nat) (w : weights) : M vec :=
  sim_title_vec <- getitem cosine_sim idx ;;
  sim_genre_vec <- getitem genre_sim idx ;;
  sim_rating_vec <- getitem rating_sim idx ;;
  sim_year_vec <- getitem year_sim idx ;;
  w' <- lift (normalize w) ;;
  hybrid <- weighted_sum w' sim_title_vec sim_genre_vec
              sim_rating_vec sim_year_vec ;;
  cluster_boost df book_cluster w' hybrid ;;;
  ret hybrid.

(** [l[:n]] for a Python integer [n]. *)
Definition slice_to (A : Type) (n : Z) (l : list A) : list A :=
  if (0 <=? n)%Z then firstn (Z.to_nat n) l
  else firstn (length l - Z.to_nat (- n)) l.

(** [df.iloc[top_indices][[...]]] *)
Fixpoint iloc (df : dataframe) (idxs : list nat)
  : outcome (list (nat * listing)) :=
  match idxs with
  | [] => Returned []
  | i :: rest =>
      match nth_error df i with
      | None => Raised IndexError
      | Some b =>
          match iloc df rest with
          | Returned rows => Returned ((i, columns b) :: rows)
          | Raised e => Raised e
          | NotModelled => NotModelled
          end
      end
  end.

(** Steps 6 and 7 on the finished score vector. *)
Definition top_indices (sort : ArgSort) (scores : list Q) (idx : nat)
    (n : Z) : list nat :=
  let indices_sorted := rev (sort scores) in
  let indices_sorted := filter (fun i => negb (i =? idx)) indices_sorted in
  slice_to n indices_sorted.

Definition recommend (sort : ArgSort) (query : string) (df : dataframe)
    (cosine_sim genre_sim rating_sim year_sim : nat) (n : Z) (w : weights)
  : M result :=
  found <- lift (matches query df) ;;
  match found with
  | [] => ret (Message (not_found query))
  | (idx, b) :: _ =>
      let book_cluster := cluster b in
      hybrid <- hybrid_score df idx book_cluster
                  cosine_sim genre_sim rating_sim year_sim w ;;
      scores <- load hybrid ;;
      rows <- lift (iloc df (top_indices sort scores idx n)) ;;
      ret (Table rows)
  end.

End Recommend.

(** ** The Streamlit script of [book_rec_app-checkpoint.py] *)

Definition obind (A B : Type) (o : outcome A) (f : A -> outcome B)
  : outcome B :=
  match o with
  | Returned a => f a
  | Raised e => Raised e
  | NotModelled => NotModelled
  end.

Notation "'let!' x ':=' o 'in' k" := (obind o (fun x => k))
  (at level 10, x pattern, o at level 100, k at level 200) : py_scope.

Module App.

Inductive search_mode : Type := Title | Author | Genre | Keyword.

(** The values of the side-bar widgets. *)
Record sidebar : Type := Sidebar {
  mode : search_mode;
  query : string;
  N : nat;                        (* slider 3 .. 20 *)
  min_rating : Q;
  genre_filter : list genre;
  sliders : weights
}.

(** The four similarity matrices, computed once from the data set. *)
Record matrices : Type := Matrices {
  cos_sim_title : list (list Q);
  cos_sim_genre : list (list Q);
  cos_sim_rating : list (list Q);
  cos_sim_year : list (list Q)
}.

(** Section 3: title and author are stripped. *)
Definition clean (b : book) : book :=
  Book (Text.strip (title b)) (Text.strip (author b)) (avg_rating b)
       (rating_count b) (year_published b) (all_genres b) (cluster b)
       (genre_flag b) (features_text b).

Definition title_lower (b : book) : string := Text.lower (title b).
Definition author_lower (b : book) : string := Text.lower (author b).

Definition is_empty (s : string) : bool :=
  match s with EmptyString => true | _ => false end.

(** Section 9: the rows kept by the search. *)
Definition filtered_df (sb : sidebar) (df : dataframe)
  : outcome (list (nat * book)) :=
  if is_empty (query sb) then Returned (enumerate df)
  else
    let q := Text.strip (Text.lower (query sb)) in
    let column :=
      match mode sb with
      | Title => map title_lower df
      | Author => map author_lower df
      | Genre => map (fun b => Text.lower (all_genres b)) df
      | Keyword => map (fun b => Text.lower (features_text b)) df
      end in
    let! mask := str_contains q column in
    Returned (select_rows df mask).

(** Section 10. A label is [title — author]; the dash lies outside the
    alphabet of the embedding, so two labels are equal exactly when
    their titles and their authors are. [pick] is the position the user
    chose in the select box. *)
Definition label (b : book) : string * string := (title b, author b).

Definition label_eqb (a b : string * string) : bool :=
  String.eqb (fst a) (fst b) && String.eqb (snd a) (snd b).

Definition selected_index (sb : sidebar) (filtered : list (nat * book))
    (pick : nat) : outcome (option nat) :=
  if negb (is_empty (query sb)) && (0 <? length filtered) then
    let options := map (fun ib => (label (snd ib), fst ib)) filtered in
    match nth_error (map fst options) pick with
    | None => NotModelled
    | Some selected_label =>
        match find (fun o => label_eqb (fst o) selected_label) options with
        | Some o => Returned (Some (snd o))
        | None => NotModelled
        end
    end
  else Returned None.

Definition getrow (m : list (list Q)) (i : nat) : outcome (list Q) :=
  match nth_error m i with
  | Some row => Returned row
  | None => Raised IndexError
  end.

(** Section 12, the score vector. *)
Definition hybrid (df : dataframe) (ms : matrices) (w : weights)
    (selected : nat) (bk : book) : outcome (list Q) :=
  let! sim_title := getrow (cos_sim_title ms) selected in
  let! sim_genre := getrow (cos_sim_genre ms) selected in
  let! sim_rating := getrow (cos_sim_rating ms) selected in
  let! sim_year := getrow (cos_sim_year ms) selected in
  let! tg := np_add (np_scale (w_title w) sim_title)
                    (np_scale (w_genre w) sim_genre) in
  let! tgr := np_add tg (np_scale (w_rating w) sim_rating) in
  let! tgry := np_add tgr (np_scale (w_year w) sim_year) in
  np_add tgry (np_scale (w_cluster w) (same_cluster df (cluster bk))).

(** [sorted(sim_scores, key=lambda x: x[1], reverse=True)]. Python's sort
    is stable, also with [reverse=True]: an element goes in front of the
    first later element whose key is not greater. *)
Fixpoint insert_desc (x : nat * Q) (l : list (nat * Q)) : list (nat * Q) :=
  match l with
  | [] => [x]
  | y :: r =>
      if Qltb (snd x) (snd y) then y :: insert_desc x r else x :: y :: r
  end.

Definition sorted_desc (l : list (nat * Q)) : list (nat * Q) :=
  fold_right insert_desc [] l.

(** Whether the loop body reaches [recs.append] for the row. *)
Definition accepted (sb : sidebar) (bk : book) : bool :=
  negb (Qltb (avg_rating bk) (min_rating sb)) &&
  match genre_filter sb with
  | [] => true
  | gs => existsb (fun g => Z.eqb (genre_flag bk g) 1) gs
  end.

(** The [for idx, score in sim_scores] loop, [recs] being the list built
    so far. *)
Fixpoint recs_loop (sb : sidebar) (df : dataframe) (selected : nat)
    (sim_scores recs : list (nat * Q)) : outcome (list (nat * Q)) :=
  match sim_scores with
  | [] => Returned recs
  | (idx, score) :: rest =>
      if idx =? selected then recs_loop sb df selected rest recs
      else
        match nth_error df idx with
        | None => Raised KeyError
        | Some bk =>
            if Qltb (avg_rating bk) (min_rating sb)
            then recs_loop sb df selected rest recs
            else if match genre_filter sb with
                    | [] => false
                    | gs => negb (existsb (fun g => Z.eqb (genre_flag bk g) 1) gs)
                    end
            then recs_loop sb df selected rest recs
            else
              let recs' := recs ++ [(idx, score)] in
              if N sb <=? length recs' then Returned recs'
              else recs_loop sb df selected rest recs'
        end
  end.

Definition recommendations (sb : sidebar) (df : dataframe) (ms : matrices)
    (w : weights) (selected : nat) : outcome (list (nat * Q)) :=
  match nth_error df selected with
  | None => Raised KeyError
  | Some bk =>
      let! h := hybrid df ms w selected bk in
      let sim_scores := sorted_desc (enumerate h) in
      recs_loop sb df selected sim_scores []
  end.

(** One run of the script: [None] when no book is selected. *)
Definition script (raw : dataframe) (ms : matrices) (sb : sidebar)
    (pick : nat) : outcome (option (list (nat * Q))) :=
  let df := map clean raw in
  let! w := normalize (sliders sb) in
  let! filtered := filtered_df sb df in
  let! sel := selected_index sb filtered pick in
  match sel with
  | None => Returned None
  | Some selected =>
      let! recs := recommendations sb df ms w selected in
      Returned (Some recs)
  end.

End App.

(** ** A stable [argsort]

    One implementation that meets numpy's contract: insertion sort on the
    indices, equal values keeping their order (what a scalar insertion
    sort does on a short array). *)

Module StableArgsort.

Fixpoint insert_asc (v : list Q) (i : nat) (l : list nat) : list nat :=
  match l with
  | [] => [i]
  | j :: r =>
      if Qltb (nth j v 0%Q) (nth i v 0%Q) then j :: insert_asc v i r
      else i :: j :: r
  end.

Definition sort (v : list Q) : list nat :=
  fold_right (insert_asc v) [] (seq 0 (length v)).

End StableArgsort.

(** ** A five-book data set *)

Module Toy.

Definition flags (gs : list genre) (g : genre) : Z :=
  if existsb (fun h => match g, h with
                       | fantasy, fantasy | fiction, fiction
                       | history, history | science, science
                       | romance, romance => true
                       | _, _ => false
                       end) gs
  then 1%Z else 0%Z.

Definition dune : book :=
  Book "Dune" "Frank Herbert" 4.3 1200 1965 "fiction science" 0
       (flags [fiction; science]) "dune desert planet".
Definition emma : book :=
  Book "Emma" "Jane Austen" 4.0 900 1815 "fiction romance" 1
       (flags [fiction; romance]) "emma matchmaking".
Definition abc : book :=
  Book "ABC of Reading" "Ezra Pound" 3.9 150 1934 "history" 0
       (flags [history]) "reading guide".
Definition hobbit : book :=
  Book "The Hobbit" "J.R.R. Tolkien" 4.3 5000 1937 "fantasy fiction" 1
       (flags [fantasy; fiction]) "hobbit dragon ring".
Definition cosmos : book :=
  Book "Cosmos" "Carl Sagan" 4.4 800 1980 "science" 2
       (flags [science]) "cosmos universe".

Definition df : dataframe := [dune; emma; abc; hobbit; cosmos].

(** Row 0 of the title and genre matrices is the scenario of the
    specification; rating and year carry no weight there. *)
Definition title_m : list (list Q) :=
  [[1; 0.8; 0.3; 0.3; 0.1]; [0.8; 1; 0; 0; 0]; [0.3; 0; 1; 0; 0];
   [0.3; 0; 0; 1; 0]; [0.1; 0; 0; 0; 1]]%Q.
Definition genre_m : list (list Q) :=
  [[1; 0.2; 0.9; 0.1; 0.1]; [0.2; 1; 0; 0; 0]; [0.9; 0; 1; 0; 0];
   [0.1; 0; 0; 1; 0]; [0.1; 0; 0; 0; 1]]%Q.
Definition ones_m : list (list Q) :=
  [[1; 1; 1; 1; 1]; [1; 1; 1; 1; 1]; [1; 1; 1; 1; 1];
   [1; 1; 1; 1; 1]; [1; 1; 1; 1; 1]]%Q.

(** The store of a caller: the four matrices at places 0 to 3. *)
Definition st : store := [Arr2 title_m; Arr2 genre_m; Arr2 ones_m; Arr2 ones_m].

Definition half_half : weights := Weights 0.5 0.5 0 0 0.
Definition defaults : weights := Weights 0.45 0.25 0.15 0.10 0.05.
Definition zeros : weights := Weights 0 0 0 0 0.

Definition ms : App.matrices := App.Matrices title_m genre_m ones_m ones_m.

End Toy.

(** ** Eight editions of one book

    Eight rows with one title and one cluster, and matrices of ones: every
    book scores the same against every other. *)

Module Editions.

Definition df : dataframe := repeat Toy.dune 8.

Definition ones : list (list Q) := repeat (repeat 1%Q 8) 8.

Definition st : store := [Arr2 ones; Arr2 ones; Arr2 ones; Arr2 ones].

Definition ms : App.matrices := App.Matrices ones ones ones ones.

Definition search : App.sidebar :=
  App.Sidebar App.Title "dune" 10 0 [] Toy.defaults.

End Editions.

(** ** Sections 6 and 7 of the script: rating and year similarity

    A column is scaled to [0, 1] with sklearn's [MinMaxScaler] and the
    scaled column, a matrix with one feature, goes to
    [cosine_similarity]. sklearn's tolerance for scales below ten machine
    epsilons is the exact test for zero here. The column holds numbers
    (no NaN), the year column after its conversion to integers; sklearn
    rejects an array with no sample with a [ValueError]. *)

Module Prep.

Definition qmin (a b : Q) : Q := if Qle_bool a b then a else b.
Definition qmax (a b : Q) : Q := if Qle_bool a b then b else a.

(** sklearn's [_handle_zeros_in_scale]: a zero scale is replaced by 1. *)
Definition handle_zeros (s : Q) : Q := if Qeq_bool s 0 then 1%Q else s.

(** [MinMaxScaler().fit_transform] on one column: [X * scale_ + min_]. *)
Definition min_max_scale (col : list Q) : outcome (list Q) :=
  match col with
  | [] => Raised ValueError
  | x :: rest =>
      let data_min := fold_left qmin rest x in
      let data_max := fold_left qmax rest x in
      let data_range := (data_max - data_min)%Q in
      let scale_ := (1 / handle_zeros data_range)%Q in
      let min_ := (0 - data_min * scale_)%Q in
      Returned (map (fun v => v * scale_ + min_)%Q col)
  end.

(** A row with one feature [x] divided by its norm, which is [|x|]. *)
Definition unit_row (x : Q) : Q := (x / handle_zeros (Qabs x))%Q.

(** [cosine_similarity] of a one-feature matrix with itself: the rows are
    normalised once, then multiplied pairwise. *)
Definition cosine_similarity (col : list Q) : outcome (list (list Q)) :=
  match col with
  | [] => Raised ValueError
  | _ :: _ =>
      let normalized := map unit_row col in
      Returned (map (fun xi => map (fun xj => xi * xj)%Q normalized)
                  normalized)
  end.

Definition similarity_of_column (col : list Q) : outcome (list (list Q)) :=
  let! scaled := min_max_scale col in
  cosine_similarity scaled.

(** [cos_sim_rating] *)
Definition rating_similarity (df : dataframe) : outcome (list (list Q)) :=
  similarity_of_column (map avg_rating df).

(** [cos_sim_year], the year column holding integers already. *)
Definition year_similarity (df : dataframe) : outcome (list (list Q)) :=
  similarity_of_column (map (fun b => inject_Z (year_published b)) df).

End Prep.

(** * Definitions used in the statements

    Closed forms of what the programs compute, and the vocabulary of the
    theorems. Each closed form is proved equal to the program it
    describes. *)

(** The content of the array [weighted_sum] returns, from the contents of
    the four rows. *)
Definition blend (w : weights) (t g r y : list Q) : outcome (list Q) :=
  let! tg := np_add (np_scale (w_title w) t) (np_scale (w_genre w) g) in
  let! tgr := np_add tg (np_scale (w_rating w) r) in
  np_add tgr (np_scale (w_year w) y).

(** Row [idx] of the array object found at a place of the store. *)
Definition matrix_row (cell : option ndarray) (idx : nat)
  : outcome (list Q) :=
  match cell with
  | Some (Arr2 rows) =>
      match nth_error rows idx with
      | Some row => Returned row
      | None => Raised IndexError
      end
  | _ => NotModelled
  end.

(** The content of [hybrid_score] after the in-place boost. *)
Definition boosted (df : dataframe) (c : Z) (w : weights) (h : list Q)
  : outcome (list Q) :=
  let series := np_scale (w_cluster w) (same_cluster df c) in
  if length h =? length series
  then Returned (zip_add h series)
  else NotModelled.

(** The score vector of [hybrid_score], from the four array objects. *)
Definition scores_of (df : dataframe) (idx : nat) (c : Z)
    (ct gt rt yt : option ndarray) (w : weights) : outcome (list Q) :=
  let! t := matrix_row ct idx in
  let! g := matrix_row gt idx in
  let! r := matrix_row rt idx in
  let! y := matrix_row yt idx in
  let! w' := normalize w in
  let! h := blend w' t g r y in
  boosted df c w' h.

(** The value of [recommend], from the four array objects. *)
Definition recommend_value (sort : ArgSort) (query : string) (df : dataframe)
    (ct gt rt yt : option ndarray) (n : Z) (w : weights)
  : outcome Recommend.result :=
  let! found := Recommend.matches query df in
  match found with
  | [] => Returned (Recommend.Message (Recommend.not_found query))
  | (idx, b) :: _ =>
      let! scores := scores_of df idx (cluster b) ct gt rt yt w in
      let! rows :=
        Recommend.iloc df (Recommend.top_indices sort scores idx n) in
      Returned (Recommend.Table rows)
  end.

(** The vector both programs build, operation by operation. *)
Definition composite (w : weights) (t g r y : list Q) (df : dataframe)
    (c : Z) : list Q :=
  zip_add
    (zip_add
       (zip_add
          (zip_add (np_scale (w_title w) t) (np_scale (w_genre w) g))
          (np_scale (w_rating w) r))
       (np_scale (w_year w) y))
    (np_scale (w_cluster w) (same_cluster df c)).

Definition normalized_weights (w : weights) : weights :=
  let s := w_sum w in
  Weights (w_title w / s) (w_genre w / s) (w_rating w / s)
          (w_year w / s) (w_cluster w / s).

(** [x] stands somewhere before [y] in [l]. *)
Definition before (A : Type) (x y : A) (l : list A) : Prop :=
  exists l1 l2 l3, l = l1 ++ x :: l2 ++ y :: l3.

(** The order [sorted] with [reverse=True] produces on (index, score)
    pairs: greater score first, and for equal scores smaller index
    first. *)
Definition ranks_before (x y : nat * Q) : Prop :=
  (snd y < snd x)%Q \/ ((snd x == snd y)%Q /\ fst x < fst y).

(** The pattern a run of ordinary characters compiles to. *)
Definition literal (p : list ascii) : Re.regex :=
  fold_right (fun c acc => Re.Cat (Re.Chr c) acc) Re.Eps p.

Definition ordinary (p : list ascii) : bool :=
  forallb (fun c => negb (Re.is_special c)) p.

Definition contained_nowhere (query : string) (df : dataframe) : bool :=
  forallb (fun b => negb (Text.is_substring (Recommend.normalized query)
                            (Text.lower (title b)))) df.

(** Whether the loop keeps an entry of the ranking: it is not the selected
    book and its row passes the two filters. *)
Definition eligible (sb : App.sidebar) (df : dataframe) (selected i : nat)
  : bool :=
  negb (i =? selected) &&
  match nth_error df i with
  | Some bk => App.accepted sb bk
  | None => false
  end.

Definition keep (sb : App.sidebar) (df : dataframe) (selected : nat)
    (p : nat * Q) : bool :=
  eligible sb df selected (fst p).

Definition dune_search : App.sidebar :=
  App.Sidebar App.Title "dune" 3 3.9 [] Toy.half_half.

Definition fiction_search : App.sidebar :=
  App.Sidebar App.Title "dune" 3 4.0 [fiction] Toy.half_half.

(** A list of characters that does not begin with white space. *)
Definition starts_clean (l : list ascii) : bool :=
  match l with
  | [] => true
  | c :: _ => negb (Text.is_space c)
  end.

(** [str.strip] on the list of characters: both ends. *)
Definition strip_list (l : list ascii) : list ascii :=
  rev (Text.lstrip (rev (Text.lstrip l))).

(** A similarity matrix fits a frame when it is square of the frame's
    size. *)
Definition fits (df : dataframe) (m : list (list Q)) : Prop :=
  length m = length df /\ Forall (fun row => length row = length df) m.

(** * Properties *)

(** ** The stable [argsort] meets numpy's contract *)

Lemma insert_asc_perm (v : list Q) (i : nat) (l : list nat) :
  Permutation (StableArgsort.insert_asc v i l) (i :: l).
Proof.
  induction l as [|j r IH]; simpl; [reflexivity|].
  destruct (Qltb _ _); [|reflexivity].
  rewrite IH. apply perm_swap.
Qed.

Lemma stable_sort_perm (v : list Q) :
  Permutation (StableArgsort.sort v) (seq 0 (length v)).
Proof.
  unfold StableArgsort.sort.
  induction (seq 0 (length v)) as [|i l IH]; simpl.
  - reflexivity.
  - rewrite insert_asc_perm. now constructor.
Qed.

Lemma Qltb_false_le (a b : Q) : Qltb a b = false -> (b <= a)%Q.
Proof.
  unfold Qltb. intros H. apply negb_false_iff in H.
  now apply Qle_bool_iff.
Qed.

Lemma Qltb_true_lt (a b : Q) : Qltb a b = true -> (a < b)%Q.
Proof.
  unfold Qltb. intros H. apply negb_true_iff in H.
  apply Qnot_le_lt. intros C. apply Qle_bool_iff in C. congruence.
Qed.

Lemma insert_asc_sorted (v : list Q) (i : nat) (l : list nat) :
  StronglySorted (fun a b => nth a v 0 <= nth b v 0)%Q l ->
  StronglySorted (fun a b => nth a v 0 <= nth b v 0)%Q
                 (StableArgsort.insert_asc v i l).
Proof.
  induction 1 as [|j r Hs IH Hall]; simpl.
  - repeat constructor.
  - destruct (Qltb (nth j v 0%Q) (nth i v 0%Q)) eqn:E.
    + constructor; [exact IH|].
      apply (@Permutation_Forall _ _ (i :: r)).
      * symmetry. apply insert_asc_perm.
      * constructor; [|exact Hall].
        apply Qlt_le_weak. now apply Qltb_true_lt.
    + apply Qltb_false_le in E.
      constructor; [now constructor|].
      constructor; [exact E|].
      eapply Forall_impl; [|exact Hall].
      intros a Ha. simpl in Ha. eapply Qle_trans; eassumption.
Qed.

Lemma stable_sort_sorted (v : list Q) :
  StronglySorted (fun a b => nth a v 0 <= nth b v 0)%Q (StableArgsort.sort v).
Proof.
  unfold StableArgsort.sort.
  induction (seq 0 (length v)) as [|i l IH]; simpl.
  - constructor.
  - now apply insert_asc_sorted.
Qed.

Definition stable_argsort : ArgSort :=
  Build_ArgSort StableArgsort.sort stable_sort_perm stable_sort_sorted.

(** ** The store *)

Section StoreLemmas.

Lemma bind_returned (A B : Type) (m : M A) (f : A -> M B) st a st' :
  m st = (Returned a, st') -> bind m f st = f a st'.
Proof. unfold bind. now intros ->. Qed.

Lemma bind_raised (A B : Type) (m : M A) (f : A -> M B) st e st' :
  m st = (Raised e, st') -> bind m f st = (Raised e, st').
Proof. unfold bind. now intros ->. Qed.

Lemma bind_not_modelled (A B : Type) (m : M A) (f : A -> M B) st st' :
  m st = (NotModelled, st') -> bind m f st = (NotModelled, st').
Proof. unfold bind. now intros ->. Qed.

Lemma read_app (st ext : store) (v : vec) (d : list Q) :
  read st v = Some d -> read (st ++ ext) v = Some d.
Proof.
  destruct v as [l|l i]; simpl; intros H;
    destruct (nth_error st l) as [c|] eqn:E; try discriminate;
    rewrite nth_error_app1 by (apply nth_error_Some; congruence);
    now rewrite E.
Qed.

Lemma read_fresh (st : store) (d : list Q) :
  read (st ++ [Arr1 d]) (Whole (length st)) = Some d.
Proof.
  simpl. rewrite nth_error_app2 by lia. now rewrite Nat.sub_diag.
Qed.

Lemma load_run st v d : read st v = Some d -> load v st = (Returned d, st).
Proof. unfold load. now intros ->. Qed.

Lemma scalar_mul_run st w a d :
  read st a = Some d ->
  scalar_mul w a st
  = (Returned (Whole (length st)), st ++ [Arr1 (np_scale w d)]).
Proof.
  intros H. unfold scalar_mul.
  now rewrite (bind_returned _ _ _ (load_run _ _ H)).
Qed.

Lemma add_run st a b x y s :
  read st a = Some x -> read st b = Some y -> np_add x y = Returned s ->
  add a b st = (Returned (Whole (length st)), st ++ [Arr1 s]).
Proof.
  intros Ha Hb Hs. unfold add.
  rewrite (bind_returned _ _ _ (load_run _ _ Ha)).
  rewrite (bind_returned _ _ _ (load_run _ _ Hb)).
  unfold lift at 1. unfold bind. now rewrite Hs.
Qed.

Lemma add_raise st a b x y e :
  read st a = Some x -> read st b = Some y -> np_add x y = Raised e ->
  add a b st = (Raised e, st).
Proof.
  intros Ha Hb Hs. unfold add.
  rewrite (bind_returned _ _ _ (load_run _ _ Ha)).
  rewrite (bind_returned _ _ _ (load_run _ _ Hb)).
  unfold lift at 1. unfold bind. now rewrite Hs.
Qed.

Lemma np_add_modelled x y : np_add x y <> NotModelled.
Proof.
  unfold np_add. destruct (length x =? length y); [discriminate|].
  destruct x as [|a [|]]; destruct y as [|b [|]]; discriminate.
Qed.

Lemma replace_nth_last (A : Type) (l : list A) (x y : A) :
  replace_nth (length l) y (l ++ [x]) = l ++ [y].
Proof. induction l; simpl; congruence. Qed.

Lemma iadd_fresh st x series :
  length x = length series ->
  iadd (Whole (length st)) series (st ++ [Arr1 x])
  = (Returned tt,
     st ++ [Arr1 (zip_add x series)]).
Proof.
  intros Hl. unfold iadd.
  rewrite (bind_returned _ _ _ (load_run _ _ (read_fresh st x))).
  rewrite Hl, Nat.eqb_refl. unfold write.
  rewrite nth_error_app2 by lia. rewrite Nat.sub_diag. simpl.
  now rewrite replace_nth_last.
Qed.

Lemma iadd_fresh_mismatch st x series :
  length x <> length series ->
  iadd (Whole (length st)) series (st ++ [Arr1 x])
  = (NotModelled, st ++ [Arr1 x]).
Proof.
  intros Hl. unfold iadd.
  rewrite (bind_returned _ _ _ (load_run _ _ (read_fresh st x))).
  apply Nat.eqb_neq in Hl. now rewrite Hl.
Qed.

End StoreLemmas.

(** ** What [weighted_sum] and [hybrid_score] compute *)

Section WeightedSum.

Variables (w : weights) (tv gv rv yv : vec) (t g r y : list Q).
Variable st : store.
Hypothesis Ht : read st tv = Some t.
Hypothesis Hg : read st gv = Some g.
Hypothesis Hr : read st rv = Some r.
Hypothesis Hy : read st yv = Some y.

Lemma weighted_sum_run :
  match blend w t g r y with
  | Returned s =>
      exists ext,
        Recommend.weighted_sum w tv gv rv yv st
        = (Returned (Whole (length (st ++ ext))), (st ++ ext) ++ [Arr1 s])
  | Raised e =>
      exists ext,
        Recommend.weighted_sum w tv gv rv yv st = (Raised e, st ++ ext)
  | NotModelled => False
  end.
Proof.
  unfold blend, Recommend.weighted_sum.
  erewrite bind_returned by (eapply scalar_mul_run; exact Ht).
  set (s1 := st ++ [Arr1 (np_scale (w_title w) t)]).
  assert (R1 : read s1 (Whole (length st)) = Some (np_scale (w_title w) t))
    by apply read_fresh.
  erewrite bind_returned
    by (eapply scalar_mul_run; apply read_app; exact Hg).
  set (s2 := s1 ++ [Arr1 (np_scale (w_genre w) g)]).
  assert (R2 : read s2 (Whole (length s1)) = Some (np_scale (w_genre w) g))
    by apply read_fresh.
  assert (R1' : read s2 (Whole (length st)) = Some (np_scale (w_title w) t))
    by (apply read_app; exact R1).
  destruct (np_add (np_scale (w_title w) t) (np_scale (w_genre w) g))
    as [tg|e|] eqn:E1; simpl.
  2:{ exists [Arr1 (np_scale (w_title w) t); Arr1 (np_scale (w_genre w) g)].
      erewrite bind_raised
        by (eapply add_raise; [exact R1'|exact R2|exact E1]).
      unfold s2, s1. now rewrite <- app_assoc. }
  2:{ now apply np_add_modelled in E1. }
  erewrite bind_returned by (eapply add_run; [exact R1'|exact R2|exact E1]).
  set (s3 := s2 ++ [Arr1 tg]).
  assert (R3 : read s3 (Whole (length s2)) = Some tg) by apply read_fresh.
  assert (Hr3 : read s3 rv = Some r).
  { unfold s3, s2, s1. now repeat apply read_app. }
  erewrite bind_returned by (eapply scalar_mul_run; exact Hr3).
  set (s4 := s3 ++ [Arr1 (np_scale (w_rating w) r)]).
  assert (R4 : read s4 (Whole (length s3)) = Some (np_scale (w_rating w) r))
    by apply read_fresh.
  assert (R3' : read s4 (Whole (length s2)) = Some tg)
    by (apply read_app; exact R3).
  destruct (np_add tg (np_scale (w_rating w) r)) as [tgr|e|] eqn:E2; simpl.
  2:{ exists [Arr1 (np_scale (w_title w) t); Arr1 (np_scale (w_genre w) g);
              Arr1 tg; Arr1 (np_scale (w_rating w) r)].
      erewrite bind_raised
        by (eapply add_raise; [exact R3'|exact R4|exact E2]).
      unfold s4, s3, s2, s1. now rewrite <- !app_assoc. }
  2:{ now apply np_add_modelled in E2. }
  erewrite bind_returned by (eapply add_run; [exact R3'|exact R4|exact E2]).
  set (s5 := s4 ++ [Arr1 tgr]).
  assert (R5 : read s5 (Whole (length s4)) = Some tgr) by apply read_fresh.
  assert (Hy5 : read s5 yv = Some y).
  { unfold s5, s4, s3, s2, s1. now repeat apply read_app. }
  erewrite bind_returned by (eapply scalar_mul_run; exact Hy5).
  set (s6 := s5 ++ [Arr1 (np_scale (w_year w) y)]).
  assert (R6 : read s6 (Whole (length s5)) = Some (np_scale (w_year w) y))
    by apply read_fresh.
  assert (R5' : read s6 (Whole (length s4)) = Some tgr)
    by (apply read_app; exact R5).
  destruct (np_add tgr (np_scale (w_year w) y)) as [h|e|] eqn:E3.
  - exists [Arr1 (np_scale (w_title w) t); Arr1 (np_scale (w_genre w) g);
            Arr1 tg; Arr1 (np_scale (w_rating w) r); Arr1 tgr;
            Arr1 (np_scale (w_year w) y)].
    erewrite add_run by first [exact R5'|exact R6|exact E3].
    unfold s6, s5, s4, s3, s2, s1. now rewrite <- !app_assoc.
  - exists [Arr1 (np_scale (w_title w) t); Arr1 (np_scale (w_genre w) g);
            Arr1 tg; Arr1 (np_scale (w_rating w) r); Arr1 tgr;
            Arr1 (np_scale (w_year w) y)].
    erewrite add_raise by first [exact R5'|exact R6|exact E3].
    unfold s6, s5, s4, s3, s2, s1. now rewrite <- !app_assoc.
  - now apply np_add_modelled in E3.
Qed.

End WeightedSum.

Lemma getitem_run (st : store) (m idx : nat) :
  match matrix_row (nth_error st m) idx with
  | Returned row =>
      getitem m idx st = (Returned (RowOf m idx), st)
      /\ read st (RowOf m idx) = Some row
  | Raised e => getitem m idx st = (Raised e, st)
  | NotModelled => getitem m idx st = (NotModelled, st)
  end.
Proof.
  unfold matrix_row, getitem. simpl.
  destruct (nth_error st m) as [[v|rows]|]; try reflexivity.
  destruct (nth_error rows idx) as [row|] eqn:E.
  - assert (idx < length rows) as H by (apply nth_error_Some; congruence).
    apply Nat.ltb_lt in H. rewrite H. auto.
  - apply nth_error_None in E.
    assert ((idx <? length rows) = false) as H by (apply Nat.ltb_ge; lia).
    now rewrite H.
Qed.

(** The run of [hybrid_score]: its outcome is [scores_of] of the array
    objects at the four places, the result is a new array, and the store
    only grows. *)
Lemma hybrid_score_run (df : dataframe) (idx : nat) (c : Z)
    (cs gs rs ys : nat) (w : weights) (st : store) :
  match scores_of df idx c (nth_error st cs) (nth_error st gs)
                  (nth_error st rs) (nth_error st ys) w with
  | Returned s =>
      exists ext,
        Recommend.hybrid_score df idx c cs gs rs ys w st
        = (Returned (Whole (length (st ++ ext))), (st ++ ext) ++ [Arr1 s])
  | Raised e =>
      exists ext,
        Recommend.hybrid_score df idx c cs gs rs ys w st = (Raised e, st ++ ext)
  | NotModelled =>
      exists ext,
        Recommend.hybrid_score df idx c cs gs rs ys w st
        = (NotModelled, st ++ ext)
  end.
Proof.
  unfold scores_of, Recommend.hybrid_score.
  pose proof (getitem_run st cs idx) as G1.
  destruct (matrix_row (nth_error st cs) idx) as [t|e|]; simpl;
    [destruct G1 as [G1 Ht]
    | exists []; rewrite app_nil_r; now erewrite bind_raised by exact G1
    | exists []; rewrite app_nil_r; now erewrite bind_not_modelled by exact G1].
  erewrite bind_returned by exact G1.
  pose proof (getitem_run st gs idx) as G2.
  destruct (matrix_row (nth_error st gs) idx) as [g|e|]; simpl;
    [destruct G2 as [G2 Hg]
    | exists []; rewrite app_nil_r; now erewrite bind_raised by exact G2
    | exists []; rewrite app_nil_r; now erewrite bind_not_modelled by exact G2].
  erewrite bind_returned by exact G2.
  pose proof (getitem_run st rs idx) as G3.
  destruct (matrix_row (nth_error st rs) idx) as [r|e|]; simpl;
    [destruct G3 as [G3 Hr]
    | exists []; rewrite app_nil_r; now erewrite bind_raised by exact G3
    | exists []; rewrite app_nil_r; now erewrite bind_not_modelled by exact G3].
  erewrite bind_returned by exact G3.
  pose proof (getitem_run st ys idx) as G4.
  destruct (matrix_row (nth_error st ys) idx) as [y|e|]; simpl;
    [destruct G4 as [G4 Hy]
    | exists []; rewrite app_nil_r; now erewrite bind_raised by exact G4
    | exists []; rewrite app_nil_r; now erewrite bind_not_modelled by exact G4].
  erewrite bind_returned by exact G4.
  destruct (normalize w) as [w'|e|] eqn:En; simpl;
    [ | exists []; rewrite app_nil_r; reflexivity
      | exists []; rewrite app_nil_r; reflexivity].
  change (bind (lift (Returned w')) ?f st) with (f w' st); cbv beta.
  pose proof (@weighted_sum_run w' _ _ _ _ _ _ _ _ _ Ht Hg Hr Hy) as Hw.
  destruct (blend w' t g r y) as [h|e|]; simpl; [ | | contradiction].
  - destruct Hw as [ext Hw].
    erewrite bind_returned by exact Hw.
    unfold Recommend.cluster_boost, boosted.
    destruct (length h =? length
                (np_scale (w_cluster w') (same_cluster df c))) eqn:El.
    + apply Nat.eqb_eq in El. exists ext.
      erewrite bind_returned by (apply iadd_fresh; exact El).
      reflexivity.
    + apply Nat.eqb_neq in El. exists (ext ++ [Arr1 h]).
      erewrite bind_not_modelled by (apply iadd_fresh_mismatch; exact El).
      now rewrite app_assoc.
  - destruct Hw as [ext Hw]. exists ext.
    now erewrite bind_raised by exact Hw.
Qed.

(** The run of [recommend]: the value is [recommend_value] of the array
    objects at the four places, and the store only grows. *)
Lemma recommend_run (sort : ArgSort) (query : string) (df : dataframe)
    (cs gs rs ys : nat) (n : Z) (w : weights) (st : store) :
  exists ext,
    Recommend.recommend sort query df cs gs rs ys n w st
    = (recommend_value sort query df (nth_error st cs) (nth_error st gs)
         (nth_error st rs) (nth_error st ys) n w,
       st ++ ext).
Proof.
  unfold Recommend.recommend, recommend_value.
  destruct (Recommend.matches query df) as [found|e|];
    [ | exists []; now rewrite app_nil_r | exists []; now rewrite app_nil_r].
  change (bind (lift (Returned found)) ?f st) with (f found st); cbv beta.
  destruct found as [|[idx b] rest]; simpl.
  { exists []. now rewrite app_nil_r. }
  pose proof (hybrid_score_run df idx (cluster b) cs gs rs ys w st) as H.
  destruct (scores_of df idx (cluster b) (nth_error st cs) (nth_error st gs)
              (nth_error st rs) (nth_error st ys) w) as [s|e|];
    destruct H as [ext H]; simpl.
  - erewrite bind_returned by exact H.
    erewrite bind_returned by (apply load_run; apply read_fresh).
    exists (ext ++ [Arr1 s]). rewrite app_assoc.
    unfold lift, bind, ret.
    now destruct (Recommend.iloc df (Recommend.top_indices sort s idx n)).
  - exists ext. now erewrite bind_raised by exact H.
  - exists ext. now erewrite bind_not_modelled by exact H.
Qed.

(** ** Element-wise arithmetic *)

Section Arrays.

Lemma length_np_scale (w : Q) (a : list Q) :
  length (np_scale w a) = length a.
Proof. apply length_map. Qed.

Lemma length_zip_add (a b : list Q) :
  length a = length b -> length (zip_add a b) = length a.
Proof.
  intros H. unfold zip_add. rewrite length_map, length_combine. lia.
Qed.

Lemma length_zip_add_min (a b : list Q) :
  length (zip_add a b) = Nat.min (length a) (length b).
Proof. unfold zip_add. now rewrite length_map, length_combine. Qed.

Lemma length_same_cluster (df : dataframe) (c : Z) :
  length (same_cluster df c) = length df.
Proof. apply length_map. Qed.

Lemma nth_np_scale (w : Q) (a : list Q) (i : nat) :
  i < length a -> nth i (np_scale w a) 0%Q = (w * nth i a 0)%Q.
Proof.
  intros H. unfold np_scale.
  rewrite (nth_indep _ 0%Q (w * 0)%Q) by now rewrite length_map.
  apply (map_nth (Qmult w)).
Qed.

Lemma nth_zip_add (a b : list Q) (i : nat) :
  i < length a -> length a = length b ->
  nth i (zip_add a b) 0%Q = (nth i a 0 + nth i b 0)%Q.
Proof.
  intros Hi Hl. unfold zip_add.
  rewrite (nth_indep _ 0%Q (fst (0%Q, 0%Q) + snd (0%Q, 0%Q))%Q)
    by (rewrite length_map, length_combine; lia).
  rewrite (map_nth (fun p => fst p + snd p)%Q).
  now rewrite combine_nth.
Qed.

Lemma nth_same_cluster (df : dataframe) (c : Z) (i : nat) (b : book) :
  nth_error df i = Some b ->
  nth i (same_cluster df c) 0%Q = if Z.eqb (cluster b) c then 1%Q else 0%Q.
Proof.
  intros H. unfold same_cluster.
  apply nth_error_nth. now rewrite nth_error_map, H.
Qed.

Lemma np_add_same_length (a b : list Q) :
  length a = length b -> np_add a b = Returned (zip_add a b).
Proof. intros H. unfold np_add. now rewrite H, Nat.eqb_refl. Qed.

End Arrays.

Ltac lens :=
  rewrite ?length_zip_add_min, ?length_np_scale, ?length_same_cluster; lia.

(** ** The composite score *)

Section Composite.

Variables (w : weights) (t g r y : list Q) (df : dataframe) (c : Z).
Hypothesis Lt : length t = length df.
Hypothesis Lg : length g = length df.
Hypothesis Lr : length r = length df.
Hypothesis Ly : length y = length df.

Lemma blend_same_length :
  blend w t g r y
  = Returned
      (zip_add
         (zip_add
            (zip_add (np_scale (w_title w) t) (np_scale (w_genre w) g))
            (np_scale (w_rating w) r))
         (np_scale (w_year w) y)).
Proof.
  unfold blend.
  rewrite np_add_same_length by lens. simpl.
  rewrite np_add_same_length by lens. simpl.
  now rewrite np_add_same_length by lens.
Qed.

Lemma boosted_same_length :
  (let! h := blend w t g r y in boosted df c w h)
  = Returned (composite w t g r y df c).
Proof.
  rewrite blend_same_length. simpl. unfold boosted.
  replace (length _ =? length _) with true; [reflexivity|].
  symmetry. apply Nat.eqb_eq. lens.
Qed.

Lemma length_composite : length (composite w t g r y df c) = length df.
Proof. unfold composite. lens. Qed.

Lemma nth_composite (i : nat) (b : book) :
  nth_error df i = Some b ->
  nth i (composite w t g r y df c) 0%Q
  = (w_title w * nth i t 0 + w_genre w * nth i g 0
     + w_rating w * nth i r 0 + w_year w * nth i y 0
     + w_cluster w * (if Z.eqb (cluster b) c then 1 else 0))%Q.
Proof.
  intros Hb.
  assert (Hi : i < length df) by (apply nth_error_Some; congruence).
  unfold composite.
  rewrite !nth_zip_add by lens.
  rewrite !nth_np_scale by lens.
  now erewrite nth_same_cluster by exact Hb.
Qed.

End Composite.

Lemma normalize_ok (w : weights) :
  ~ (w_sum w == 0)%Q -> normalize w = Returned (normalized_weights w).
Proof.
  intros H. unfold normalize, normalized_weights.
  destruct (Qeq_bool (w_sum w) 0) eqn:E; [|reflexivity].
  now apply Qeq_bool_iff in E.
Qed.

Lemma normalize_zero (w : weights) :
  (w_sum w == 0)%Q -> normalize w = Raised ZeroDivisionError.
Proof.
  intros H. unfold normalize. apply Qeq_bool_iff in H. now rewrite H.
Qed.

Section ValidAnchor.

(** A well-formed call: the four matrices have a row for the anchor, as
    long as the data frame. *)
Variables (df : dataframe) (T G R Y : list (list Q)) (a : nat).
Variables (t g r y : list Q).
Hypothesis Ht : nth_error T a = Some t.
Hypothesis Hg : nth_error G a = Some g.
Hypothesis Hr : nth_error R a = Some r.
Hypothesis Hy : nth_error Y a = Some y.
Hypothesis Lt : length t = length df.
Hypothesis Lg : length g = length df.
Hypothesis Lr : length r = length df.
Hypothesis Ly : length y = length df.

Lemma scores_of_valid (c : Z) (w : weights) :
  ~ (w_sum w == 0)%Q ->
  scores_of df a c (Some (Arr2 T)) (Some (Arr2 G)) (Some (Arr2 R))
            (Some (Arr2 Y)) w
  = Returned (composite (normalized_weights w) t g r y df c).
Proof.
  intros Hw. unfold scores_of, matrix_row.
  rewrite Ht, Hg, Hr, Hy. simpl.
  rewrite (normalize_ok Hw). simpl.
  now apply boosted_same_length.
Qed.

Lemma app_hybrid_valid (w : weights) (bk : book) :
  App.hybrid df (App.Matrices T G R Y) w a bk
  = Returned (composite w t g r y df (cluster bk)).
Proof.
  unfold App.hybrid, App.getrow. simpl.
  rewrite Ht, Hg, Hr, Hy. simpl.
  rewrite np_add_same_length by lens. simpl.
  rewrite np_add_same_length by lens. simpl.
  rewrite np_add_same_length by lens. simpl.
  now rewrite np_add_same_length by lens.
Qed.

End ValidAnchor.

(** C1. For a valid anchor [a] and an item [i], the score both programs
    compute is [w_title*title[a][i] + w_genre*genre[a][i] +
    w_rating*rating[a][i] + w_year*year[a][i] + w_cluster*(1 if the clusters
    are equal else 0)], the weights being the weights of the call divided
    by their sum: in [recommend] it is entry [i] of the array
    [hybrid_score], in the script entry [i] of [hybrid]. *)
Theorem composite_score_formula
    (df : dataframe) (T G R Y : list (list Q)) (cs gs rs ys : nat)
    (st : store) (w : weights) (a i : nat) (ba bi : book)
    (t g r y : list Q) :
  nth_error st cs = Some (Arr2 T) -> nth_error st gs = Some (Arr2 G) ->
  nth_error st rs = Some (Arr2 R) -> nth_error st ys = Some (Arr2 Y) ->
  nth_error T a = Some t -> nth_error G a = Some g ->
  nth_error R a = Some r -> nth_error Y a = Some y ->
  length t = length df -> length g = length df ->
  length r = length df -> length y = length df ->
  nth_error df a = Some ba -> nth_error df i = Some bi ->
  ~ (w_sum w == 0)%Q ->
  let w' := normalized_weights w in
  let score :=
    (w_title w' * nth i t 0 + w_genre w' * nth i g 0
     + w_rating w' * nth i r 0 + w_year w' * nth i y 0
     + w_cluster w' * (if Z.eqb (cluster bi) (cluster ba) then 1 else 0))%Q in
  (exists v st' scores,
      Recommend.hybrid_score df a (cluster ba) cs gs rs ys w st
      = (Returned v, st')
      /\ read st' v = Some scores
      /\ nth i scores 0%Q = score)
  /\ (exists scores,
         normalize w = Returned w'
         /\ App.hybrid df (App.Matrices T G R Y) w' a ba = Returned scores
         /\ nth i scores 0%Q = score).
Proof.
  intros Hcs Hgs Hrs Hys Ht Hg Hr Hy Lt Lg Lr Ly Ha Hi Hw w' score.
  split.
  - pose proof (hybrid_score_run df a (cluster ba) cs gs rs ys w st) as H.
    rewrite Hcs, Hgs, Hrs, Hys in H.
    rewrite (@scores_of_valid df T G R Y a t g r y Ht Hg Hr Hy Lt Lg Lr Ly
               (cluster ba) w Hw) in H.
    destruct H as [ext H].
    eexists _, _, _. split; [exact H|]. split; [apply read_fresh|].
    now apply nth_composite.
  - eexists. split; [now apply normalize_ok|].
    split; [now apply (@app_hybrid_valid df T G R Y a t g r y)|].
    now apply nth_composite.
Qed.

(** ** Order of a ranking *)

Section Ranking.

Variable A : Type.
Variable R : A -> A -> Prop.

Lemma sorted_middle (l1 l2 : list A) (x y : A) :
  StronglySorted R (l1 ++ x :: l2) -> In y l2 -> R x y.
Proof.
  induction l1 as [|z l1 IH]; simpl; intros H Hy.
  - apply StronglySorted_inv in H. destruct H as [_ H].
    rewrite Forall_forall in H. now apply H.
  - apply StronglySorted_inv in H. now apply IH.
Qed.

(** In a strongly sorted list an element that may not follow another
    one stands before it. *)
Lemma sorted_before (l : list A) (x y : A) :
  StronglySorted R l -> In x l -> In y l -> x <> y -> ~ R y x ->
  before x y l.
Proof.
  intros Hs Hx Hy Hne Hn.
  destruct (in_split _ _ Hx) as [l1 [l2 ->]].
  apply in_app_or in Hy. destruct Hy as [Hy|[Hy|Hy]].
  - destruct (in_split _ _ Hy) as [m1 [m2 ->]].
    rewrite <- app_assoc in Hs. simpl in Hs.
    exfalso. apply Hn. eapply sorted_middle; [exact Hs|].
    apply in_or_app. right. now left.
  - congruence.
  - destruct (in_split _ _ Hy) as [m1 [m2 ->]]. now exists l1, m1, m2.
Qed.

End Ranking.

Section ScriptSort.

Lemma insert_desc_perm (x : nat * Q) (l : list (nat * Q)) :
  Permutation (App.insert_desc x l) (x :: l).
Proof.
  induction l as [|y r IH]; simpl; [reflexivity|].
  destruct (Qltb _ _); [|reflexivity].
  rewrite IH. apply perm_swap.
Qed.

Lemma sorted_desc_perm (l : list (nat * Q)) :
  Permutation (App.sorted_desc l) l.
Proof.
  induction l as [|x l IH]; simpl; [reflexivity|].
  rewrite insert_desc_perm. now constructor.
Qed.

Lemma ranks_before_le (x y : nat * Q) :
  (snd y <= snd x)%Q -> fst x < fst y -> ranks_before x y.
Proof.
  intros Hle Hlt. unfold ranks_before.
  destruct (Qlt_le_dec (snd y) (snd x)) as [H|H]; [now left|].
  right. split; [|exact Hlt]. now apply Qle_antisym.
Qed.

Lemma ranks_before_snd (x y : nat * Q) :
  ranks_before x y -> (snd y <= snd x)%Q.
Proof.
  intros [H|[H _]]; [now apply Qlt_le_weak|].
  rewrite H. apply Qle_refl.
Qed.

Lemma insert_desc_sorted (x : nat * Q) (l : list (nat * Q)) :
  StronglySorted ranks_before l ->
  Forall (fun y => fst x < fst y) l ->
  StronglySorted ranks_before (App.insert_desc x l).
Proof.
  induction 1 as [|y r Hs IH Hall]; simpl; intros Hx.
  - repeat constructor.
  - apply Forall_cons_iff in Hx. destruct Hx as [Hxy Hxr].
    destruct (Qltb (snd x) (snd y)) eqn:E.
    + constructor; [now apply IH|].
      apply (@Permutation_Forall _ _ (x :: r)).
      * symmetry. apply insert_desc_perm.
      * constructor; [|exact Hall].
        left. now apply Qltb_true_lt.
    + apply Qltb_false_le in E.
      constructor; [now constructor|].
      constructor; [now apply ranks_before_le|].
      rewrite Forall_forall in *. intros z Hz.
      apply ranks_before_le; [|now apply Hxr].
      apply Qle_trans with (snd y); [|exact E].
      apply ranks_before_snd. now apply Hall.
Qed.

Lemma sorted_desc_sorted (l : list (nat * Q)) :
  StronglySorted (fun x y => fst x < fst y) l ->
  StronglySorted ranks_before (App.sorted_desc l).
Proof.
  induction 1 as [|x l Hs IH Hall]; simpl; [constructor|].
  apply insert_desc_sorted; [exact IH|].
  apply (@Permutation_Forall _ _ l); [|exact Hall].
  symmetry. apply sorted_desc_perm.
Qed.

Lemma combine_seq_increasing (A : Type) (l : list A) (s : nat) :
  StronglySorted (fun x y : nat * A => fst x < fst y)
                 (combine (seq s (length l)) l).
Proof.
  revert s. induction l as [|a l IH]; intros s; simpl; constructor.
  - apply IH.
  - rewrite Forall_forall. intros [j b] Hj. simpl.
    apply in_combine_l in Hj. apply in_seq in Hj. lia.
Qed.

Lemma in_enumerate (A : Type) (l : list A) (i : nat) (d : A) :
  i < length l -> In (i, nth i l d) (enumerate l).
Proof.
  intros Hi. unfold enumerate.
  assert (H : nth i (combine (seq 0 (length l)) l) (0, d) = (i, nth i l d)).
  { rewrite combine_nth by apply length_seq.
    now rewrite seq_nth by exact Hi. }
  rewrite <- H. apply nth_In. rewrite length_combine, length_seq. lia.
Qed.

(** The script's ranking is a stable descending sort: of two items with
    equal scores the one with the smaller index comes first. *)
Theorem script_ranking_stable (h : list Q) (i j : nat) :
  i < j -> j < length h -> (nth i h 0 == nth j h 0)%Q ->
  before (i, nth i h 0%Q) (j, nth j h 0%Q) (App.sorted_desc (enumerate h)).
Proof.
  intros Hij Hj Heq.
  apply sorted_before with (R := ranks_before).
  - apply sorted_desc_sorted. apply combine_seq_increasing.
  - apply (Permutation_in _ (Permutation_sym (sorted_desc_perm _))).
    apply in_enumerate. lia.
  - apply (Permutation_in _ (Permutation_sym (sorted_desc_perm _))).
    now apply in_enumerate.
  - intros H. injection H. lia.
  - intros [H|[_ H]]; simpl in H.
    + rewrite Heq in H. now apply Qlt_irrefl in H.
    + lia.
Qed.

End ScriptSort.

(** ** Patterns without special characters *)

Section Literal.

Import Re.

Lemma not_special (c : ascii) :
  is_special c = false ->
  Ascii.eqb c "\" = false /\ Ascii.eqb c "." = false
  /\ Ascii.eqb c "|" = false /\ Ascii.eqb c "(" = false
  /\ Ascii.eqb c ")" = false /\ Ascii.eqb c "*" = false
  /\ Ascii.eqb c "+" = false /\ Ascii.eqb c "?" = false.
Proof.
  unfold is_special. simpl. intros H.
  repeat (apply orb_false_iff in H; destruct H as [? H]).
  repeat split; assumption.
Qed.

Lemma parse_ordinary (p : list ascii) (cur : frame) :
  ordinary p = true ->
  parse cur [] p
  = Pattern (fold_left (fun acc r => Alt r acc) (branches cur)
               (seq_of (rev (map Chr p) ++ items cur))).
Proof.
  revert cur. induction p as [|c p IH]; intros cur H; [reflexivity|].
  simpl in H. apply andb_true_iff in H. destruct H as [Hc Hp].
  apply negb_true_iff in Hc.
  destruct (not_special c Hc) as (E1 & E2 & E3 & E4 & E5 & E6 & E7 & E8).
  cbn [parse]. rewrite E1, E2, E3, E4, E5, E6, E7, E8, Hc. cbn [orb].
  rewrite IH by exact Hp. cbn [push_item branches items map rev].
  now rewrite <- app_assoc.
Qed.

Lemma seq_of_rev (p : list ascii) : seq_of (rev (map Chr p)) = literal p.
Proof.
  unfold seq_of, literal. rewrite <- fold_left_rev_right, rev_involutive.
  induction p as [|c p IH]; simpl; congruence.
Qed.

Lemma compile_ordinary (q : string) :
  ordinary (Text.chars q) = true ->
  compile q = Pattern (literal (Text.chars q)).
Proof.
  intros H. unfold compile. rewrite parse_ordinary by exact H.
  simpl. now rewrite app_nil_r, seq_of_rev.
Qed.

Lemma run_literal (p l : list ascii) :
  run (literal p) l (fun _ => true) = Text.starts_with p l.
Proof.
  revert l. induction p as [|c p IH]; intros l; [reflexivity|].
  simpl. destruct l as [|d l]; [reflexivity|]. now rewrite IH.
Qed.

Lemma search_literal (p : list ascii) (s : string) :
  search (literal p) s = Text.contains_at_some_offset p (Text.chars s).
Proof.
  unfold search. induction (Text.chars s) as [|d l IH]; simpl.
  - now rewrite run_literal.
  - now rewrite run_literal, IH.
Qed.

(** For such a pattern [str.contains] is literal containment. *)
Lemma str_contains_ordinary (q : string) (column : list string) :
  ordinary (Text.chars q) = true ->
  str_contains q column = Returned (map (Text.is_substring q) column).
Proof.
  intros H. unfold str_contains. rewrite compile_ordinary by exact H.
  f_equal. apply map_ext. intros s. apply search_literal.
Qed.

End Literal.

Lemma select_rows_none (df : dataframe) (mask : list bool) :
  (forall b, In b mask -> b = false) -> select_rows df mask = [].
Proof.
  unfold select_rows. generalize (enumerate df).
  induction mask as [|m mask IH]; intros l H.
  - now destruct l.
  - destruct l as [|x l]; [reflexivity|]. simpl.
    rewrite (H m) by now left. simpl. apply IH.
    intros b Hb. apply H. now right.
Qed.

(** ** The resolver *)

Lemma recommend_no_match (sort : ArgSort) (query : string) (df : dataframe)
    (cs gs rs ys : nat) (n : Z) (w : weights) (st : store) :
  Recommend.matches query df = Returned [] ->
  Recommend.recommend sort query df cs gs rs ys n w st
  = (Returned (Recommend.Message (Recommend.not_found query)), st).
Proof.
  intros H. unfold Recommend.recommend. now rewrite H.
Qed.

(** C3, as amended. When the trimmed, lower-cased query has no special
    character of regular expressions and is contained in no lower-cased
    title, [recommend] returns, as an ordinary value, the string
    [No books found for '<query>'. Try another keyword.] built from the
    original query; nothing is raised and the store is left as it was. *)
Theorem not_found_message (sort : ArgSort) (query : string) (df : dataframe)
    (cs gs rs ys : nat) (n : Z) (w : weights) (st : store) :
  ordinary (Text.chars (Recommend.normalized query)) = true ->
  (forall b, In b df ->
     Text.is_substring (Recommend.normalized query) (Text.lower (title b))
     = false) ->
  Recommend.recommend sort query df cs gs rs ys n w st
  = (Returned
       (Recommend.Message
          ("No books found for '" ++ query ++ "'. Try another keyword.")),
     st).
Proof.
  intros Hq Hnone. apply recommend_no_match.
  unfold Recommend.matches. rewrite str_contains_ordinary by exact Hq.
  rewrite select_rows_none; [reflexivity|].
  intros m Hm. apply in_map_iff in Hm. destruct Hm as [s [<- Hs]].
  apply in_map_iff in Hs. destruct Hs as [b [<- Hb]]. now apply Hnone.
Qed.

(** C3 as stated fails twice on the five-book data set. No title contains
    [atlas], yet the call returns a string and raises nothing; and no
    title contains [a.c], yet the call finds a book ([abc of reading]
    matches the pattern) and returns a table. *)
Lemma not_found_is_not_raised :
  contained_nowhere "atlas" Toy.df = true
  /\ fst (Recommend.recommend stable_argsort "atlas" Toy.df 0 1 2 3 10
            Toy.defaults Toy.st)
     = Returned (Recommend.Message
                   "No books found for 'atlas'. Try another keyword.")
  /\ ~ (exists e,
          fst (Recommend.recommend stable_argsort "atlas" Toy.df
                 0 1 2 3 10 Toy.defaults Toy.st) = Raised e)
  /\ contained_nowhere " A.C " Toy.df = true
  /\ ~ (exists e,
          fst (Recommend.recommend stable_argsort " A.C " Toy.df
                 0 1 2 3 10 Toy.defaults Toy.st) = Raised e)
  /\ (exists rows,
          fst (Recommend.recommend stable_argsort " A.C " Toy.df
                 0 1 2 3 10 Toy.defaults Toy.st)
          = Returned (Recommend.Table rows)).
Proof.
  split; [reflexivity|]. split; [reflexivity|].
  split; [intros [e H]; vm_compute in H; discriminate|].
  split; [reflexivity|].
  split; [intros [e H]; vm_compute in H; discriminate|].
  eexists. vm_compute. reflexivity.
Qed.

(** ** The ranking loop of the script *)

Section Loop.

Variables (sb : App.sidebar) (df : dataframe) (selected : nat).

(** One turn of the loop, the two filters read as [accepted]. *)
Lemma recs_loop_cons (idx : nat) (score : Q) (rest recs : list (nat * Q)) :
  App.recs_loop sb df selected ((idx, score) :: rest) recs
  = if idx =? selected then App.recs_loop sb df selected rest recs
    else
      match nth_error df idx with
      | None => Raised KeyError
      | Some bk =>
          if App.accepted sb bk then
            if App.N sb <=? length (recs ++ [(idx, score)])
            then Returned (recs ++ [(idx, score)])
            else App.recs_loop sb df selected rest (recs ++ [(idx, score)])
          else App.recs_loop sb df selected rest recs
      end.
Proof.
  cbn [App.recs_loop]. destruct (idx =? selected); [reflexivity|].
  destruct (nth_error df idx) as [bk|]; [|reflexivity].
  unfold App.accepted.
  destruct (Qltb (avg_rating bk) (App.min_rating sb)); [reflexivity|].
  destruct (App.genre_filter sb) as [|g0 gs]; [reflexivity|].
  cbn [negb andb].
  now destruct (existsb (fun g => Z.eqb (genre_flag bk g) 1) (g0 :: gs)).
Qed.

(** Whatever the loop returns was in [recs] already or is an entry of
    the ranking that the filters keep. *)
Lemma recs_loop_sound (sim_scores recs out : list (nat * Q)) :
  App.recs_loop sb df selected sim_scores recs = Returned out ->
  forall p, In p out ->
    In p recs \/ (In p sim_scores /\ keep sb df selected p = true).
Proof.
  revert recs. induction sim_scores as [|[idx score] rest IH];
    intros recs H p Hp.
  - simpl in H. injection H as <-. now left.
  - rewrite recs_loop_cons in H.
    assert (Hrest : forall recs0,
               App.recs_loop sb df selected rest recs0 = Returned out ->
               In p recs0 \/
               (In p ((idx, score) :: rest) /\ keep sb df selected p = true)).
    { intros recs0 H0. destruct (IH _ H0 p Hp) as [?|[? ?]];
        [now left|right; split; [now right|assumption]]. }
    destruct (idx =? selected) eqn:Es; [now apply Hrest|].
    destruct (nth_error df idx) as [bk|] eqn:Eb; [|discriminate].
    destruct (App.accepted sb bk) eqn:Ea; [|now apply Hrest].
    assert (Hk : keep sb df selected (idx, score) = true).
    { unfold keep, eligible. simpl. now rewrite Es, Eb. }
    assert (Hnew : In p (recs ++ [(idx, score)]) ->
               In p recs \/
               (In p ((idx, score) :: rest) /\ keep sb df selected p = true)).
    { intros Hin. apply in_app_or in Hin.
      destruct Hin as [?|[<-|[]]]; [now left|].
      right. split; [now left|exact Hk]. }
    destruct (App.N sb <=? length (recs ++ [(idx, score)])).
    + injection H as <-. now apply Hnew.
    + destruct (Hrest _ H) as [Hin|?]; [now apply Hnew|now right].
Qed.

(** With [N >= 1] and row labels inside the frame, the loop is: filter
    the whole ranking, then take what is still missing of the [N]. *)
Lemma recs_loop_lazy (sim_scores recs : list (nat * Q)) :
  Forall (fun p => fst p < length df) sim_scores ->
  length recs < App.N sb ->
  App.recs_loop sb df selected sim_scores recs
  = Returned
      (recs ++ firstn (App.N sb - length recs)
                 (filter (keep sb df selected) sim_scores)).
Proof.
  revert recs. induction sim_scores as [|[idx score] rest IH];
    intros recs Hv Hn.
  - simpl. now rewrite firstn_nil, app_nil_r.
  - apply Forall_cons_iff in Hv. destruct Hv as [Hi Hv]. simpl in Hi.
    rewrite recs_loop_cons. cbn [filter].
    unfold keep at 1, eligible. cbn [fst].
    destruct (idx =? selected) eqn:Es; cbn [negb andb]; [now apply IH|].
    destruct (nth_error df idx) as [bk|] eqn:Eb;
      [|apply nth_error_None in Eb; lia].
    destruct (App.accepted sb bk); [|now apply IH].
    rewrite length_app. cbn [length].
    destruct (App.N sb - length recs) as [|k] eqn:Ek; [lia|].
    cbn [firstn].
    destruct (App.N sb <=? length recs + 1) eqn:El.
    + apply Nat.leb_le in El. replace k with 0 by lia. reflexivity.
    + apply Nat.leb_gt in El.
      rewrite IH; [|exact Hv|rewrite length_app; cbn [length]; lia].
      rewrite length_app. cbn [length]. rewrite <- app_assoc.
      cbn [app]. repeat f_equal. lia.
Qed.

End Loop.

(** ** Counting *)

Section Counting.

Variable A : Type.

Lemma filter_perm (f : A -> bool) (l l' : list A) :
  Permutation l l' -> Permutation (filter f l) (filter f l').
Proof.
  induction 1 as [|x l l' _ IH|x y l|l l' l'' _ IH1 _ IH2]; simpl.
  - constructor.
  - destruct (f x); [now constructor|exact IH].
  - destruct (f x), (f y); try reflexivity. apply perm_swap.
  - now transitivity (filter f l').
Qed.

Lemma filter_map_fst (B : Type) (g : A -> bool) (l : list (A * B)) :
  map fst (filter (fun p => g (fst p)) l) = filter g (map fst l).
Proof.
  induction l as [|[a b] l IH]; simpl; [reflexivity|].
  destruct (g a); simpl; congruence.
Qed.

Lemma map_fst_enumerate (l : list A) :
  map fst (enumerate l) = seq 0 (length l).
Proof.
  unfold enumerate. generalize 0.
  induction l as [|a l IH]; intros s; simpl; [reflexivity|].
  now rewrite IH.
Qed.

Lemma firstn_incl (n : nat) (l : list A) (x : A) :
  In x (firstn n l) -> In x l.
Proof.
  revert l. induction n as [|n IH]; intros [|y l]; simpl; try tauto.
  intros [H|H]; [now left|right; now apply IH].
Qed.

End Counting.

Lemma others_in_seq (idx m : nat) :
  idx < m ->
  length (filter (fun i => negb (i =? idx)) (seq 0 m)) = m - 1.
Proof.
  intros H. replace m with (idx + (1 + (m - idx - 1))) at 1 by lia.
  rewrite seq_app, filter_app. simpl seq at 2. cbn [filter].
  rewrite Nat.eqb_refl. cbn [negb].
  rewrite !forallb_filter_id.
  - rewrite length_app, !length_seq. lia.
  - apply forallb_forall. intros x Hx. apply in_seq in Hx.
    apply negb_true_iff, Nat.eqb_neq. lia.
  - apply forallb_forall. intros x Hx. apply in_seq in Hx.
    apply negb_true_iff, Nat.eqb_neq. lia.
Qed.

Section TopIndices.

Variables (sort : ArgSort) (scores : list Q) (idx : nat) (n : Z).

Lemma slice_to_incl (A : Type) (l : list A) (x : A) :
  In x (Recommend.slice_to n l) -> In x l.
Proof.
  unfold Recommend.slice_to. destruct (0 <=? n)%Z; apply firstn_incl.
Qed.

Lemma top_indices_in (i : nat) :
  In i (Recommend.top_indices sort scores idx n) ->
  i <> idx /\ i < length scores.
Proof.
  unfold Recommend.top_indices. intros H. apply slice_to_incl in H.
  apply filter_In in H. destruct H as [H Hne].
  apply negb_true_iff, Nat.eqb_neq in Hne. split; [exact Hne|].
  apply in_rev in H.
  apply (Permutation_in _ (argsort_perm sort scores)) in H.
  apply in_seq in H. lia.
Qed.

Lemma length_top_indices :
  idx < length scores -> (0 <= n)%Z -> Z.to_nat n <= length scores - 1 ->
  length (Recommend.top_indices sort scores idx n) = Z.to_nat n.
Proof.
  intros Hi Hn Hle. unfold Recommend.top_indices, Recommend.slice_to.
  apply Z.leb_le in Hn. rewrite Hn. rewrite length_firstn.
  assert (H : length (filter (fun i => negb (i =? idx)) (rev (sort scores)))
              = length scores - 1).
  { rewrite <- (others_in_seq Hi). apply Permutation_length.
    apply filter_perm. rewrite <- Permutation_rev. apply argsort_perm. }
  rewrite H. lia.
Qed.

End TopIndices.

Lemma iloc_labels (df : dataframe) (idxs : list nat)
    (rows : list (nat * Recommend.listing)) :
  Recommend.iloc df idxs = Returned rows -> map fst rows = idxs.
Proof.
  revert rows. induction idxs as [|i idxs IH]; intros rows H; simpl in H.
  - now injection H as <-.
  - destruct (nth_error df i); [|discriminate].
    destruct (Recommend.iloc df idxs) as [rows'| |]; try discriminate.
    injection H as <-. simpl. now rewrite (IH rows').
Qed.

Lemma iloc_ok (df : dataframe) (idxs : list nat) :
  Forall (fun i => i < length df) idxs ->
  exists rows, Recommend.iloc df idxs = Returned rows.
Proof.
  induction 1 as [|i idxs Hi _ [rows IH]]; simpl.
  - now eexists.
  - destruct (nth_error df i) eqn:E; [|apply nth_error_None in E; lia].
    rewrite IH. now eexists.
Qed.

(** ** Results of the two programs *)

Lemma script_returns (raw : dataframe) (ms : App.matrices) (sb : App.sidebar)
    (pick : nat) (recs : list (nat * Q)) :
  App.script raw ms sb pick = Returned (Some recs) ->
  exists w filtered selected,
    normalize (App.sliders sb) = Returned w
    /\ App.filtered_df sb (map App.clean raw) = Returned filtered
    /\ App.selected_index sb filtered pick = Returned (Some selected)
    /\ App.recommendations sb (map App.clean raw) ms w selected
       = Returned recs.
Proof.
  unfold App.script. intros H.
  destruct (normalize (App.sliders sb)) as [w| |] eqn:E1; try discriminate.
  cbn [obind] in H.
  destruct (App.filtered_df sb (map App.clean raw)) as [filtered| |] eqn:E2;
    try discriminate.
  cbn [obind] in H.
  destruct (App.selected_index sb filtered pick) as [[selected|]| |] eqn:E3;
    try discriminate.
  cbn [obind] in H.
  destruct (App.recommendations sb (map App.clean raw) ms w selected)
    as [recs'| |] eqn:E4; try discriminate.
  injection H as <-. now exists w, filtered, selected.
Qed.

Lemma recommendations_kept (sb : App.sidebar) (df : dataframe)
    (ms : App.matrices) (w : weights) (selected : nat)
    (recs : list (nat * Q)) :
  App.recommendations sb df ms w selected = Returned recs ->
  forall p, In p recs -> keep sb df selected p = true.
Proof.
  unfold App.recommendations. intros H p Hp.
  destruct (nth_error df selected) as [bk|]; [|discriminate].
  destruct (App.hybrid df ms w selected bk) as [h| |]; try discriminate.
  simpl in H.
  destruct (recs_loop_sound _ _ _ _ _ H p Hp) as [[]|[_ Hk]]. exact Hk.
Qed.

Lemma recommend_returns_table (sort : ArgSort) (query : string)
    (df : dataframe) (cs gs rs ys : nat) (n : Z) (w : weights) (st st' : store)
    (rows : list (nat * Recommend.listing)) :
  Recommend.recommend sort query df cs gs rs ys n w st
  = (Returned (Recommend.Table rows), st') ->
  exists a ba rest scores,
    Recommend.matches query df = Returned ((a, ba) :: rest)
    /\ scores_of df a (cluster ba) (nth_error st cs) (nth_error st gs)
         (nth_error st rs) (nth_error st ys) w = Returned scores
    /\ map fst rows = Recommend.top_indices sort scores a n.
Proof.
  intros H.
  destruct (recommend_run sort query df cs gs rs ys n w st) as [ext E].
  rewrite E in H. injection H as H _. unfold recommend_value in H.
  destruct (Recommend.matches query df) as [[|[a ba] rest]| |] eqn:Em;
    try discriminate.
  cbn [obind] in H.
  destruct (scores_of df a (cluster ba) (nth_error st cs) (nth_error st gs)
              (nth_error st rs) (nth_error st ys) w) as [scores| |] eqn:Es;
    try discriminate.
  cbn [obind] in H.
  destruct (Recommend.iloc df (Recommend.top_indices sort scores a n))
    as [rows'| |] eqn:Ei; try discriminate.
  injection H as <-. exists a, ba, rest, scores.
  split; [reflexivity|]. split; [exact Es|].
  eapply iloc_labels. exact Ei.
Qed.

(** C6. The anchor is never among the results: a table [recommend]
    returns has no row labelled with the first match of the query, and
    the list the script builds has no entry for the selected book. *)
Theorem anchor_never_returned
    (sort : ArgSort) (query : string) (df : dataframe) (cs gs rs ys : nat)
    (n : Z) (w : weights) (st st' : store)
    (rows : list (nat * Recommend.listing))
    (raw : dataframe) (ms : App.matrices) (sb : App.sidebar) (pick : nat)
    (recs : list (nat * Q)) :
  (Recommend.recommend sort query df cs gs rs ys n w st
   = (Returned (Recommend.Table rows), st') ->
   exists a ba rest,
     Recommend.matches query df = Returned ((a, ba) :: rest)
     /\ ~ In a (map fst rows))
  /\ (App.script raw ms sb pick = Returned (Some recs) ->
      exists filtered selected,
        App.filtered_df sb (map App.clean raw) = Returned filtered
        /\ App.selected_index sb filtered pick = Returned (Some selected)
        /\ ~ In selected (map fst recs)).
Proof.
  split.
  - intros H. apply recommend_returns_table in H.
    destruct H as (a & ba & rest & scores & Hm & _ & Hr).
    exists a, ba, rest. split; [exact Hm|].
    rewrite Hr. intros Hin. apply top_indices_in in Hin. now destruct Hin.
  - intros H. apply script_returns in H.
    destruct H as (w0 & filtered & selected & _ & Hf & Hs & Hr).
    exists filtered, selected. repeat split; try assumption.
    intros Hin. apply in_map_iff in Hin. destruct Hin as [p [Hp Hin]].
    pose proof (recommendations_kept _ _ _ _ _ Hr p Hin) as Hk.
    unfold keep, eligible in Hk. rewrite Hp, Nat.eqb_refl in Hk.
    discriminate.
Qed.

(** C5. Every entry the script returns passes the filters: the rating of
    its row is at least [min_rating], and when genres are selected one of
    the selected genre columns of the row holds 1. *)
Theorem results_pass_filters (raw : dataframe) (ms : App.matrices)
    (sb : App.sidebar) (pick : nat) (recs : list (nat * Q))
    (idx : nat) (score : Q) :
  App.script raw ms sb pick = Returned (Some recs) ->
  In (idx, score) recs ->
  exists bk,
    nth_error (map App.clean raw) idx = Some bk
    /\ (App.min_rating sb <= avg_rating bk)%Q
    /\ (App.genre_filter sb <> [] ->
        exists g, In g (App.genre_filter sb) /\ genre_flag bk g = 1%Z).
Proof.
  intros H Hin. apply script_returns in H.
  destruct H as (w0 & filtered & selected & _ & _ & _ & Hr).
  pose proof (recommendations_kept _ _ _ _ _ Hr _ Hin) as Hk.
  unfold keep, eligible in Hk. simpl in Hk.
  apply andb_true_iff in Hk. destruct Hk as [_ Hk].
  destruct (nth_error (map App.clean raw) idx) as [bk|]; [|discriminate].
  exists bk. split; [reflexivity|].
  unfold App.accepted in Hk. apply andb_true_iff in Hk.
  destruct Hk as [Hr' Hg]. split.
  - apply negb_true_iff in Hr'. now apply Qltb_false_le.
  - intros Hne. destruct (App.genre_filter sb) as [|g0 gs]; [congruence|].
    apply existsb_exists in Hg. destruct Hg as [g [Hg1 Hg2]].
    exists g. split; [exact Hg1|]. now apply Z.eqb_eq.
Qed.

Section ExactlyN.

Variables (df : dataframe) (T G R Y : list (list Q)) (a : nat) (ba : book).
Variables (t g r y : list Q).
Hypothesis Ht : nth_error T a = Some t.
Hypothesis Hg : nth_error G a = Some g.
Hypothesis Hr : nth_error R a = Some r.
Hypothesis Hy : nth_error Y a = Some y.
Hypothesis Lt : length t = length df.
Hypothesis Lg : length g = length df.
Hypothesis Lr : length r = length df.
Hypothesis Ly : length y = length df.
Hypothesis Ha : nth_error df a = Some ba.

Lemma ranking_labels (h : list Q) :
  Permutation (map fst (App.sorted_desc (enumerate h))) (seq 0 (length h)).
Proof.
  rewrite <- map_fst_enumerate. apply Permutation_map, sorted_desc_perm.
Qed.

Lemma script_exactly_n (sb : App.sidebar) (w : weights) :
  1 <= App.N sb ->
  App.N sb <= length (filter (eligible sb df a) (seq 0 (length df))) ->
  let ranked :=
    App.sorted_desc (enumerate (composite w t g r y df (cluster ba))) in
  App.recommendations sb df (App.Matrices T G R Y) w a
  = Returned (firstn (App.N sb) (filter (keep sb df a) ranked))
  /\ length (firstn (App.N sb) (filter (keep sb df a) ranked)) = App.N sb.
Proof.
  intros HN Hcount ranked.
  assert (Hlen : length (composite w t g r y df (cluster ba)) = length df)
    by now apply length_composite.
  split.
  - unfold App.recommendations. rewrite Ha.
    rewrite (@app_hybrid_valid df T G R Y a t g r y) by assumption.
    cbn [obind]. fold ranked. rewrite recs_loop_lazy.
    + cbn [app length]. now rewrite Nat.sub_0_r.
    + rewrite Forall_forall. intros p Hp.
      apply (in_map fst) in Hp.
      apply (Permutation_in _ (ranking_labels _)) in Hp.
      apply in_seq in Hp. lia.
    + cbn [length]. lia.
  - rewrite length_firstn.
    assert (H : length (filter (keep sb df a) ranked)
                = length (filter (eligible sb df a) (seq 0 (length df)))).
    { rewrite <- (length_map fst). unfold keep.
      rewrite (filter_map_fst (eligible sb df a)).
      apply Permutation_length, filter_perm.
      rewrite <- Hlen. apply ranking_labels. }
    lia.
Qed.

Lemma recommend_exactly_n (sort : ArgSort) (query : string)
    (rest : list (nat * book)) (cs gs rs ys : nat) (st : store) (n : Z)
    (w : weights) :
  nth_error st cs = Some (Arr2 T) -> nth_error st gs = Some (Arr2 G) ->
  nth_error st rs = Some (Arr2 R) -> nth_error st ys = Some (Arr2 Y) ->
  Recommend.matches query df = Returned ((a, ba) :: rest) ->
  ~ (w_sum w == 0)%Q ->
  (0 <= n)%Z -> Z.to_nat n <= length df - 1 ->
  exists rows st',
    Recommend.recommend sort query df cs gs rs ys n w st
    = (Returned (Recommend.Table rows), st')
    /\ length rows = Z.to_nat n.
Proof.
  intros Hcs Hgs Hrs Hys Hm Hw Hn Hle.
  destruct (recommend_run sort query df cs gs rs ys n w st) as [ext E].
  unfold recommend_value in E. rewrite Hm in E. cbn [obind] in E.
  rewrite Hcs, Hgs, Hrs, Hys in E.
  rewrite (@scores_of_valid df T G R Y a t g r y Ht Hg Hr Hy Lt Lg Lr Ly
             (cluster ba) w Hw) in E.
  cbn [obind] in E.
  set (scores := composite (normalized_weights w) t g r y df (cluster ba))
    in *.
  assert (Hlen : length scores = length df) by now apply length_composite.
  destruct (@iloc_ok df (Recommend.top_indices sort scores a n))
    as [rows Hrows].
  { rewrite Forall_forall. intros i Hi. apply top_indices_in in Hi. lia. }
  rewrite Hrows in E. cbn [obind] in E.
  exists rows, (st ++ ext). split; [exact E|].
  rewrite <- (length_map fst), (iloc_labels _ _ Hrows).
  apply length_top_indices; [|exact Hn|lia].
  rewrite Hlen. apply nth_error_Some. congruence.
Qed.

End ExactlyN.

(** C4. When at least N rows other than the anchor pass the filters, N
    results come back. In the script (N >= 1, the slider gives 3 to 20)
    the list is the first N entries of the whole ranking filtered, not the
    filtered first N entries of the ranking; [recommend] has no filter, so
    with at least [n] other rows its table has [n] rows. *)
Theorem exactly_n_results
    (df : dataframe) (T G R Y : list (list Q)) (a : nat) (ba : book)
    (t g r y : list Q) (sb : App.sidebar) (w : weights)
    (sort : ArgSort) (query : string) (rest : list (nat * book))
    (cs gs rs ys : nat) (st : store) (n : Z) :
  nth_error T a = Some t -> nth_error G a = Some g ->
  nth_error R a = Some r -> nth_error Y a = Some y ->
  length t = length df -> length g = length df ->
  length r = length df -> length y = length df ->
  nth_error df a = Some ba ->
  (1 <= App.N sb ->
   App.N sb <= length (filter (eligible sb df a) (seq 0 (length df))) ->
   exists recs,
     App.recommendations sb df (App.Matrices T G R Y) w a = Returned recs
     /\ length recs = App.N sb
     /\ recs = firstn (App.N sb)
                 (filter (keep sb df a)
                    (App.sorted_desc
                       (enumerate (composite w t g r y df (cluster ba))))))
  /\ (nth_error st cs = Some (Arr2 T) -> nth_error st gs = Some (Arr2 G) ->
      nth_error st rs = Some (Arr2 R) -> nth_error st ys = Some (Arr2 Y) ->
      Recommend.matches query df = Returned ((a, ba) :: rest) ->
      ~ (w_sum w == 0)%Q ->
      (0 <= n)%Z -> Z.to_nat n <= length df - 1 ->
      exists rows st',
        Recommend.recommend sort query df cs gs rs ys n w st
        = (Returned (Recommend.Table rows), st')
        /\ length rows = Z.to_nat n).
Proof.
  intros Ht Hg Hr Hy Lt Lg Lr Ly Ha. split.
  - intros HN Hcount.
    destruct (@script_exactly_n df T G R Y a ba t g r y Ht Hg Hr Hy
                Lt Lg Lr Ly Ha sb w HN Hcount) as [H1 H2].
    eexists. split; [exact H1|]. split; [exact H2|reflexivity].
  - intros Hcs Hgs Hrs Hys Hm Hw Hn Hle.
    now apply (@recommend_exactly_n df T G R Y a ba t g r y Ht Hg Hr Hy
                 Lt Lg Lr Ly Ha sort query rest cs gs rs ys st n w).
Qed.

(** ** Weights that cannot be normalised *)

Lemma w_sum_all_zero (w : weights) :
  (w_title w == 0)%Q -> (w_genre w == 0)%Q -> (w_rating w == 0)%Q ->
  (w_year w == 0)%Q -> (w_cluster w == 0)%Q -> (w_sum w == 0)%Q.
Proof.
  intros H1 H2 H3 H4 H5. unfold w_sum. rewrite H1, H2, H3, H4, H5.
  reflexivity.
Qed.

Lemma scores_of_zero_sum (df : dataframe) (idx : nat) (c : Z)
    (ct gt rt yt : option ndarray) (w : weights) :
  (w_sum w == 0)%Q ->
  forall s, scores_of df idx c ct gt rt yt w <> Returned s.
Proof.
  intros Hz s. unfold scores_of.
  destruct (matrix_row ct idx); try discriminate; cbn [obind].
  destruct (matrix_row gt idx); try discriminate; cbn [obind].
  destruct (matrix_row rt idx); try discriminate; cbn [obind].
  destruct (matrix_row yt idx); try discriminate; cbn [obind].
  rewrite (normalize_zero Hz). discriminate.
Qed.

(** C7, amended. The code has no check of the weights and no error class
    of its own: with five zero weights (Python numbers) the division by
    their sum fails. The script stops at the normalisation with
    [ZeroDivisionError], whatever else is entered. [recommend] raises
    [ZeroDivisionError] once the query has found a book and the four rows
    exist, and in no case returns a table: no default weights stand
    in. *)
Theorem zero_weights_fail
    (w : weights) (raw : dataframe) (ms : App.matrices) (sb : App.sidebar)
    (pick : nat) (sort : ArgSort) (query : string) (df : dataframe)
    (cs gs rs ys : nat) (n : Z) (st : store)
    (a : nat) (ba : book) (rest : list (nat * book)) (t g r y : list Q) :
  (w_title w == 0)%Q -> (w_genre w == 0)%Q -> (w_rating w == 0)%Q ->
  (w_year w == 0)%Q -> (w_cluster w == 0)%Q ->
  (App.sliders sb = w ->
   App.script raw ms sb pick = Raised ZeroDivisionError)
  /\ (Recommend.matches query df = Returned ((a, ba) :: rest) ->
      matrix_row (nth_error st cs) a = Returned t ->
      matrix_row (nth_error st gs) a = Returned g ->
      matrix_row (nth_error st rs) a = Returned r ->
      matrix_row (nth_error st ys) a = Returned y ->
      fst (Recommend.recommend sort query df cs gs rs ys n w st)
      = Raised ZeroDivisionError)
  /\ (forall rows,
        fst (Recommend.recommend sort query df cs gs rs ys n w st)
        <> Returned (Recommend.Table rows)).
Proof.
  intros H1 H2 H3 H4 H5.
  pose proof (@w_sum_all_zero w H1 H2 H3 H4 H5) as Hz.
  destruct (recommend_run sort query df cs gs rs ys n w st) as [ext E].
  rewrite E. cbn [fst]. unfold recommend_value. repeat split.
  - intros Hs. unfold App.script. rewrite Hs.
    now rewrite (normalize_zero Hz).
  - intros Hm Ht Hg Hr Hy. rewrite Hm. cbn [obind].
    unfold scores_of. rewrite Ht, Hg, Hr, Hy. cbn [obind].
    now rewrite (normalize_zero Hz).
  - intros rows.
    destruct (Recommend.matches query df) as [[|[a0 b0] rest0]| |];
      try discriminate.
    cbn [obind].
    pose proof (@scores_of_zero_sum df a0 (cluster b0) (nth_error st cs)
                  (nth_error st gs) (nth_error st rs) (nth_error st ys)
                  w Hz) as Hs.
    destruct (scores_of df a0 (cluster b0) (nth_error st cs)
                (nth_error st gs) (nth_error st rs) (nth_error st ys) w)
      as [s| |]; try discriminate.
    now destruct (Hs s).
Qed.

(** C7 as stated fails on the five-book data set. With five zero weights
    a query that matches no title is answered like any other: the call
    returns the not-found string and raises nothing. And a title matrix
    with a row more than there are books is used as it is: the call
    returns the table it returns for the square matrix. *)
Lemma zero_weights_are_not_fatal :
  fst (Recommend.recommend stable_argsort "atlas" Toy.df 0 1 2 3 10
         Toy.zeros Toy.st)
  = Returned (Recommend.Message
                "No books found for 'atlas'. Try another keyword.")
  /\ ~ (exists e,
          fst (Recommend.recommend stable_argsort "atlas" Toy.df
                 0 1 2 3 10 Toy.zeros Toy.st) = Raised e)
  /\ (exists rows,
         fst (Recommend.recommend stable_argsort "dune" Toy.df 0 1 2 3 10
                Toy.defaults
                [Arr2 (Toy.title_m ++ [[0; 0; 0; 0; 0]%Q]);
                 Arr2 Toy.genre_m; Arr2 Toy.ones_m; Arr2 Toy.ones_m])
         = Returned (Recommend.Table rows)
         /\ fst (Recommend.recommend stable_argsort "dune" Toy.df
                   0 1 2 3 10 Toy.defaults Toy.st)
            = Returned (Recommend.Table rows)).
Proof.
  split; [reflexivity|].
  split; [intros [e H]; vm_compute in H; discriminate|].
  eexists. split; vm_compute; reflexivity.
Qed.

(** ** Purity *)

(** C9. A call of [recommend] is a function of its inputs: its value
    depends on the store only through the four matrices, every array
    object of the caller is the same after the call (the store only gains
    new arrays), and a second call with the same arguments, run on the
    store the first one left, returns the same value. *)
Theorem recommend_is_pure
    (sort : ArgSort) (query : string) (df : dataframe) (cs gs rs ys : nat)
    (n : Z) (w : weights) (st st2 : store) :
  let call := Recommend.recommend sort query df cs gs rs ys n w in
  (nth_error st2 cs = nth_error st cs -> nth_error st2 gs = nth_error st gs ->
   nth_error st2 rs = nth_error st rs -> nth_error st2 ys = nth_error st ys ->
   fst (call st2) = fst (call st))
  /\ (exists new, snd (call st) = st ++ new)
  /\ (cs < length st -> gs < length st -> rs < length st ->
      ys < length st ->
      fst (call (snd (call st))) = fst (call st)).
Proof.
  intros call. unfold call.
  assert (Hdep : forall s1 s2,
             nth_error s2 cs = nth_error s1 cs ->
             nth_error s2 gs = nth_error s1 gs ->
             nth_error s2 rs = nth_error s1 rs ->
             nth_error s2 ys = nth_error s1 ys ->
             fst (Recommend.recommend sort query df cs gs rs ys n w s2)
             = fst (Recommend.recommend sort query df cs gs rs ys n w s1)).
  { intros s1 s2 E1 E2 E3 E4.
    destruct (recommend_run sort query df cs gs rs ys n w s1) as [x1 R1].
    destruct (recommend_run sort query df cs gs rs ys n w s2) as [x2 R2].
    rewrite R1, R2. cbn [fst]. now rewrite E1, E2, E3, E4. }
  split; [now apply Hdep|].
  destruct (recommend_run sort query df cs gs rs ys n w st) as [new E].
  split; [exists new; now rewrite E|].
  intros H1 H2 H3 H4. apply Hdep; rewrite E; cbn [snd];
    now apply nth_error_app1.
Qed.

(** ** The anchor's own score *)

Lemma normalized_sum_one (w : weights) :
  ~ (w_sum w == 0)%Q ->
  let w' := normalized_weights w in
  (w_title w' + w_genre w' + w_rating w' + w_year w' + w_cluster w' == 1)%Q.
Proof.
  intros H. unfold normalized_weights. cbn [w_title w_genre w_rating w_year
    w_cluster]. unfold w_sum in *. field. exact H.
Qed.

Lemma normalized_nonneg (x s : Q) : (0 <= x)%Q -> (0 < s)%Q -> (0 <= x / s)%Q.
Proof.
  intros Hx Hs. unfold Qdiv. apply Qmult_le_0_compat; [exact Hx|].
  apply Qlt_le_weak. now apply Qinv_lt_0_compat.
Qed.

(** A convex combination of values that are at most 1 is at most the sum
    of its weights. *)
Lemma convex_bound (a b c d e x1 x2 x3 x4 x5 : Q) :
  (0 <= a)%Q -> (0 <= b)%Q -> (0 <= c)%Q -> (0 <= d)%Q -> (0 <= e)%Q ->
  (x1 <= 1)%Q -> (x2 <= 1)%Q -> (x3 <= 1)%Q -> (x4 <= 1)%Q -> (x5 <= 1)%Q ->
  (a * x1 + b * x2 + c * x3 + d * x4 + e * x5 <= a + b + c + d + e)%Q.
Proof.
  intros. nra.
Qed.

(** C8. With 1 on the diagonal of the four matrices and non-negative
    weights of positive sum, the anchor's own entry of [hybrid_score]
    equals the sum of the five normalised weights, which is 1; and no
    entry whose four similarities are at most 1 is greater. *)
Theorem anchor_scores_one
    (df : dataframe) (T G R Y : list (list Q)) (cs gs rs ys : nat)
    (st : store) (w : weights) (a : nat) (ba : book) (t g r y : list Q) :
  nth_error st cs = Some (Arr2 T) -> nth_error st gs = Some (Arr2 G) ->
  nth_error st rs = Some (Arr2 R) -> nth_error st ys = Some (Arr2 Y) ->
  nth_error T a = Some t -> nth_error G a = Some g ->
  nth_error R a = Some r -> nth_error Y a = Some y ->
  length t = length df -> length g = length df ->
  length r = length df -> length y = length df ->
  nth_error df a = Some ba ->
  (nth a t 0 == 1)%Q -> (nth a g 0 == 1)%Q ->
  (nth a r 0 == 1)%Q -> (nth a y 0 == 1)%Q ->
  (0 <= w_title w)%Q -> (0 <= w_genre w)%Q -> (0 <= w_rating w)%Q ->
  (0 <= w_year w)%Q -> (0 <= w_cluster w)%Q -> (0 < w_sum w)%Q ->
  let w' := normalized_weights w in
  exists v st' scores,
    Recommend.hybrid_score df a (cluster ba) cs gs rs ys w st
    = (Returned v, st')
    /\ read st' v = Some scores
    /\ (nth a scores 0
        == w_title w' + w_genre w' + w_rating w' + w_year w' + w_cluster w')%Q
    /\ (nth a scores 0 == 1)%Q
    /\ (forall i bi,
          nth_error df i = Some bi ->
          (nth i t 0 <= 1)%Q -> (nth i g 0 <= 1)%Q ->
          (nth i r 0 <= 1)%Q -> (nth i y 0 <= 1)%Q ->
          (nth i scores 0 <= nth a scores 0)%Q).
Proof.
  intros Hcs Hgs Hrs Hys Ht Hg Hr Hy Lt Lg Lr Ly Ha Dt Dg Dr Dy
         P1 P2 P3 P4 P5 Ps w'.
  assert (Hw : ~ (w_sum w == 0)%Q).
  { intros E. rewrite E in Ps. now apply Qlt_irrefl in Ps. }
  pose proof (hybrid_score_run df a (cluster ba) cs gs rs ys w st) as H.
  rewrite Hcs, Hgs, Hrs, Hys in H.
  rewrite (@scores_of_valid df T G R Y a t g r y Ht Hg Hr Hy Lt Lg Lr Ly
             (cluster ba) w Hw) in H.
  destruct H as [ext H].
  eexists _, _, _. split; [exact H|]. split; [apply read_fresh|].
  fold w'.
  assert (Hself :
            (nth a (composite w' t g r y df (cluster ba)) 0
             == w_title w' + w_genre w' + w_rating w' + w_year w'
                + w_cluster w')%Q).
  { rewrite (@nth_composite w' t g r y df (cluster ba) Lt Lg Lr Ly a ba Ha).
    rewrite Z.eqb_refl, Dt, Dg, Dr, Dy. ring. }
  pose proof (normalized_sum_one Hw) as Hone. cbv zeta in Hone. fold w' in Hone.
  split; [exact Hself|]. split; [now rewrite Hself|].
  intros i bi Hi Bt Bg Br By.
  rewrite Hself.
  rewrite (@nth_composite w' t g r y df (cluster ba) Lt Lg Lr Ly i bi Hi).
  apply convex_bound; try assumption;
    try (unfold w', normalized_weights;
         cbn [w_title w_genre w_rating w_year w_cluster];
         now apply normalized_nonneg).
  destruct (Z.eqb (cluster bi) (cluster ba)); [apply Qle_refl|discriminate].
Qed.

(** ** The search is a regular-expression search *)

(** C10. [str.contains] reads the query as a regular expression. On the
    five-book data set the queries [a.c], [(abc)] and [ab+c] are contained
    in no title and still select [ABC of Reading], in [recommend] and in
    the script. A query that [re.compile] rejects makes [recommend] and
    the script raise [re.error]: neither a match nor the not-found
    outcome; [(] is such a query. *)
Theorem contains_is_a_regex_search
    (sort : ArgSort) (query : string) (df : dataframe) (cs gs rs ys : nat)
    (n : Z) (w : weights) (st : store) (msg : string)
    (raw : dataframe) (ms : App.matrices) (sb : App.sidebar) (pick : nat)
    (w' : weights) :
  (forall q, In q ["a.c"; "(abc)"; "ab+c"] ->
     contained_nowhere q Toy.df = true
     /\ Recommend.matches q Toy.df = Returned [(2, Toy.abc)]
     /\ App.filtered_df (App.Sidebar App.Title q 3 0 [] Toy.defaults)
          (map App.clean Toy.df)
        = Returned [(2, App.clean Toy.abc)])
  /\ (Re.compile (Recommend.normalized query) = Re.Error msg ->
      Recommend.recommend sort query df cs gs rs ys n w st
      = (Raised (ReError msg), st))
  /\ (normalize (App.sliders sb) = Returned w' ->
      App.is_empty (App.query sb) = false ->
      Re.compile (Text.strip (Text.lower (App.query sb))) = Re.Error msg ->
      App.script raw ms sb pick = Raised (ReError msg))
  /\ Re.compile (Recommend.normalized "(")
     = Re.Error "missing ), unterminated subpattern".
Proof.
  split; [|split; [|split]].
  - intros q [<-|[<-|[<-|[]]]]; repeat split; vm_compute; reflexivity.
  - intros H. unfold Recommend.recommend, Recommend.matches, str_contains.
    now rewrite H.
  - intros Hn He Hc. unfold App.script. rewrite Hn. cbn [obind].
    unfold App.filtered_df. rewrite He. unfold str_contains. rewrite Hc.
    now destruct (App.mode sb).
  - reflexivity.
Qed.

(** * The theorems at work on the five-book data set *)

(** Book 2 scores 0.5*0.3 + 0.5*0.9 = 0.6 next to the anchor 0, as in the
    scenario of the specification. *)
Lemma composite_score_formula_witness :
  exists v st' scores,
    Recommend.hybrid_score Toy.df 0 (cluster Toy.dune) 0 1 2 3
      Toy.half_half Toy.st = (Returned v, st')
    /\ read st' v = Some scores
    /\ (nth 2 scores 0 == 0.6)%Q.
Proof.
  destruct (@composite_score_formula Toy.df Toy.title_m Toy.genre_m
              Toy.ones_m Toy.ones_m 0 1 2 3 Toy.st Toy.half_half 0 2
              Toy.dune Toy.abc
              [1; 0.8; 0.3; 0.3; 0.1]%Q [1; 0.2; 0.9; 0.1; 0.1]%Q
              [1; 1; 1; 1; 1]%Q [1; 1; 1; 1; 1]%Q
              eq_refl eq_refl eq_refl eq_refl eq_refl eq_refl eq_refl eq_refl
              eq_refl eq_refl eq_refl eq_refl eq_refl eq_refl
              ltac:(intro H; vm_compute in H; discriminate H))
    as [[v [st' [scores [H1 [H2 H3]]]]] _].
  exists v, st', scores. split; [exact H1|]. split; [exact H2|].
  rewrite H3. vm_compute. reflexivity.
Defined.

Lemma not_found_message_witness :
  Recommend.recommend stable_argsort "atlas" Toy.df 0 1 2 3 10
    Toy.defaults Toy.st
  = (Returned
       (Recommend.Message "No books found for 'atlas'. Try another keyword."),
     Toy.st).
Proof.
  apply (@not_found_message stable_argsort "atlas" Toy.df 0 1 2 3 10
           Toy.defaults Toy.st).
  - reflexivity.
  - intros b Hb. simpl in Hb.
    destruct Hb as [<-|[<-|[<-|[<-|[<-|[]]]]]]; reflexivity.
Defined.

Lemma exactly_n_results_witness :
  (exists recs,
      App.recommendations dune_search Toy.df Toy.ms Toy.half_half 0
      = Returned recs /\ length recs = 3)
  /\ (exists rows st',
         Recommend.recommend stable_argsort "dune" Toy.df 0 1 2 3 3
           Toy.half_half Toy.st = (Returned (Recommend.Table rows), st')
         /\ length rows = 3).
Proof.
  destruct (@exactly_n_results Toy.df Toy.title_m Toy.genre_m Toy.ones_m
              Toy.ones_m 0 Toy.dune
              [1; 0.8; 0.3; 0.3; 0.1]%Q [1; 0.2; 0.9; 0.1; 0.1]%Q
              [1; 1; 1; 1; 1]%Q [1; 1; 1; 1; 1]%Q
              dune_search Toy.half_half stable_argsort "dune" []
              0 1 2 3 Toy.st 3%Z
              eq_refl eq_refl eq_refl eq_refl eq_refl eq_refl eq_refl eq_refl
              eq_refl) as [HA HR].
  split.
  - destruct HA as [recs [H1 [H2 _]]].
    + simpl. lia.
    + vm_compute. lia.
    + exists recs. split; [exact H1|exact H2].
  - destruct HR as [rows [st' [H1 H2]]]; try reflexivity.
    + intro H. vm_compute in H. discriminate H.
    + lia.
    + simpl. lia.
    + exists rows, st'. split; [exact H1|exact H2].
Defined.

Lemma results_pass_filters_witness :
  exists bk,
    nth_error (map App.clean Toy.df) 1 = Some bk
    /\ (4.0 <= avg_rating bk)%Q
    /\ ([fiction] <> [] ->
        exists g, In g [fiction] /\ genre_flag bk g = 1%Z).
Proof.
  eapply (@results_pass_filters Toy.df Toy.ms fiction_search 0 _ 1 _).
  - vm_compute. reflexivity.
  - left. reflexivity.
Defined.

Lemma anchor_never_returned_witness :
  exists (rows : list (nat * Recommend.listing)) (recs : list (nat * Q)),
    (exists a ba rest,
        Recommend.matches "dune" Toy.df = Returned ((a, ba) :: rest)
        /\ ~ In a (map fst rows))
    /\ (exists filtered selected,
           App.filtered_df dune_search (map App.clean Toy.df)
           = Returned filtered
           /\ App.selected_index dune_search filtered 0
              = Returned (Some selected)
           /\ ~ In selected (map fst recs)).
Proof.
  assert (E1 : exists rows st',
             Recommend.recommend stable_argsort "dune" Toy.df
               0 1 2 3 10 Toy.half_half Toy.st
             = (Returned (Recommend.Table rows), st'))
    by (eexists; eexists; vm_compute; reflexivity).
  assert (E2 : exists recs,
             App.script Toy.df Toy.ms dune_search 0 = Returned (Some recs))
    by (eexists; vm_compute; reflexivity).
  destruct E1 as [rows [st' E1]]. destruct E2 as [recs E2].
  exists rows, recs.
  destruct (@anchor_never_returned stable_argsort "dune" Toy.df
              0 1 2 3 10 Toy.half_half Toy.st st' rows
              Toy.df Toy.ms dune_search 0 recs) as [H1 H2].
  split; [exact (H1 E1)|exact (H2 E2)].
Defined.

Lemma zero_weights_fail_witness :
  App.script Toy.df Toy.ms
    (App.Sidebar App.Title "dune" 3 0 [] Toy.zeros) 0
  = Raised ZeroDivisionError
  /\ fst (Recommend.recommend stable_argsort "dune" Toy.df 0 1 2 3 10
            Toy.zeros Toy.st)
     = Raised ZeroDivisionError.
Proof.
  destruct (@zero_weights_fail Toy.zeros Toy.df Toy.ms
              (App.Sidebar App.Title "dune" 3 0 [] Toy.zeros) 0
              stable_argsort "dune" Toy.df 0 1 2 3 10 Toy.st
              0 Toy.dune []
              [1; 0.8; 0.3; 0.3; 0.1]%Q [1; 0.2; 0.9; 0.1; 0.1]%Q
              [1; 1; 1; 1; 1]%Q [1; 1; 1; 1; 1]%Q
              (Qeq_refl 0) (Qeq_refl 0) (Qeq_refl 0) (Qeq_refl 0)
              (Qeq_refl 0)) as [H1 [H2 _]].
  split; [apply H1; reflexivity|apply H2; reflexivity].
Defined.

Lemma anchor_scores_one_witness :
  exists v st' scores,
    Recommend.hybrid_score Toy.df 0 (cluster Toy.dune) 0 1 2 3
      Toy.defaults Toy.st = (Returned v, st')
    /\ read st' v = Some scores
    /\ (nth 0 scores 0 == 1)%Q.
Proof.
  destruct (@anchor_scores_one Toy.df Toy.title_m Toy.genre_m Toy.ones_m
              Toy.ones_m 0 1 2 3 Toy.st Toy.defaults 0 Toy.dune
              [1; 0.8; 0.3; 0.3; 0.1]%Q [1; 0.2; 0.9; 0.1; 0.1]%Q
              [1; 1; 1; 1; 1]%Q [1; 1; 1; 1; 1]%Q
              eq_refl eq_refl eq_refl eq_refl eq_refl eq_refl eq_refl eq_refl
              eq_refl eq_refl eq_refl eq_refl eq_refl
              (Qeq_refl 1) (Qeq_refl 1) (Qeq_refl 1) (Qeq_refl 1)
              ltac:(vm_compute; discriminate) ltac:(vm_compute; discriminate)
              ltac:(vm_compute; discriminate) ltac:(vm_compute; discriminate)
              ltac:(vm_compute; discriminate) ltac:(vm_compute; reflexivity))
    as [v [st' [scores [H1 [H2 [_ [H3 _]]]]]]].
  exists v, st', scores. split; [exact H1|]. split; [exact H2|exact H3].
Defined.

Lemma recommend_is_pure_witness :
  fst (Recommend.recommend stable_argsort "dune" Toy.df 0 1 2 3 10
         Toy.defaults (Toy.st ++ [Arr1 [1%Q]]))
  = fst (Recommend.recommend stable_argsort "dune" Toy.df 0 1 2 3 10
           Toy.defaults Toy.st)
  /\ fst (Recommend.recommend stable_argsort "dune" Toy.df 0 1 2 3 10
            Toy.defaults
            (snd (Recommend.recommend stable_argsort "dune" Toy.df
                    0 1 2 3 10 Toy.defaults Toy.st)))
     = fst (Recommend.recommend stable_argsort "dune" Toy.df 0 1 2 3 10
              Toy.defaults Toy.st).
Proof.
  destruct (@recommend_is_pure stable_argsort "dune" Toy.df 0 1 2 3 10
              Toy.defaults Toy.st (Toy.st ++ [Arr1 [1%Q]])) as [H1 [_ H3]].
  split.
  - apply H1; reflexivity.
  - apply H3; simpl; lia.
Defined.

Lemma contains_is_a_regex_search_witness :
  Recommend.recommend stable_argsort "(" Toy.df 0 1 2 3 10
    Toy.defaults Toy.st
  = (Raised (ReError "missing ), unterminated subpattern"), Toy.st)
  /\ App.script Toy.df Toy.ms
       (App.Sidebar App.Keyword "(" 3 0 [] Toy.defaults) 0
     = Raised (ReError "missing ), unterminated subpattern").
Proof.
  destruct (@contains_is_a_regex_search stable_argsort "(" Toy.df
              0 1 2 3 10 Toy.defaults Toy.st
              "missing ), unterminated subpattern" Toy.df Toy.ms
              (App.Sidebar App.Keyword "(" 3 0 [] Toy.defaults) 0
              (normalized_weights Toy.defaults)) as [_ [H2 [H3 _]]].
  split; [apply H2; reflexivity|apply H3; reflexivity].
Defined.

(** ** Scenarios of the specification *)

(** Weights 0.5/0.5/0/0/0, anchor 0, title row [1.0, 0.8, 0.3, 0.3, 0.1]
    and genre row [1.0, 0.2, 0.9, 0.1, 0.1]: the ranking without the
    anchor is 2, 1, 3, 4, in both programs. *)
Example scenario_ranking :
  (exists rows,
      fst (Recommend.recommend stable_argsort "dune" Toy.df 0 1 2 3 10
             Toy.half_half Toy.st) = Returned (Recommend.Table rows)
      /\ map fst rows = [2; 1; 3; 4])
  /\ (exists recs,
         App.script Toy.df Toy.ms
           (App.Sidebar App.Title "dune" 4 0 [] Toy.half_half) 0
         = Returned (Some recs)
         /\ map fst recs = [2; 1; 3; 4]
         /\ Forall2 Qeq (map snd recs) [0.6; 0.5; 0.2; 0.1]%Q).
Proof.
  split.
  - eexists. split; [vm_compute; reflexivity|reflexivity].
  - eexists. split; [vm_compute; reflexivity|]. split; [reflexivity|].
    repeat constructor.
Qed.

(** No book is rated 4.9 or more: the script returns the empty list. *)
Example scenario_empty_result :
  App.script Toy.df Toy.ms
    (App.Sidebar App.Title "dune" 3 4.9 [] Toy.half_half) 0
  = Returned (Some []).
Proof. reflexivity. Qed.

(** Tight filters: two fiction books rated 4.0 or more stand at the ranks
    2 and 3 of the ranking; the loop reaches both, while the filtered
    first two ranks would give one. *)
Example scenario_lazy_filter :
  exists recs,
    App.script Toy.df Toy.ms
      (App.Sidebar App.Title "dune" 3 4.0 [fiction] Toy.half_half) 0
    = Returned (Some recs)
    /\ map fst recs = [1; 3].
Proof. eexists. split; [vm_compute; reflexivity|reflexivity]. Qed.

(** The fragment of [re] on a few patterns. *)
Example regex_samples :
  str_contains "ab+c" ["xabbbc"; "ac"; "ab+c"]
  = Returned [true; false; false]
  /\ str_contains "a\.c" ["abc"; "a.c"] = Returned [false; true]
  /\ str_contains "colou?r" ["color"; "colour"; "colr"]
     = Returned [true; true; false]
  /\ str_contains "(ab|cd)*e" ["abcde"; "f"] = Returned [true; false]
  /\ str_contains "" ["anything"] = Returned [true]
  /\ str_contains "*" ["a"] = Raised (ReError "nothing to repeat")
  /\ str_contains "a)" ["a"] = Raised (ReError "unbalanced parenthesis")
  /\ str_contains "[ab]" ["a"] = NotModelled.
Proof. repeat split. Qed.

(** * Further properties of the two programs *)

(** ** Query normalisation *)

Section TextFacts.

Import Text.

Lemma lower_char_idempotent (c : ascii) :
  lower_char (lower_char c) = lower_char c.
Proof. destruct c as [[] [] [] [] [] [] [] []]; reflexivity. Qed.

Lemma is_space_lower_char (c : ascii) :
  is_space (lower_char c) = is_space c.
Proof. destruct c as [[] [] [] [] [] [] [] []]; reflexivity. Qed.

Lemma chars_text (l : list ascii) : chars (text l) = l.
Proof. apply list_ascii_of_string_of_list_ascii. Qed.

Lemma text_chars (s : string) : text (chars s) = s.
Proof. apply string_of_list_ascii_of_string. Qed.

Lemma lstrip_map_lower (l : list ascii) :
  lstrip (map lower_char l) = map lower_char (lstrip l).
Proof.
  induction l as [|c l IH]; simpl; [reflexivity|].
  rewrite is_space_lower_char. now destruct (is_space c).
Qed.

(** [lstrip] removes a run of white space and nothing else. *)
Lemma lstrip_split (l : list ascii) :
  exists sp, l = sp ++ lstrip l /\ forallb is_space sp = true.
Proof.
  induction l as [|c l [sp [E H]]]; simpl.
  - now exists [].
  - destruct (is_space c) eqn:Ec.
    + exists (c :: sp). simpl. rewrite Ec, H. split; [congruence|reflexivity].
    + now exists [].
Qed.

Lemma lstrip_starts_clean (l : list ascii) : starts_clean (lstrip l) = true.
Proof.
  induction l as [|c l IH]; simpl; [reflexivity|].
  destruct (is_space c) eqn:E; [exact IH|]. simpl. now rewrite E.
Qed.

Lemma lstrip_clean (l : list ascii) : starts_clean l = true -> lstrip l = l.
Proof.
  destruct l as [|c l]; simpl; [reflexivity|].
  intros H. apply negb_true_iff in H. now rewrite H.
Qed.

Lemma lstrip_spaces (sp l : list ascii) :
  forallb is_space sp = true -> lstrip (sp ++ l) = lstrip l.
Proof.
  induction sp as [|c sp IH]; simpl; [reflexivity|].
  intros H. apply andb_true_iff in H. destruct H as [Hc H].
  rewrite Hc. now apply IH.
Qed.

Lemma strip_as_list (s : string) : strip s = text (strip_list (chars s)).
Proof. reflexivity. Qed.

Lemma rstrip_keeps_head (m : list ascii) :
  starts_clean m = true -> starts_clean (rev (lstrip (rev m))) = true.
Proof.
  intros H. destruct (lstrip_split (rev m)) as [sp [E Hs]].
  destruct (lstrip (rev m)) as [|k ks] eqn:Ek; [reflexivity|].
  assert (Em : m = rev (k :: ks) ++ rev sp).
  { rewrite <- rev_app_distr, <- E. now rewrite rev_involutive. }
  destruct (rev (k :: ks)) as [|h t] eqn:Er.
  - apply (f_equal (@length ascii)) in Er. rewrite length_rev in Er.
    discriminate.
  - rewrite Em in H. exact H.
Qed.

Lemma strip_list_idempotent (l : list ascii) :
  strip_list (strip_list l) = strip_list l.
Proof.
  unfold strip_list.
  rewrite (lstrip_clean (rev (lstrip (rev (lstrip l)))))
    by (apply rstrip_keeps_head, lstrip_starts_clean).
  rewrite rev_involutive.
  now rewrite (lstrip_clean (lstrip (rev (lstrip l))))
    by apply lstrip_starts_clean.
Qed.

Lemma strip_list_map_lower (l : list ascii) :
  strip_list (map lower_char l) = map lower_char (strip_list l).
Proof.
  unfold strip_list.
  now rewrite lstrip_map_lower, <- map_rev, lstrip_map_lower, map_rev.
Qed.

Lemma strip_list_padding (sp1 sp2 l : list ascii) :
  forallb is_space sp1 = true -> forallb is_space sp2 = true ->
  strip_list (sp1 ++ l ++ sp2) = strip_list l.
Proof.
  intros H1 H2. unfold strip_list. rewrite lstrip_spaces by exact H1.
  destruct (lstrip_split l) as [sp [E Hs]].
  assert (Hall : forallb is_space l = true \/ lstrip l <> []).
  { destruct (lstrip l) eqn:El; [left|right; discriminate].
    rewrite E, app_nil_r. exact Hs. }
  assert (Hrev : forall x, forallb is_space x = true ->
                           forallb is_space (rev x) = true).
  { intros x Hx. apply forallb_forall. intros c Hc. apply in_rev in Hc.
    rewrite forallb_forall in Hx. now apply Hx. }
  destruct Hall as [Hl|Hne].
  - (* nothing but white space *)
    assert (Ha : forallb is_space (l ++ sp2) = true)
      by (rewrite forallb_app, Hl, H2; reflexivity).
    assert (Z1 : forall x, forallb is_space x = true -> lstrip x = []).
    { intros x Hx. rewrite <- (app_nil_r x). now rewrite lstrip_spaces. }
    now rewrite (Z1 _ Ha), (Z1 _ Hl).
  - (* white space, a first character, the rest *)
    rewrite E at 1. rewrite <- app_assoc, lstrip_spaces by exact Hs.
    rewrite (lstrip_clean (lstrip l ++ sp2)).
    + rewrite rev_app_distr. now rewrite lstrip_spaces by (apply Hrev, H2).
    + pose proof (lstrip_starts_clean l) as Hc.
      destruct (lstrip l); [congruence|exact Hc].
Qed.

End TextFacts.

Lemma normalized_as_list (q : string) :
  Recommend.normalized q
  = Text.text (strip_list (map Text.lower_char (Text.chars q))).
Proof.
  unfold Recommend.normalized. rewrite strip_as_list. unfold Text.lower.
  now rewrite chars_text.
Qed.

(** X1. What [q = query.lower().strip()] forgets: normalising a
    normalised query changes nothing, lower-casing first changes nothing,
    and white space around the query is dropped. Both programs search
    with this pattern, so such queries find the same rows. *)
Theorem query_normalisation (q : string) (sp1 sp2 : list ascii) :
  Recommend.normalized (Recommend.normalized q) = Recommend.normalized q
  /\ Recommend.normalized (Text.lower q) = Recommend.normalized q
  /\ (forallb Text.is_space sp1 = true -> forallb Text.is_space sp2 = true ->
      Recommend.normalized (Text.text (sp1 ++ Text.chars q ++ sp2))
      = Recommend.normalized q).
Proof.
  rewrite !normalized_as_list. split; [|split].
  - rewrite chars_text, <- strip_list_map_lower, strip_list_idempotent.
    rewrite map_map. f_equal. f_equal. apply map_ext.
    apply lower_char_idempotent.
  - unfold Text.lower. rewrite chars_text, map_map. f_equal. f_equal.
    apply map_ext. apply lower_char_idempotent.
  - intros H1 H2. rewrite chars_text, !map_app. f_equal.
    apply strip_list_padding.
    + rewrite forallb_forall in *. intros c Hc. apply in_map_iff in Hc.
      destruct Hc as [d [<- Hd]]. rewrite is_space_lower_char. now apply H1.
    + rewrite forallb_forall in *. intros c Hc. apply in_map_iff in Hc.
      destruct Hc as [d [<- Hd]]. rewrite is_space_lower_char. now apply H2.
Qed.

Lemma query_normalisation_witness :
  Recommend.normalized "  Dune	"
  = Recommend.normalized "Dune".
Proof.
  apply (proj2 (proj2 (@query_normalisation "Dune" [" "; " "]%char
                         ["009"]%char)));
    reflexivity.
Defined.

(** ** Blank queries *)

Lemma select_rows_all (df : dataframe) (mask : list bool) :
  length mask = length df -> (forall b, In b mask -> b = true) ->
  select_rows df mask = enumerate df.
Proof.
  unfold select_rows, enumerate. intros Hl.
  assert (Hl' : length mask = length (combine (seq 0 (length df)) df))
    by (rewrite length_combine, length_seq; lia).
  revert Hl'. generalize (combine (seq 0 (length df)) df). clear Hl.
  induction mask as [|m mask IH]; intros [|x l] Hl H; try discriminate;
    [reflexivity|].
  simpl. rewrite (H m) by now left. simpl. f_equal. apply IH.
  - simpl in Hl. lia.
  - intros b Hb. apply H. now right.
Qed.

Lemma blank_normalized (query : string) :
  forallb Text.is_space (Text.chars query) = true ->
  Recommend.normalized query = "".
Proof.
  intros H. rewrite normalized_as_list.
  assert (Hl : forallb Text.is_space (map Text.lower_char (Text.chars query))
               = true).
  { rewrite forallb_forall in *. intros c Hc. apply in_map_iff in Hc.
    destruct Hc as [d [<- Hd]]. rewrite is_space_lower_char. now apply H. }
  unfold strip_list.
  rewrite <- (app_nil_r (map Text.lower_char (Text.chars query))).
  rewrite lstrip_spaces by exact Hl. reflexivity.
Qed.

Lemma contains_empty_pattern (column : list string) :
  str_contains "" column = Returned (map (fun _ => true) column).
Proof.
  unfold str_contains. simpl. f_equal. apply map_ext. intros s.
  unfold Re.search. now destruct (Text.chars s).
Qed.

(** X2. A query made of white space only (the empty query too, for
    [recommend]) is the empty pattern, which every title matches:
    [recommend] takes every row as a match, hence row 0 as the anchor,
    and the script, for a non-empty such query, keeps every row in each
    search mode. *)
Theorem blank_query_matches_everything
    (query : string) (df : dataframe) (sb : App.sidebar) :
  forallb Text.is_space (Text.chars query) = true ->
  Recommend.matches query df = Returned (enumerate df)
  /\ (App.query sb = query -> App.is_empty query = false ->
      App.filtered_df sb df = Returned (enumerate df)).
Proof.
  intros H. pose proof (blank_normalized query H) as Hn. split.
  - unfold Recommend.matches. rewrite Hn, contains_empty_pattern.
    rewrite select_rows_all; [reflexivity| |].
    + now rewrite !length_map.
    + intros b Hb. apply in_map_iff in Hb. now destruct Hb as [? [<- _]].
  - intros Hq He. unfold App.filtered_df. rewrite Hq, He.
    unfold Recommend.normalized in Hn. rewrite Hn.
    rewrite contains_empty_pattern. cbn [obind].
    rewrite select_rows_all; [reflexivity| |].
    + destruct (App.mode sb); now rewrite !length_map.
    + intros b Hb. apply in_map_iff in Hb. now destruct Hb as [? [<- _]].
Qed.

Lemma blank_query_matches_everything_witness :
  Recommend.matches "   " Toy.df = Returned (enumerate Toy.df)
  /\ App.filtered_df (App.Sidebar App.Author "   " 3 0 [] Toy.defaults)
       Toy.df
     = Returned (enumerate Toy.df).
Proof.
  destruct (@blank_query_matches_everything "   " Toy.df
              (App.Sidebar App.Author "   " 3 0 [] Toy.defaults)
              eq_refl) as [H1 H2].
  split; [exact H1|apply H2; reflexivity].
Defined.

(** ** Cleaning *)

Lemma strip_idempotent (s : string) :
  Text.strip (Text.strip s) = Text.strip s.
Proof.
  rewrite !strip_as_list. now rewrite chars_text, strip_list_idempotent.
Qed.

(** X3. Section 3 of the script is idempotent, and a cleaned title or
    author neither starts nor ends with white space. *)
Theorem clean_is_idempotent (b : book) :
  App.clean (App.clean b) = App.clean b
  /\ starts_clean (Text.chars (title (App.clean b))) = true
  /\ starts_clean (rev (Text.chars (title (App.clean b)))) = true
  /\ starts_clean (Text.chars (author (App.clean b))) = true
  /\ starts_clean (rev (Text.chars (author (App.clean b)))) = true.
Proof.
  split.
  - unfold App.clean. cbn [title author avg_rating rating_count
      year_published all_genres cluster genre_flag features_text].
    now rewrite !strip_idempotent.
  - unfold App.clean. cbn [title author]. rewrite !strip_as_list, !chars_text.
    unfold strip_list. rewrite !rev_involutive.
    repeat split;
      first [ apply rstrip_keeps_head, lstrip_starts_clean
            | apply lstrip_starts_clean ].
Qed.

(** ** The anchor *)

Section Masks.

Variable A : Type.

Lemma filter_by_mask (g : A -> bool) (l : list A) :
  map fst (filter snd (combine l (map g l))) = filter g l.
Proof.
  induction l as [|x l IH]; simpl; [reflexivity|].
  destruct (g x); simpl; congruence.
Qed.

Lemma map_snd_enumerate (l : list A) : map snd (enumerate l) = l.
Proof.
  unfold enumerate. generalize 0.
  induction l as [|a l IH]; intros s; simpl; [reflexivity|].
  now rewrite IH.
Qed.

Lemma nth_error_enumerate (l : list A) (i : nat) :
  nth_error (enumerate l) i
  = match nth_error l i with
    | Some x => Some (i, x)
    | None => None
    end.
Proof.
  unfold enumerate.
  assert (H : forall s,
             nth_error (combine (seq s (length l)) l) i
             = match nth_error l i with
               | Some x => Some (s + i, x)
               | None => None
               end).
  { revert i. induction l as [|a l IH]; intros i s.
    - now destruct i.
    - destruct i as [|i]; simpl.
      + now rewrite Nat.add_0_r.
      + rewrite IH. destruct (nth_error l i); [|reflexivity].
        do 2 f_equal. lia. }
  apply (H 0).
Qed.

(** The first element a filter keeps: all before it are dropped. *)
Lemma filter_head (P : A -> bool) (l : list A) (x : A) (rest : list A) :
  filter P l = x :: rest ->
  exists l1 l2,
    l = l1 ++ x :: l2 /\ forallb (fun y => negb (P y)) l1 = true
    /\ P x = true.
Proof.
  induction l as [|y l IH]; simpl; [discriminate|].
  destruct (P y) eqn:E.
  - intros H. injection H as <- _. now exists [], l.
  - intros H. destruct (IH H) as [l1 [l2 [-> [H1 H2]]]].
    exists (y :: l1), l2. simpl. rewrite E, H1. auto.
Qed.

End Masks.

Lemma select_rows_filter (f : book -> bool) (df : dataframe) :
  select_rows df (map f df)
  = filter (fun ib => f (snd ib)) (enumerate df).
Proof.
  unfold select_rows.
  rewrite <- (map_snd_enumerate df) at 2. rewrite map_map.
  apply (filter_by_mask (fun ib : nat * book => f (snd ib))).
Qed.

Lemma matches_filter (query : string) (df : dataframe) (r : Re.regex) :
  Re.compile (Recommend.normalized query) = Re.Pattern r ->
  Recommend.matches query df
  = Returned (filter (fun ib => Re.search r (Text.lower (title (snd ib))))
                (enumerate df)).
Proof.
  intros H. unfold Recommend.matches, str_contains. rewrite H.
  rewrite map_map.
  now rewrite (select_rows_filter
                 (fun b => Re.search r (Text.lower (title b)))).
Qed.

Lemma first_match
    (query : string) (df : dataframe) (a : nat) (b : book)
    (rest : list (nat * book)) :
  Recommend.matches query df = Returned ((a, b) :: rest) ->
  exists r,
    Re.compile (Recommend.normalized query) = Re.Pattern r
    /\ nth_error df a = Some b
    /\ Re.search r (Text.lower (title b)) = true
    /\ (forall j bj, j < a -> nth_error df j = Some bj ->
          Re.search r (Text.lower (title bj)) = false).
Proof.
  intros H.
  destruct (Re.compile (Recommend.normalized query)) as [r| |] eqn:Ec;
    try (unfold Recommend.matches, str_contains in H; rewrite Ec in H;
         discriminate).
  exists r. split; [reflexivity|].
  rewrite (matches_filter query df Ec) in H. injection H as H.
  apply filter_head in H. destruct H as [l1 [l2 [E [H1 H2]]]].
  simpl in H2.
  assert (Ea : nth_error (enumerate df) (length l1) = Some (a, b)).
  { rewrite E, nth_error_app2 by lia. now rewrite Nat.sub_diag. }
  rewrite nth_error_enumerate in Ea.
  destruct (nth_error df (length l1)) as [x|] eqn:Ex; [|discriminate].
  injection Ea as Ea <-. subst a.
  split; [exact Ex|]. split; [exact H2|].
  intros j bj Hj Hbj.
  assert (Ej : nth_error (enumerate df) j = Some (j, bj))
    by now rewrite nth_error_enumerate, Hbj.
  rewrite E, nth_error_app1 in Ej by exact Hj.
  apply nth_error_In in Ej. rewrite forallb_forall in H1.
  apply H1 in Ej. simpl in Ej. now apply negb_true_iff in Ej.
Qed.

(** X4. The anchor of [recommend] is the first row, in storage order,
    whose lower-cased title the pattern finds: its label is its position
    in the frame, and no earlier row matches. *)
Theorem anchor_is_first_match
    (query : string) (df : dataframe) (a : nat) (b : book)
    (rest : list (nat * book)) :
  Recommend.matches query df = Returned ((a, b) :: rest) ->
  exists r,
    Re.compile (Recommend.normalized query) = Re.Pattern r
    /\ nth_error df a = Some b
    /\ Re.search r (Text.lower (title b)) = true
    /\ (forall j bj, j < a -> nth_error df j = Some bj ->
          Re.search r (Text.lower (title bj)) = false).
Proof. intros H. exact (first_match query df H). Qed.

Lemma anchor_is_first_match_witness :
  exists r,
    Re.compile (Recommend.normalized "  A.C") = Re.Pattern r
    /\ nth_error Toy.df 2 = Some Toy.abc
    /\ Re.search r (Text.lower (title Toy.abc)) = true
    /\ (forall j bj, j < 2 -> nth_error Toy.df j = Some bj ->
          Re.search r (Text.lower (title bj)) = false).
Proof.
  apply (@anchor_is_first_match "  A.C" Toy.df 2 Toy.abc []).
  reflexivity.
Defined.

(** X5. For a query whose normalised form has no special character of
    regular expressions the resolver is the plain, case-insensitive
    substring search: the matches of [recommend], and the rows the script
    keeps in title mode, are the rows whose lower-cased title contains
    the normalised query, in storage order. *)
Theorem plain_query_is_substring_search
    (query : string) (df : dataframe) (sb : App.sidebar) :
  ordinary (Text.chars (Recommend.normalized query)) = true ->
  Recommend.matches query df
  = Returned
      (filter (fun ib => Text.is_substring (Recommend.normalized query)
                           (Text.lower (title (snd ib))))
         (enumerate df))
  /\ (App.query sb = query -> App.is_empty query = false ->
      App.mode sb = App.Title ->
      App.filtered_df sb df
      = Returned
          (filter (fun ib => Text.is_substring (Recommend.normalized query)
                               (Text.lower (title (snd ib))))
             (enumerate df))).
Proof.
  intros H. pose proof (compile_ordinary _ H) as Hc. split.
  - rewrite (matches_filter query df Hc). f_equal. apply filter_ext.
    intros ib. apply search_literal.
  - intros Hq He Hm. unfold App.filtered_df. rewrite Hq, He, Hm.
    unfold Recommend.normalized in *.
    unfold str_contains. rewrite Hc. cbn [obind]. f_equal.
    unfold App.title_lower.
    rewrite map_map.
    rewrite (select_rows_filter
               (fun b => Re.search
                           (literal (Text.chars
                                       (Text.strip (Text.lower query))))
                           (Text.lower (title b)))).
    apply filter_ext. intros ib. apply search_literal.
Qed.

Lemma plain_query_is_substring_search_witness :
  Recommend.matches "The" Toy.df = Returned [(3, Toy.hobbit)].
Proof.
  apply (proj1 (@plain_query_is_substring_search "The" Toy.df
                  (App.Sidebar App.Title "The" 3 0 [] Toy.defaults)
                  eq_refl)).
Defined.

(** ** Matrices that do not fit the frame *)

Lemma recommend_value_of_run (sort : ArgSort) (query : string)
    (df : dataframe) (cs gs rs ys : nat) (n : Z) (w : weights) (st : store) :
  fst (Recommend.recommend sort query df cs gs rs ys n w st)
  = recommend_value sort query df (nth_error st cs) (nth_error st gs)
      (nth_error st rs) (nth_error st ys) n w.
Proof.
  destruct (recommend_run sort query df cs gs rs ys n w st) as [ext E].
  now rewrite E.
Qed.

(** X6. A matrix with no row for the anchor makes [recommend] raise
    [IndexError], whatever the weights are: the four rows are taken
    before the weights are looked at, so this error also comes before the
    division by a zero sum. *)
Theorem short_matrix_raises_index_error
    (sort : ArgSort) (query : string) (df : dataframe) (cs gs rs ys : nat)
    (n : Z) (w : weights) (st : store) (T G R Y : list (list Q))
    (a : nat) (b : book) (rest : list (nat * book)) :
  Recommend.matches query df = Returned ((a, b) :: rest) ->
  nth_error st cs = Some (Arr2 T) -> nth_error st gs = Some (Arr2 G) ->
  nth_error st rs = Some (Arr2 R) -> nth_error st ys = Some (Arr2 Y) ->
  length T <= a \/ length G <= a \/ length R <= a \/ length Y <= a ->
  fst (Recommend.recommend sort query df cs gs rs ys n w st)
  = Raised IndexError.
Proof.
  intros Hm Hcs Hgs Hrs Hys Hshort.
  rewrite recommend_value_of_run. unfold recommend_value.
  rewrite Hm, Hcs, Hgs, Hrs, Hys. cbn [obind].
  unfold scores_of, matrix_row.
  destruct (nth_error T a) eqn:Et; [|reflexivity].
  destruct (nth_error G a) eqn:Eg; [|reflexivity].
  destruct (nth_error R a) eqn:Er; [|reflexivity].
  destruct (nth_error Y a) eqn:Ey; [|reflexivity].
  assert (a < length T) by (apply nth_error_Some; congruence).
  assert (a < length G) by (apply nth_error_Some; congruence).
  assert (a < length R) by (apply nth_error_Some; congruence).
  assert (a < length Y) by (apply nth_error_Some; congruence).
  lia.
Qed.

Lemma short_matrix_raises_index_error_witness :
  fst (Recommend.recommend stable_argsort "cosmos" Toy.df 0 1 2 3 10
         Toy.zeros
         [Arr2 Toy.title_m; Arr2 [[1%Q]]; Arr2 Toy.ones_m; Arr2 Toy.ones_m])
  = Raised IndexError.
Proof.
  apply (@short_matrix_raises_index_error stable_argsort "cosmos" Toy.df
           0 1 2 3 10 Toy.zeros _ Toy.title_m [[1%Q]] Toy.ones_m Toy.ones_m
           4 Toy.cosmos []); try reflexivity.
  right. left. simpl. lia.
Defined.

Lemma np_add_mismatch (x y : list Q) :
  length x <> length y -> length x <> 1 -> length y <> 1 ->
  np_add x y = Raised ValueError.
Proof.
  intros H Hx Hy. unfold np_add. apply Nat.eqb_neq in H. rewrite H.
  destruct x as [|a [|a' x]]; destruct y as [|b [|b' y]];
    simpl in *; congruence.
Qed.

(** X7. Rows of different lengths, none of them of length one, cannot be
    added: when the title row and the genre row of the anchor differ in
    length, [recommend] and the script's [hybrid] raise numpy's
    [ValueError]. *)
Theorem ragged_rows_raise_value_error
    (sort : ArgSort) (query : string) (df : dataframe) (cs gs rs ys : nat)
    (n : Z) (w : weights) (st : store) (T G R Y : list (list Q))
    (a : nat) (b : book) (rest : list (nat * book)) (t g r y : list Q) :
  nth_error T a = Some t -> nth_error G a = Some g ->
  nth_error R a = Some r -> nth_error Y a = Some y ->
  length t <> length g -> length t <> 1 -> length g <> 1 ->
  (Recommend.matches query df = Returned ((a, b) :: rest) ->
   nth_error st cs = Some (Arr2 T) -> nth_error st gs = Some (Arr2 G) ->
   nth_error st rs = Some (Arr2 R) -> nth_error st ys = Some (Arr2 Y) ->
   ~ (w_sum w == 0)%Q ->
   fst (Recommend.recommend sort query df cs gs rs ys n w st)
   = Raised ValueError)
  /\ App.hybrid df (App.Matrices T G R Y) w a b = Raised ValueError.
Proof.
  intros Ht Hg Hr Hy Hne H1 H2. split.
  - intros Hm Hcs Hgs Hrs Hys Hw.
    rewrite recommend_value_of_run. unfold recommend_value.
    rewrite Hm, Hcs, Hgs, Hrs, Hys. cbn [obind].
    unfold scores_of, matrix_row. rewrite Ht, Hg, Hr, Hy. cbn [obind].
    rewrite (normalize_ok Hw). cbn [obind]. unfold blend.
    now rewrite np_add_mismatch by (rewrite ?length_np_scale; assumption).
  - unfold App.hybrid, App.getrow. cbn [App.cos_sim_title App.cos_sim_genre
      App.cos_sim_rating App.cos_sim_year].
    rewrite Ht, Hg, Hr, Hy. cbn [obind].
    now rewrite np_add_mismatch by (rewrite ?length_np_scale; assumption).
Qed.

Lemma ragged_rows_raise_value_error_witness :
  fst (Recommend.recommend stable_argsort "dune" Toy.df 0 1 2 3 10
         Toy.defaults
         [Arr2 Toy.title_m; Arr2 [[1; 0.5; 0.5]%Q]; Arr2 Toy.ones_m;
          Arr2 Toy.ones_m])
  = Raised ValueError.
Proof.
  apply (proj1 (@ragged_rows_raise_value_error stable_argsort "dune" Toy.df
           0 1 2 3 10 Toy.defaults _ Toy.title_m [[1; 0.5; 0.5]%Q]
           Toy.ones_m Toy.ones_m 0 Toy.dune []
           [1; 0.8; 0.3; 0.3; 0.1]%Q [1; 0.5; 0.5]%Q
           [1; 1; 1; 1; 1]%Q [1; 1; 1; 1; 1]%Q
           eq_refl eq_refl eq_refl eq_refl
           ltac:(simpl; lia) ltac:(simpl; lia) ltac:(simpl; lia)));
    try reflexivity.
  intro H. vm_compute in H. discriminate H.
Defined.

(** ** The table of [recommend] *)

Section SortedLists.

Variable A : Type.
Variable R : A -> A -> Prop.

Lemma sorted_filter (f : A -> bool) (l : list A) :
  StronglySorted R l -> StronglySorted R (filter f l).
Proof.
  induction 1 as [|x l Hs IH Hall]; simpl; [constructor|].
  destruct (f x); [|exact IH]. constructor; [exact IH|].
  rewrite Forall_forall in *. intros y Hy. apply filter_In in Hy.
  now apply Hall.
Qed.

Lemma sorted_firstn (n : nat) (l : list A) :
  StronglySorted R l -> StronglySorted R (firstn n l).
Proof.
  intros H. revert n. induction H as [|x l Hs IH Hall]; intros [|n]; simpl;
    try constructor.
  - apply IH.
  - rewrite Forall_forall in *. intros y Hy. apply firstn_incl in Hy.
    now apply Hall.
Qed.

Lemma sorted_snoc (S : A -> A -> Prop) (l : list A) (x : A) :
  StronglySorted S l -> Forall (fun y => S y x) l ->
  StronglySorted S (l ++ [x]).
Proof.
  induction 1 as [|y l Hs IH Hall]; simpl; intros Hx.
  - repeat constructor.
  - apply Forall_cons_iff in Hx. destruct Hx as [Hyx Hx].
    constructor; [now apply IH|].
    apply Forall_app. split; [exact Hall|now constructor].
Qed.

Lemma sorted_rev (l : list A) :
  StronglySorted R l -> StronglySorted (fun x y => R y x) (rev l).
Proof.
  induction 1 as [|x l Hs IH Hall]; simpl; [constructor|].
  apply sorted_snoc; [exact IH|].
  rewrite Forall_forall in *. intros y Hy. apply in_rev in Hy.
  now apply Hall.
Qed.

Lemma nodup_firstn (n : nat) (l : list A) : NoDup l -> NoDup (firstn n l).
Proof.
  intros H. revert n. induction H as [|x l Hx Hl IH]; intros [|n]; simpl;
    try constructor.
  - intros Hin. apply Hx. now apply firstn_incl in Hin.
  - apply IH.
Qed.

End SortedLists.

Lemma slice_to_firstn (A : Type) (n : Z) (l : list A) :
  exists k, Recommend.slice_to n l = firstn k l.
Proof.
  unfold Recommend.slice_to. destruct (0 <=? n)%Z; eexists; reflexivity.
Qed.

Lemma iloc_rows (df : dataframe) (idxs : list nat)
    (rows : list (nat * Recommend.listing)) :
  Recommend.iloc df idxs = Returned rows ->
  forall i l, In (i, l) rows ->
    exists bi, nth_error df i = Some bi /\ l = Recommend.columns bi.
Proof.
  revert rows. induction idxs as [|j idxs IH]; intros rows H i l Hin;
    simpl in H.
  - injection H as <-. destruct Hin.
  - destruct (nth_error df j) as [bj|] eqn:Ej; [|discriminate].
    destruct (Recommend.iloc df idxs) as [rows'| |]; try discriminate.
    injection H as <-. destruct Hin as [Hin|Hin].
    + injection Hin as <- <-. now exists bj.
    + now apply (IH rows').
Qed.

Lemma recommend_table_inv (sort : ArgSort) (query : string)
    (df : dataframe) (cs gs rs ys : nat) (n : Z) (w : weights) (st : store)
    (rows : list (nat * Recommend.listing)) :
  fst (Recommend.recommend sort query df cs gs rs ys n w st)
  = Returned (Recommend.Table rows) ->
  exists a ba rest v st1 scores,
    Recommend.matches query df = Returned ((a, ba) :: rest)
    /\ Recommend.hybrid_score df a (cluster ba) cs gs rs ys w st
       = (Returned v, st1)
    /\ read st1 v = Some scores
    /\ Recommend.iloc df (Recommend.top_indices sort scores a n)
       = Returned rows.
Proof.
  rewrite recommend_value_of_run. unfold recommend_value. intros H.
  destruct (Recommend.matches query df) as [[|[a ba] rest]| |] eqn:Em;
    try discriminate.
  cbn [obind] in H.
  pose proof (hybrid_score_run df a (cluster ba) cs gs rs ys w st) as Hrun.
  destruct (scores_of df a (cluster ba) (nth_error st cs) (nth_error st gs)
              (nth_error st rs) (nth_error st ys) w) as [scores| |] eqn:Es;
    try discriminate.
  cbn [obind] in H. destruct Hrun as [ext Hrun].
  destruct (Recommend.iloc df (Recommend.top_indices sort scores a n))
    as [rows'| |] eqn:Ei; try discriminate.
  injection H as <-.
  exists a, ba, rest. eexists _, _, scores.
  split; [reflexivity|]. split; [exact Hrun|].
  split; [apply read_fresh|exact Ei].
Qed.

(** X8. Whatever [argsort] numpy uses, the table of [recommend] goes
    by score: of two rows, the earlier one has a score at least as high
    as the later one, the score being the entry of [hybrid_score] at the
    row's label. *)
Theorem table_is_ordered_by_score
    (sort : ArgSort) (query : string) (df : dataframe) (cs gs rs ys : nat)
    (n : Z) (w : weights) (st : store)
    (rows : list (nat * Recommend.listing)) :
  fst (Recommend.recommend sort query df cs gs rs ys n w st)
  = Returned (Recommend.Table rows) ->
  exists a ba rest v st1 scores,
    Recommend.matches query df = Returned ((a, ba) :: rest)
    /\ Recommend.hybrid_score df a (cluster ba) cs gs rs ys w st
       = (Returned v, st1)
    /\ read st1 v = Some scores
    /\ StronglySorted (fun i j => nth j scores 0 <= nth i scores 0)%Q
         (map fst rows).
Proof.
  intros H. apply recommend_table_inv in H.
  destruct H as (a & ba & rest & v & st1 & scores & Hm & Hh & Hr & Hi).
  exists a, ba, rest, v, st1, scores. repeat split; try assumption.
  rewrite (iloc_labels _ _ Hi). unfold Recommend.top_indices.
  destruct (slice_to_firstn n
              (filter (fun i => negb (i =? a)) (rev (sort scores))))
    as [k ->].
  apply sorted_firstn, sorted_filter.
  apply (sorted_rev (argsort_sorted sort scores)).
Qed.

Lemma table_is_ordered_by_score_witness :
  exists (rows : list (nat * Recommend.listing)) a ba rest v st1 scores,
    Recommend.matches "dune" Toy.df = Returned ((a, ba) :: rest)
    /\ Recommend.hybrid_score Toy.df a (cluster ba) 0 1 2 3
         Toy.half_half Toy.st
       = (Returned v, st1)
    /\ read st1 v = Some scores
    /\ StronglySorted (fun i j => nth j scores 0 <= nth i scores 0)%Q
         (map fst rows).
Proof.
  assert (E : exists rows,
             fst (Recommend.recommend stable_argsort "dune" Toy.df
                    0 1 2 3 10 Toy.half_half Toy.st)
             = Returned (Recommend.Table rows))
    by (eexists; vm_compute; reflexivity).
  destruct E as [rows E]. exists rows.
  exact (@table_is_ordered_by_score stable_argsort "dune" Toy.df
           0 1 2 3 10 Toy.half_half Toy.st rows E).
Defined.

(** X9. The table of [recommend] lists no book twice, and each of its
    rows is the row of the data frame at its label, cut down to the seven
    columns. *)
Theorem table_rows_are_distinct_frame_rows
    (sort : ArgSort) (query : string) (df : dataframe) (cs gs rs ys : nat)
    (n : Z) (w : weights) (st : store)
    (rows : list (nat * Recommend.listing)) :
  fst (Recommend.recommend sort query df cs gs rs ys n w st)
  = Returned (Recommend.Table rows) ->
  NoDup (map fst rows)
  /\ (forall i l, In (i, l) rows ->
        exists bi, nth_error df i = Some bi /\ l = Recommend.columns bi).
Proof.
  intros H. apply recommend_table_inv in H.
  destruct H as (a & ba & rest & v & st1 & scores & Hm & Hh & Hr & Hi).
  split; [|now apply (iloc_rows _ _ Hi)].
  rewrite (iloc_labels _ _ Hi). unfold Recommend.top_indices.
  destruct (slice_to_firstn n
              (filter (fun i => negb (i =? a)) (rev (sort scores))))
    as [k ->].
  apply nodup_firstn, NoDup_filter, NoDup_rev.
  apply (Permutation_NoDup (Permutation_sym (argsort_perm sort scores))).
  apply seq_NoDup.
Qed.

Lemma table_rows_are_distinct_frame_rows_witness :
  exists rows : list (nat * Recommend.listing),
    length rows = 4
    /\ NoDup (map fst rows)
    /\ (forall i l, In (i, l) rows ->
          exists bi,
            nth_error Toy.df i = Some bi /\ l = Recommend.columns bi).
Proof.
  assert (E : exists rows,
             fst (Recommend.recommend stable_argsort "dune" Toy.df
                    0 1 2 3 10 Toy.half_half Toy.st)
             = Returned (Recommend.Table rows)
             /\ length rows = 4)
    by (eexists; split; vm_compute; reflexivity).
  destruct E as [rows [E L]]. exists rows. split; [exact L|].
  exact (@table_rows_are_distinct_frame_rows stable_argsort "dune" Toy.df
           0 1 2 3 10 Toy.half_half Toy.st rows E).
Defined.

Lemma iloc_firstn (df : dataframe) (idxs : list nat) (k : nat)
    (rows : list (nat * Recommend.listing)) :
  Recommend.iloc df idxs = Returned rows ->
  Recommend.iloc df (firstn k idxs) = Returned (firstn k rows).
Proof.
  revert k rows. induction idxs as [|i idxs IH]; intros k rows H;
    simpl in H.
  - injection H as <-. now rewrite !firstn_nil.
  - destruct (nth_error df i) as [bi|] eqn:Ei; [|discriminate].
    destruct (Recommend.iloc df idxs) as [rows'| |] eqn:E; try discriminate.
    injection H as <-. destruct k as [|k]; [reflexivity|].
    simpl. now rewrite Ei, (IH k rows').
Qed.

(** X10. Asking [recommend] for fewer rows gives the beginning of the
    longer answer: for [0 <= n <= n'], the table for [n] is the first [n]
    rows of the table for [n']. *)
Theorem smaller_n_gives_a_prefix
    (sort : ArgSort) (query : string) (df : dataframe) (cs gs rs ys : nat)
    (n n' : Z) (w : weights) (st : store)
    (rows' : list (nat * Recommend.listing)) :
  (0 <= n)%Z -> (n <= n')%Z ->
  fst (Recommend.recommend sort query df cs gs rs ys n' w st)
  = Returned (Recommend.Table rows') ->
  fst (Recommend.recommend sort query df cs gs rs ys n w st)
  = Returned (Recommend.Table (firstn (Z.to_nat n) rows')).
Proof.
  intros Hn Hle H. rewrite recommend_value_of_run in *.
  unfold recommend_value in *.
  destruct (Recommend.matches query df) as [[|[a ba] rest]| |];
    try discriminate.
  cbn [obind] in *.
  destruct (scores_of df a (cluster ba) (nth_error st cs) (nth_error st gs)
              (nth_error st rs) (nth_error st ys) w) as [scores| |];
    try discriminate.
  cbn [obind] in *.
  destruct (Recommend.iloc df (Recommend.top_indices sort scores a n'))
    as [rows0| |] eqn:Ei; try discriminate.
  injection H as <-.
  assert (E : Recommend.top_indices sort scores a n
              = firstn (Z.to_nat n)
                  (Recommend.top_indices sort scores a n')).
  { unfold Recommend.top_indices, Recommend.slice_to.
    replace (0 <=? n)%Z with true by (symmetry; apply Z.leb_le; lia).
    replace (0 <=? n')%Z with true by (symmetry; apply Z.leb_le; lia).
    rewrite firstn_firstn. f_equal. lia. }
  rewrite E, (iloc_firstn _ _ (Z.to_nat n) Ei). reflexivity.
Qed.

Lemma smaller_n_gives_a_prefix_witness :
  exists rows' : list (nat * Recommend.listing),
    length rows' = 3
    /\ fst (Recommend.recommend stable_argsort "dune" Toy.df
              0 1 2 3 2 Toy.half_half Toy.st)
       = Returned (Recommend.Table (firstn (Z.to_nat 2) rows')).
Proof.
  assert (E : exists rows',
             fst (Recommend.recommend stable_argsort "dune" Toy.df
                    0 1 2 3 3 Toy.half_half Toy.st)
             = Returned (Recommend.Table rows')
             /\ length rows' = 3)
    by (eexists; split; vm_compute; reflexivity).
  destruct E as [rows' [E L]]. exists rows'. split; [exact L|].
  apply (@smaller_n_gives_a_prefix stable_argsort "dune" Toy.df
           0 1 2 3 2 3 Toy.half_half Toy.st rows'); [lia|lia|exact E].
Defined.

(** ** Ties in [recommend] *)

Section Before.

Variable A : Type.

Lemma before_in (x y : A) (l : list A) : before x y l -> In x l /\ In y l.
Proof.
  intros [l1 [l2 [l3 ->]]]. split.
  - apply in_or_app. right. now left.
  - apply in_or_app. right. right. apply in_or_app. right. now left.
Qed.

Lemma before_cons_inv (x y a : A) (l : list A) :
  before x y (a :: l) -> (a = x /\ In y l) \/ before x y l.
Proof.
  intros [[|c l1] [l2 [l3 E]]]; simpl in E; injection E as -> ->.
  - left. split; [reflexivity|]. apply in_or_app. right. now left.
  - right. now exists l1, l2, l3.
Qed.

(** In a list without repetition two elements stand in one order only. *)
Lemma before_asym (x y : A) (l : list A) :
  NoDup l -> before x y l -> before y x l -> False.
Proof.
  induction 1 as [|a l Ha Hl IH]; intros Hxy Hyx.
  - destruct Hxy as [[|? ?] [? [? E]]]; discriminate E.
  - apply before_cons_inv in Hxy. apply before_cons_inv in Hyx.
    destruct Hxy as [[-> Hy]|Hxy], Hyx as [[E Hx]|Hyx].
    + now subst y.
    + apply before_in in Hyx. now destruct Hyx.
    + subst a. apply before_in in Hxy. now destruct Hxy.
    + now apply IH.
Qed.

(** Every list is sorted by its own order of appearance. *)
Lemma listed_in_order (pre l : list A) :
  StronglySorted (fun x y => before x y (pre ++ l)) l.
Proof.
  revert pre. induction l as [|a l IH]; intros pre; constructor.
  - specialize (IH (pre ++ [a])). rewrite <- app_assoc in IH. exact IH.
  - rewrite Forall_forall. intros y Hy.
    destruct (in_split _ _ Hy) as [m1 [m2 ->]]. now exists pre, m1, m2.
Qed.

Lemma sorted_gives (R : A -> A -> Prop) (l : list A) (x y : A) :
  StronglySorted R l -> before x y l -> R x y.
Proof.
  intros Hs [l1 [l2 [l3 ->]]]. eapply sorted_middle; [exact Hs|].
  apply in_or_app. right. now left.
Qed.

End Before.

(** The labels [recommend] keeps stand in the reverse of the order
    [argsort] gave them. *)
Lemma top_indices_reverse_argsort (sort : ArgSort) (scores : list Q)
    (a : nat) (n : Z) (i j : nat) :
  In i (Recommend.top_indices sort scores a n) ->
  In j (Recommend.top_indices sort scores a n) ->
  i <> j ->
  before i j (Recommend.top_indices sort scores a n)
  <-> before j i (sort scores).
Proof.
  intros Hi Hj Hne.
  assert (Hs : StronglySorted (fun x y => before y x (sort scores))
                 (Recommend.top_indices sort scores a n)).
  { unfold Recommend.top_indices.
    destruct (slice_to_firstn n
                (filter (fun i => negb (i =? a)) (rev (sort scores))))
      as [k ->].
    apply sorted_firstn, sorted_filter.
    apply (sorted_rev (R := fun x y => before x y (sort scores))).
    apply (listed_in_order [] (sort scores)). }
  split.
  - intros H. exact (sorted_gives Hs H).
  - intros H. apply (sorted_before Hs Hi Hj Hne).
    intros H'. apply (@before_asym nat j i (sort scores)); try assumption.
    apply (Permutation_NoDup (Permutation_sym (argsort_perm sort scores))).
    apply seq_NoDup.
Qed.

(** C2 on [recommend]. For every [argsort] that meets numpy's contract
    the table lists any two of its books in the reverse of the order in
    which [np.argsort(hybrid_score)] returned them. Books of equal score
    therefore come out by ascending index only where [argsort] returned
    them by descending index; an [argsort] that leaves equal scores in
    their order makes [recommend] list every tie with the larger index
    first. *)
Theorem recommend_lists_ties_backwards
    (sort : ArgSort) (query : string) (df : dataframe) (cs gs rs ys : nat)
    (n : Z) (w : weights) (st : store)
    (rows : list (nat * Recommend.listing)) :
  fst (Recommend.recommend sort query df cs gs rs ys n w st)
  = Returned (Recommend.Table rows) ->
  exists a ba rest v st1 scores,
    Recommend.matches query df = Returned ((a, ba) :: rest)
    /\ Recommend.hybrid_score df a (cluster ba) cs gs rs ys w st
       = (Returned v, st1)
    /\ read st1 v = Some scores
    /\ (forall i j,
          In i (map fst rows) -> In j (map fst rows) -> i <> j ->
          before i j (map fst rows) <-> before j i (sort scores)).
Proof.
  intros H. apply recommend_table_inv in H.
  destruct H as (a & ba & rest & v & st1 & scores & Hm & Hh & Hr & Hi).
  exists a, ba, rest, v, st1, scores. repeat split; try assumption;
    rewrite (iloc_labels _ _ Hi) in *;
    now apply top_indices_reverse_argsort.
Qed.

(** Eight editions of one book score the same. An [argsort] that leaves
    equal values in place returns [0 .. 7], and [recommend] lists the
    other seven from 7 down to 1. *)
Lemma recommend_lists_ties_backwards_witness :
  exists (rows : list (nat * Recommend.listing)) a ba rest v st1 scores,
    map fst rows = [7; 6; 5; 4; 3; 2; 1]
    /\ Recommend.matches "dune" Editions.df = Returned ((a, ba) :: rest)
    /\ Recommend.hybrid_score Editions.df a (cluster ba) 0 1 2 3
         Toy.defaults Editions.st
       = (Returned v, st1)
    /\ read st1 v = Some scores
    /\ (forall i j,
          In i (map fst rows) -> In j (map fst rows) -> i <> j ->
          before i j (map fst rows) <-> before j i (stable_argsort scores)).
Proof.
  assert (E : exists rows,
             fst (Recommend.recommend stable_argsort "dune" Editions.df
                    0 1 2 3 10 Toy.defaults Editions.st)
             = Returned (Recommend.Table rows)
             /\ map fst rows = [7; 6; 5; 4; 3; 2; 1])
    by (eexists; split; vm_compute; reflexivity).
  destruct E as [rows [E L]].
  destruct (@recommend_lists_ties_backwards stable_argsort "dune"
              Editions.df 0 1 2 3 10 Toy.defaults Editions.st rows E)
    as (a & ba & rest & v & st1 & scores & H).
  exists rows, a, ba, rest, v, st1, scores. split; [exact L|exact H].
Defined.

(** The same eight editions in the script: all scores are equal, the
    stable [sorted] keeps the storage order, and the list goes from 1 up
    to 7. *)
Example editions_in_the_script :
  (exists h,
      App.hybrid (map App.clean Editions.df) Editions.ms
        (normalized_weights Toy.defaults) 0 Toy.dune = Returned h
      /\ Forall (fun x => x == 1)%Q h
      /\ stable_argsort h = [0; 1; 2; 3; 4; 5; 6; 7])
  /\ (exists recs,
         App.script Editions.df Editions.ms Editions.search 0
         = Returned (Some recs)
         /\ map fst recs = [1; 2; 3; 4; 5; 6; 7]).
Proof.
  split.
  - eexists. split; [vm_compute; reflexivity|]. split.
    + repeat constructor.
    + vm_compute. reflexivity.
  - eexists. split; [vm_compute; reflexivity|]. reflexivity.
Qed.

Section ValidCall.

(** A call of [recommend] on matrices that fit the frame. *)
Variables (sort : ArgSort) (query : string) (df : dataframe).
Variables (cs gs rs ys : nat) (n : Z) (w : weights) (st : store).
Variables (T G R Y : list (list Q)) (a : nat) (ba : book).
Variables (rest : list (nat * book)) (t g r y : list Q).
Hypothesis Hm : Recommend.matches query df = Returned ((a, ba) :: rest).
Hypothesis Hcs : nth_error st cs = Some (Arr2 T).
Hypothesis Hgs : nth_error st gs = Some (Arr2 G).
Hypothesis Hrs : nth_error st rs = Some (Arr2 R).
Hypothesis Hys : nth_error st ys = Some (Arr2 Y).
Hypothesis Ht : nth_error T a = Some t.
Hypothesis Hg : nth_error G a = Some g.
Hypothesis Hr : nth_error R a = Some r.
Hypothesis Hy : nth_error Y a = Some y.
Hypothesis Lt : length t = length df.
Hypothesis Lg : length g = length df.
Hypothesis Lr : length r = length df.
Hypothesis Ly : length y = length df.
Hypothesis Hw : ~ (w_sum w == 0)%Q.

Lemma recommend_valid_labels :
  exists rows,
    fst (Recommend.recommend sort query df cs gs rs ys n w st)
    = Returned (Recommend.Table rows)
    /\ map fst rows
       = Recommend.top_indices sort
           (composite (normalized_weights w) t g r y df (cluster ba)) a n.
Proof.
  rewrite recommend_value_of_run. unfold recommend_value.
  rewrite Hm, Hcs, Hgs, Hrs, Hys. cbn [obind].
  rewrite (@scores_of_valid df T G R Y a t g r y Ht Hg Hr Hy Lt Lg Lr Ly
             (cluster ba) w Hw).
  cbn [obind].
  set (scores := composite (normalized_weights w) t g r y df (cluster ba)).
  assert (Hlen : length scores = length df) by now apply length_composite.
  destruct (@iloc_ok df (Recommend.top_indices sort scores a n))
    as [rows Hrows].
  { rewrite Forall_forall. intros i Hi. apply top_indices_in in Hi. lia. }
  rewrite Hrows. cbn [obind]. exists rows. split; [reflexivity|].
  now apply iloc_labels with (df := df).
Qed.

Lemma anchor_in_frame : a < length df.
Proof.
  destruct (first_match query df Hm) as [_ [_ [H _]]].
  apply nth_error_Some. congruence.
Qed.

Lemma others_count :
  length (filter (fun i => negb (i =? a))
            (rev (sort (composite (normalized_weights w) t g r y df
                          (cluster ba)))))
  = length df - 1.
Proof.
  rewrite <- (others_in_seq anchor_in_frame). apply Permutation_length.
  apply filter_perm. rewrite <- Permutation_rev.
  rewrite <- (@length_composite (normalized_weights w) t g r y df
                (cluster ba) Lt Lg Lr Ly).
  apply argsort_perm.
Qed.

Lemma table_slice_valid :
  let ranking :=
    filter (fun i => negb (i =? a))
      (rev (sort (composite (normalized_weights w) t g r y df
                    (cluster ba)))) in
  let k := if (0 <=? n)%Z then Nat.min (Z.to_nat n) (length df - 1)
           else length df - 1 - Z.to_nat (- n) in
  exists rows,
    fst (Recommend.recommend sort query df cs gs rs ys n w st)
    = Returned (Recommend.Table rows)
    /\ length ranking = length df - 1
    /\ map fst rows = firstn k ranking
    /\ length rows = k.
Proof.
  intros ranking k. destruct recommend_valid_labels as [rows [H1 H2]].
  pose proof others_count as Hc. fold ranking in Hc.
  assert (E : map fst rows = firstn k ranking).
  { rewrite H2. unfold Recommend.top_indices, Recommend.slice_to.
    fold ranking. unfold k. destruct (0 <=? n)%Z.
    - destruct (Nat.le_gt_cases (Z.to_nat n) (length df - 1)) as [Hle|Hgt].
      + now rewrite Nat.min_l.
      + rewrite Nat.min_r by lia. rewrite !firstn_all2 by lia. reflexivity.
    - now rewrite Hc. }
  exists rows. split; [exact H1|]. split; [exact Hc|].
  split; [exact E|].
  rewrite <- (length_map fst), E, length_firstn, Hc. unfold k.
  destruct (0 <=? n)%Z; lia.
Qed.

Lemma all_others_valid :
  (Z.of_nat (length df) - 1 <= n)%Z ->
  exists rows,
    fst (Recommend.recommend sort query df cs gs rs ys n w st)
    = Returned (Recommend.Table rows)
    /\ Permutation (map fst rows)
         (filter (fun i => negb (i =? a)) (seq 0 (length df))).
Proof.
  intros Hn. destruct recommend_valid_labels as [rows [H1 H2]].
  exists rows. split; [exact H1|]. rewrite H2.
  unfold Recommend.top_indices, Recommend.slice_to.
  pose proof anchor_in_frame as Ha.
  replace (0 <=? n)%Z with true by (symmetry; apply Z.leb_le; lia).
  rewrite firstn_all2 by (rewrite others_count; lia).
  apply filter_perm. rewrite <- Permutation_rev.
  rewrite <- (@length_composite (normalized_weights w) t g r y df
                (cluster ba) Lt Lg Lr Ly).
  apply argsort_perm.
Qed.

End ValidCall.

(** The eight editions under any [argsort]: the table is the whole
    reversed [argsort] of the eight equal scores, less the anchor. It is
    1, 2, ..., 7 only for an [argsort] that returns these equal scores
    from 7 down to 1. *)
Lemma editions_in_recommend (sort : ArgSort) :
  let row := repeat 1%Q 8 in
  let scores :=
    composite (normalized_weights Toy.defaults) row row row row
      Editions.df (cluster Toy.dune) in
  Forall (fun x => x == 1)%Q scores
  /\ exists rows,
       fst (Recommend.recommend sort "dune" Editions.df 0 1 2 3 10
              Toy.defaults Editions.st)
       = Returned (Recommend.Table rows)
       /\ map fst rows = filter (fun i => negb (i =? 0)) (rev (sort scores)).
Proof.
  intros row scores. split; [repeat constructor|]. subst scores.
  destruct (@table_slice_valid sort "dune" Editions.df 0 1 2 3 10
              Toy.defaults Editions.st Editions.ones Editions.ones
              Editions.ones Editions.ones 0 Toy.dune
              (tl (enumerate Editions.df)) row row row row)
    as [rows [H1 [H2 [H3 _]]]]; try reflexivity.
  - intro H. vm_compute in H. discriminate H.
  - exists rows. split; [exact H1|]. rewrite H3.
    apply firstn_all2. rewrite H2. simpl. lia.
Qed.

(** X11. On matrices that fit the frame [recommend] returns the slice
    [[:n]] of the ranking of the other books, the ranking being the
    reversed [argsort] of the scores without the anchor. For [n >= 0]
    these are its first [n] books, or all of them when fewer than [n]
    exist (no error then, and none for [n = 0]); for a negative [n] all
    of them but the last [-n]. *)
Theorem table_length_for_any_n
    (sort : ArgSort) (query : string) (df : dataframe) (cs gs rs ys : nat)
    (n : Z) (w : weights) (st : store) (T G R Y : list (list Q)) (a : nat)
    (ba : book) (rest : list (nat * book)) (t g r y : list Q) :
  Recommend.matches query df = Returned ((a, ba) :: rest) ->
  nth_error st cs = Some (Arr2 T) -> nth_error st gs = Some (Arr2 G) ->
  nth_error st rs = Some (Arr2 R) -> nth_error st ys = Some (Arr2 Y) ->
  nth_error T a = Some t -> nth_error G a = Some g ->
  nth_error R a = Some r -> nth_error Y a = Some y ->
  length t = length df -> length g = length df ->
  length r = length df -> length y = length df ->
  ~ (w_sum w == 0)%Q ->
  let ranking :=
    filter (fun i => negb (i =? a))
      (rev (sort (composite (normalized_weights w) t g r y df
                    (cluster ba)))) in
  let k := if (0 <=? n)%Z then Nat.min (Z.to_nat n) (length df - 1)
           else length df - 1 - Z.to_nat (- n) in
  exists rows,
    fst (Recommend.recommend sort query df cs gs rs ys n w st)
    = Returned (Recommend.Table rows)
    /\ length ranking = length df - 1
    /\ map fst rows = firstn k ranking
    /\ length rows = k.
Proof. intros. eapply table_slice_valid; eassumption. Qed.

(** With [n = -1] the five-book data set and equal title and genre weights
    give the ranking 2, 1, 3, 4 without its last book. *)
Lemma table_length_for_any_n_witness :
  exists rows,
    fst (Recommend.recommend stable_argsort "dune" Toy.df 0 1 2 3 (-1)
           Toy.half_half Toy.st)
    = Returned (Recommend.Table rows)
    /\ map fst rows = [2; 1; 3]
    /\ length rows = 3.
Proof.
  destruct (@table_length_for_any_n stable_argsort "dune" Toy.df 0 1 2 3
              (-1) Toy.half_half Toy.st Toy.title_m Toy.genre_m Toy.ones_m
              Toy.ones_m 0 Toy.dune []
              [1; 0.8; 0.3; 0.3; 0.1]%Q [1; 0.2; 0.9; 0.1; 0.1]%Q
              [1; 1; 1; 1; 1]%Q [1; 1; 1; 1; 1]%Q)
    as [rows [H1 [_ [H2 H3]]]]; try reflexivity.
  - intro H. vm_compute in H. discriminate H.
  - exists rows. split; [exact H1|]. split; [|exact H3].
    rewrite H2. vm_compute. reflexivity.
Defined.

(** X12. With [n] at least the number of other books, [recommend] on
    matrices that fit the frame lists every book but the anchor, each
    once. *)
Theorem large_n_lists_all_other_books
    (sort : ArgSort) (query : string) (df : dataframe) (cs gs rs ys : nat)
    (n : Z) (w : weights) (st : store) (T G R Y : list (list Q)) (a : nat)
    (ba : book) (rest : list (nat * book)) (t g r y : list Q) :
  Recommend.matches query df = Returned ((a, ba) :: rest) ->
  nth_error st cs = Some (Arr2 T) -> nth_error st gs = Some (Arr2 G) ->
  nth_error st rs = Some (Arr2 R) -> nth_error st ys = Some (Arr2 Y) ->
  nth_error T a = Some t -> nth_error G a = Some g ->
  nth_error R a = Some r -> nth_error Y a = Some y ->
  length t = length df -> length g = length df ->
  length r = length df -> length y = length df ->
  ~ (w_sum w == 0)%Q ->
  (Z.of_nat (length df) - 1 <= n)%Z ->
  exists rows,
    fst (Recommend.recommend sort query df cs gs rs ys n w st)
    = Returned (Recommend.Table rows)
    /\ Permutation (map fst rows)
         (filter (fun i => negb (i =? a)) (seq 0 (length df))).
Proof. intros. eapply all_others_valid; eassumption. Qed.

Lemma large_n_lists_all_other_books_witness :
  exists rows,
    fst (Recommend.recommend stable_argsort "dune" Toy.df 0 1 2 3 10
           Toy.defaults Toy.st)
    = Returned (Recommend.Table rows)
    /\ Permutation (map fst rows) [1; 2; 3; 4].
Proof.
  apply (@large_n_lists_all_other_books stable_argsort "dune" Toy.df
           0 1 2 3 10 Toy.defaults Toy.st Toy.title_m Toy.genre_m
           Toy.ones_m Toy.ones_m 0 Toy.dune []
           [1; 0.8; 0.3; 0.3; 0.1]%Q [1; 0.2; 0.9; 0.1; 0.1]%Q
           [1; 1; 1; 1; 1]%Q [1; 1; 1; 1; 1]%Q);
    try reflexivity.
  - intro H. vm_compute in H. discriminate H.
  - simpl. lia.
Defined.

(** ** The list of the script *)

Section LoopShape.

Variables (sb : App.sidebar) (df : dataframe) (selected : nat).

(** Whatever [N] is, what the loop adds to [recs] is a beginning of the
    filtered ranking. *)
Lemma recs_loop_prefix (sim_scores recs out : list (nat * Q)) :
  App.recs_loop sb df selected sim_scores recs = Returned out ->
  exists k,
    out = recs ++ firstn k (filter (keep sb df selected) sim_scores).
Proof.
  revert recs. induction sim_scores as [|[idx score] rest IH];
    intros recs H.
  - simpl in H. injection H as <-. exists 0. now rewrite app_nil_r.
  - rewrite recs_loop_cons in H. cbn [filter].
    unfold keep at 1, eligible. cbn [fst].
    destruct (idx =? selected) eqn:Es; cbn [negb andb]; [now apply IH|].
    destruct (nth_error df idx) as [bk|] eqn:Eb; [|discriminate].
    destruct (App.accepted sb bk); [|now apply IH].
    destruct (App.N sb <=? length (recs ++ [(idx, score)])).
    + injection H as <-. now exists 1.
    + destruct (IH _ H) as [k ->]. exists (S k).
      now rewrite <- app_assoc.
Qed.

(** The loop never returns more than [N] entries, one when [N] is 0. *)
Lemma recs_loop_bound (sim_scores recs out : list (nat * Q)) :
  App.recs_loop sb df selected sim_scores recs = Returned out ->
  length recs < Nat.max 1 (App.N sb) ->
  length out <= Nat.max 1 (App.N sb).
Proof.
  revert recs. induction sim_scores as [|[idx score] rest IH];
    intros recs H Hl.
  - simpl in H. injection H as <-. lia.
  - rewrite recs_loop_cons in H.
    destruct (idx =? selected); [now apply (IH recs)|].
    destruct (nth_error df idx) as [bk|]; [|discriminate].
    destruct (App.accepted sb bk); [|now apply (IH recs)].
    destruct (App.N sb <=? length (recs ++ [(idx, score)])) eqn:El.
    + injection H as <-. rewrite length_app. cbn [length]. lia.
    + apply Nat.leb_gt in El. apply (IH _ H). lia.
Qed.

(** On labels inside the frame the loop does not fail. *)
Lemma recs_loop_returns (sim_scores recs : list (nat * Q)) :
  Forall (fun p => fst p < length df) sim_scores ->
  exists out, App.recs_loop sb df selected sim_scores recs = Returned out.
Proof.
  revert recs. induction sim_scores as [|[idx score] rest IH];
    intros recs Hv.
  - now eexists.
  - apply Forall_cons_iff in Hv. destruct Hv as [Hi Hv]. simpl in Hi.
    rewrite recs_loop_cons.
    destruct (idx =? selected); [now apply IH|].
    destruct (nth_error df idx) as [bk|] eqn:Eb;
      [|apply nth_error_None in Eb; lia].
    destruct (App.accepted sb bk); [|now apply IH].
    destruct (App.N sb <=? length (recs ++ [(idx, score)]));
      [now eexists|now apply IH].
Qed.

End LoopShape.

Lemma recommendations_inv (sb : App.sidebar) (df : dataframe)
    (ms : App.matrices) (w : weights) (selected : nat)
    (recs : list (nat * Q)) :
  App.recommendations sb df ms w selected = Returned recs ->
  exists bk h k,
    nth_error df selected = Some bk
    /\ App.hybrid df ms w selected bk = Returned h
    /\ recs = firstn k (filter (keep sb df selected)
                          (App.sorted_desc (enumerate h)))
    /\ length recs <= Nat.max 1 (App.N sb).
Proof.
  unfold App.recommendations. intros H.
  destruct (nth_error df selected) as [bk|] eqn:Eb; [|discriminate].
  destruct (App.hybrid df ms w selected bk) as [h| |] eqn:Eh;
    try discriminate.
  cbn [obind] in H.
  destruct (recs_loop_prefix _ _ _ _ _ H) as [k Hk].
  exists bk, h, k. split; [reflexivity|]. split; [exact Eh|].
  split; [exact Hk|].
  apply (recs_loop_bound _ _ _ _ _ H). cbn [length]. lia.
Qed.

Lemma in_enumerate_nth (A : Type) (l : list A) (i : nat) (x : A) :
  In (i, x) (enumerate l) -> nth_error l i = Some x.
Proof.
  intros H. apply In_nth_error in H. destruct H as [k H].
  rewrite nth_error_enumerate in H.
  destruct (nth_error l k) as [y|] eqn:E; [|discriminate].
  now injection H as <- <-.
Qed.

(** X13. The list the script shows is ranked: scores go down, of two
    equal scores the smaller label comes first, no book occurs twice,
    every score is the entry of [hybrid] at its label, and there are at
    most [N] entries. *)
Theorem script_list_is_ranked
    (raw : dataframe) (ms : App.matrices) (sb : App.sidebar) (pick : nat)
    (recs : list (nat * Q)) :
  App.script raw ms sb pick = Returned (Some recs) ->
  1 <= App.N sb ->
  exists w selected bk h,
    normalize (App.sliders sb) = Returned w
    /\ nth_error (map App.clean raw) selected = Some bk
    /\ App.hybrid (map App.clean raw) ms w selected bk = Returned h
    /\ StronglySorted ranks_before recs
    /\ NoDup (map fst recs)
    /\ (forall idx score, In (idx, score) recs -> nth_error h idx = Some score)
    /\ length recs <= App.N sb.
Proof.
  intros H HN. apply script_returns in H.
  destruct H as (w & filtered & selected & Hn & _ & _ & Hr).
  apply recommendations_inv in Hr.
  destruct Hr as (bk & h & k & Hb & Hh & -> & Hlen).
  exists w, selected, bk, h. repeat split; try assumption.
  - apply sorted_firstn, sorted_filter, sorted_desc_sorted.
    apply combine_seq_increasing.
  - rewrite <- firstn_map. apply nodup_firstn. unfold keep.
    rewrite (filter_map_fst (eligible sb (map App.clean raw) selected)).
    apply NoDup_filter.
    apply (Permutation_NoDup (Permutation_sym (ranking_labels h))).
    apply seq_NoDup.
  - intros idx score Hin. apply firstn_incl in Hin.
    apply filter_In in Hin. destruct Hin as [Hin _].
    apply (Permutation_in _ (sorted_desc_perm _)) in Hin.
    now apply in_enumerate_nth.
  - lia.
Qed.

Lemma script_list_is_ranked_witness :
  exists recs,
    App.script Toy.df Toy.ms fiction_search 0 = Returned (Some recs)
    /\ StronglySorted ranks_before recs
    /\ length recs <= 3.
Proof.
  assert (E : exists recs,
             App.script Toy.df Toy.ms fiction_search 0 = Returned (Some recs))
    by (eexists; vm_compute; reflexivity).
  destruct E as [recs E]. exists recs. split; [exact E|].
  destruct (@script_list_is_ranked Toy.df Toy.ms fiction_search 0 recs E
              ltac:(simpl; lia))
    as (w & selected & bk & h & _ & _ & _ & H1 & _ & _ & H2).
  split; [exact H1|exact H2].
Defined.

(** X14. On matrices that fit the frame and with [N >= 1] the script
    returns as many entries as pass the filters, up to [N]: when fewer
    than [N] rows other than the selected one pass, all of them are
    returned and nothing fails. *)
Theorem script_returns_what_passes
    (df : dataframe) (T G R Y : list (list Q)) (a : nat) (ba : book)
    (t g r y : list Q) (sb : App.sidebar) (w : weights) :
  nth_error T a = Some t -> nth_error G a = Some g ->
  nth_error R a = Some r -> nth_error Y a = Some y ->
  length t = length df -> length g = length df ->
  length r = length df -> length y = length df ->
  nth_error df a = Some ba ->
  1 <= App.N sb ->
  let passing := filter (eligible sb df a) (seq 0 (length df)) in
  exists recs,
    App.recommendations sb df (App.Matrices T G R Y) w a = Returned recs
    /\ length recs = Nat.min (App.N sb) (length passing)
    /\ (length passing <= App.N sb -> Permutation (map fst recs) passing).
Proof.
  intros Ht Hg Hr Hy Lt Lg Lr Ly Ha HN passing.
  set (h := composite w t g r y df (cluster ba)).
  assert (Hlen : length h = length df) by now apply length_composite.
  assert (Hperm : Permutation
                    (map fst (filter (keep sb df a)
                                (App.sorted_desc (enumerate h))))
                    passing).
  { unfold keep. rewrite (filter_map_fst (eligible sb df a)).
    apply filter_perm. rewrite <- Hlen. apply ranking_labels. }
  exists (firstn (App.N sb)
            (filter (keep sb df a) (App.sorted_desc (enumerate h)))).
  split; [|split].
  - unfold App.recommendations. rewrite Ha.
    rewrite (@app_hybrid_valid df T G R Y a t g r y) by assumption.
    cbn [obind]. fold h. rewrite recs_loop_lazy.
    + cbn [app length]. now rewrite Nat.sub_0_r.
    + rewrite Forall_forall. intros p Hp. apply (in_map fst) in Hp.
      apply (Permutation_in _ (ranking_labels _)) in Hp.
      apply in_seq in Hp. lia.
    + cbn [length]. lia.
  - rewrite length_firstn. f_equal.
    rewrite <- (length_map fst). now apply Permutation_length.
  - intros Hle. rewrite firstn_all2; [exact Hperm|].
    rewrite <- (length_map fst), (Permutation_length Hperm). exact Hle.
Qed.

Lemma script_returns_what_passes_witness :
  exists recs,
    App.recommendations fiction_search Toy.df Toy.ms Toy.half_half 0
    = Returned recs
    /\ length recs = 2.
Proof.
  destruct (@script_returns_what_passes Toy.df Toy.title_m Toy.genre_m
              Toy.ones_m Toy.ones_m 0 Toy.dune
              [1; 0.8; 0.3; 0.3; 0.1]%Q [1; 0.2; 0.9; 0.1; 0.1]%Q
              [1; 1; 1; 1; 1]%Q [1; 1; 1; 1; 1]%Q
              fiction_search Toy.half_half
              eq_refl eq_refl eq_refl eq_refl eq_refl eq_refl eq_refl eq_refl
              eq_refl ltac:(simpl; lia)) as [recs [H1 [H2 _]]].
  exists recs. split; [exact H1|exact H2].
Defined.

(** ** No book selected *)

Lemma no_selection
    (raw : dataframe) (ms : App.matrices) (sb : App.sidebar) (pick : nat)
    (w : weights) :
  normalize (App.sliders sb) = Returned w ->
  App.is_empty (App.query sb) = true
  \/ App.filtered_df sb (map App.clean raw) = Returned [] ->
  App.script raw ms sb pick = Returned None.
Proof.
  intros Hn H. unfold App.script. rewrite Hn. cbn [obind].
  destruct H as [He|Hf].
  - unfold App.filtered_df. rewrite He. cbn [obind].
    unfold App.selected_index. now rewrite He.
  - rewrite Hf. cbn [obind]. unfold App.selected_index.
    now rewrite andb_false_r.
Qed.

(** X15. The script recommends nothing, and raises nothing, when the
    query is empty or the search keeps no row: no book is selected, even
    though an empty query leaves every row in [filtered_df]. *)
Theorem script_without_selection
    (raw : dataframe) (ms : App.matrices) (sb : App.sidebar) (pick : nat)
    (w : weights) :
  normalize (App.sliders sb) = Returned w ->
  App.is_empty (App.query sb) = true
  \/ App.filtered_df sb (map App.clean raw) = Returned [] ->
  App.script raw ms sb pick = Returned None.
Proof. intros Hn H. exact (@no_selection raw ms sb pick w Hn H). Qed.

Lemma script_without_selection_witness :
  App.script Toy.df Toy.ms (App.Sidebar App.Title "" 3 0 [] Toy.defaults) 0
  = Returned None
  /\ App.script Toy.df Toy.ms
       (App.Sidebar App.Author "atlas" 3 0 [] Toy.defaults) 0
     = Returned None.
Proof.
  split.
  - apply (@script_without_selection Toy.df Toy.ms
             (App.Sidebar App.Title "" 3 0 [] Toy.defaults) 0
             (normalized_weights Toy.defaults) eq_refl).
    left. reflexivity.
  - apply (@script_without_selection Toy.df Toy.ms
             (App.Sidebar App.Author "atlas" 3 0 [] Toy.defaults) 0
             (normalized_weights Toy.defaults) eq_refl).
    right. reflexivity.
Defined.

(** ** The select box *)

Lemma find_first (A : Type) (P : A -> bool) (l : list A) (pick : nat)
    (x : A) :
  nth_error l pick = Some x -> P x = true ->
  exists k y,
    k <= pick /\ nth_error l k = Some y /\ find P l = Some y
    /\ P y = true
    /\ (forall k' z, k' < k -> nth_error l k' = Some z -> P z = false).
Proof.
  revert pick. induction l as [|a l IH]; intros pick Hp Hx.
  - now destruct pick.
  - simpl. destruct (P a) eqn:Ea.
    + exists 0, a. repeat split; try lia; try assumption.
    + destruct pick as [|pick]; [simpl in Hp; congruence|].
      destruct (IH pick Hp Hx) as (k & y & Hk & Hn & Hf & Hy & Hbefore).
      exists (S k), y. repeat split; try lia; try assumption.
      intros [|k'] z Hk' Hz; simpl in Hz; [congruence|].
      apply (Hbefore k'); [lia|exact Hz].
Qed.

Lemma first_with_label
    (sb : App.sidebar) (filtered : list (nat * book)) (pick i : nat)
    (bi : book) :
  App.is_empty (App.query sb) = false ->
  nth_error filtered pick = Some (i, bi) ->
  exists k s bs,
    App.selected_index sb filtered pick = Returned (Some s)
    /\ k <= pick
    /\ nth_error filtered k = Some (s, bs)
    /\ title bs = title bi /\ author bs = author bi
    /\ (forall k' s' b', k' < k -> nth_error filtered k' = Some (s', b') ->
          title b' <> title bi \/ author b' <> author bi).
Proof.
  intros He Hp. unfold App.selected_index. rewrite He.
  assert (Hlen : (0 <? length filtered) = true).
  { apply Nat.ltb_lt. destruct filtered; [now destruct pick|simpl; lia]. }
  rewrite Hlen. cbn [negb andb]. rewrite map_map. cbn [fst].
  rewrite nth_error_map, Hp. cbn [option_map snd].
  set (P := fun o : (string * string) * nat =>
              App.label_eqb (fst o) (App.label bi)).
  set (opts := map (fun ib : nat * book => (App.label (snd ib), fst ib))
                   filtered).
  assert (Hop : nth_error opts pick = Some (App.label bi, i))
    by (unfold opts; now rewrite nth_error_map, Hp).
  assert (HP : P (App.label bi, i) = true).
  { unfold P, App.label_eqb. cbn [fst]. now rewrite !String.eqb_refl. }
  destruct (find_first P opts _ Hop HP) as (k & o & Hk & Hn & Hf & Ho & Hb).
  unfold opts in Hn. rewrite nth_error_map in Hn.
  destruct (nth_error filtered k) as [[s bs]|] eqn:Ek; [|discriminate].
  injection Hn as <-. fold opts. fold P. rewrite Hf. cbn [snd].
  exists k, s, bs. split; [reflexivity|]. split; [exact Hk|].
  split; [exact Ek|].
  unfold P, App.label_eqb, App.label in Ho. cbn [fst snd] in Ho.
  apply andb_true_iff in Ho. destruct Ho as [Ho1 Ho2].
  apply String.eqb_eq in Ho1. apply String.eqb_eq in Ho2.
  split; [exact Ho1|]. split; [exact Ho2|].
  intros k' s' b' Hk' Hn'.
  assert (Hz : nth_error opts k' = Some (App.label b', s'))
    by (unfold opts; now rewrite nth_error_map, Hn').
  apply (Hb _ _ Hk') in Hz.
  unfold P, App.label_eqb, App.label in Hz. cbn [fst snd] in Hz.
  apply andb_false_iff in Hz. destruct Hz as [Hz|Hz];
    apply String.eqb_neq in Hz; [left|right]; exact Hz.
Qed.

(** X16. The select box identifies a book by its label: the book the
    script selects is the first row of the search result with the title
    and author of the chosen entry. When two rows share title and author
    the later one cannot be selected. *)
Theorem selection_is_first_with_label
    (sb : App.sidebar) (filtered : list (nat * book)) (pick i : nat)
    (bi : book) :
  App.is_empty (App.query sb) = false ->
  nth_error filtered pick = Some (i, bi) ->
  exists k s bs,
    App.selected_index sb filtered pick = Returned (Some s)
    /\ k <= pick
    /\ nth_error filtered k = Some (s, bs)
    /\ title bs = title bi /\ author bs = author bi
    /\ (forall k' s' b', k' < k -> nth_error filtered k' = Some (s', b') ->
          title b' <> title bi \/ author b' <> author bi).
Proof. intros He Hp. exact (@first_with_label sb filtered pick i bi He Hp). Qed.

Lemma selection_is_first_with_label_witness :
  exists k s bs,
    App.selected_index dune_search [(0, Toy.dune); (5, Toy.dune)] 1
    = Returned (Some s)
    /\ k <= 1
    /\ nth_error [(0, Toy.dune); (5, Toy.dune)] k = Some (s, bs)
    /\ title bs = title Toy.dune /\ author bs = author Toy.dune
    /\ (forall k' s' b', k' < k ->
          nth_error [(0, Toy.dune); (5, Toy.dune)] k' = Some (s', b') ->
          title b' <> title Toy.dune \/ author b' <> author Toy.dune).
Proof.
  apply (@selection_is_first_with_label dune_search
           [(0, Toy.dune); (5, Toy.dune)] 1 5 Toy.dune); reflexivity.
Defined.

(** ** Inputs that fit never fail *)

Lemma fits_row (df : dataframe) (m : list (list Q)) (a : nat) :
  fits df m -> a < length df ->
  exists row, nth_error m a = Some row /\ length row = length df.
Proof.
  intros [Hl Hr] Ha.
  destruct (nth_error m a) as [row|] eqn:E;
    [|apply nth_error_None in E; lia].
  exists row. split; [reflexivity|].
  rewrite Forall_forall in Hr. apply Hr. eapply nth_error_In. exact E.
Qed.

Lemma select_rows_in (df : dataframe) (mask : list bool) (s : nat)
    (bs : book) :
  In (s, bs) (select_rows df mask) -> nth_error df s = Some bs.
Proof.
  unfold select_rows. intros H. apply in_map_iff in H.
  destruct H as [[x m] [E H]]. simpl in E. subst x.
  apply filter_In in H. destruct H as [H _]. apply in_combine_l in H.
  now apply in_enumerate_nth.
Qed.

(** X17. [recommend] does not fail on inputs that fit: with a pattern
    [re.compile] accepts, four square matrices of the frame's size and
    weights of non-zero sum, it returns the not-found string when no
    title matches and a table otherwise. *)
Theorem recommend_returns_on_fitting_input
    (sort : ArgSort) (query : string) (df : dataframe) (cs gs rs ys : nat)
    (n : Z) (w : weights) (st : store) (T G R Y : list (list Q))
    (r : Re.regex) :
  Re.compile (Recommend.normalized query) = Re.Pattern r ->
  nth_error st cs = Some (Arr2 T) -> nth_error st gs = Some (Arr2 G) ->
  nth_error st rs = Some (Arr2 R) -> nth_error st ys = Some (Arr2 Y) ->
  fits df T -> fits df G -> fits df R -> fits df Y ->
  ~ (w_sum w == 0)%Q ->
  (Recommend.matches query df = Returned [] /\
   fst (Recommend.recommend sort query df cs gs rs ys n w st)
   = Returned (Recommend.Message (Recommend.not_found query)))
  \/ (exists a ba rest rows,
        Recommend.matches query df = Returned ((a, ba) :: rest)
        /\ fst (Recommend.recommend sort query df cs gs rs ys n w st)
           = Returned (Recommend.Table rows)).
Proof.
  intros Hc Hcs Hgs Hrs Hys FT FG FR FY Hw.
  pose proof (matches_filter query df Hc) as Hm.
  destruct (filter (fun ib => Re.search r (Text.lower (title (snd ib))))
              (enumerate df)) as [|[a ba] rest] eqn:Ef.
  - left. split; [exact Hm|].
    rewrite recommend_value_of_run. unfold recommend_value. now rewrite Hm.
  - right.
    destruct (first_match query df Hm) as [_ [_ [Ha _]]].
    assert (Hlt : a < length df) by (apply nth_error_Some; congruence).
    destruct (fits_row FT Hlt) as [t [Ht Lt]].
    destruct (fits_row FG Hlt) as [g [Hg Lg]].
    destruct (fits_row FR Hlt) as [r0 [Hr Lr]].
    destruct (fits_row FY Hlt) as [y [Hy Ly]].
    destruct (@recommend_valid_labels sort query df cs gs rs ys n w st
                T G R Y a ba rest t g r0 y Hm Hcs Hgs Hrs Hys
                Ht Hg Hr Hy Lt Lg Lr Ly Hw) as [rows [H1 _]].
    now exists a, ba, rest, rows.
Qed.

Lemma toy_matrix_fits :
  fits Toy.df Toy.title_m /\ fits Toy.df Toy.genre_m
  /\ fits Toy.df Toy.ones_m.
Proof. repeat split; repeat constructor. Defined.

Lemma recommend_returns_on_fitting_input_witness :
  (Recommend.matches "hobbit" Toy.df = Returned [] /\
   fst (Recommend.recommend stable_argsort "hobbit" Toy.df 0 1 2 3 10
          Toy.defaults Toy.st)
   = Returned (Recommend.Message (Recommend.not_found "hobbit")))
  \/ (exists a ba rest rows,
        Recommend.matches "hobbit" Toy.df = Returned ((a, ba) :: rest)
        /\ fst (Recommend.recommend stable_argsort "hobbit" Toy.df
                  0 1 2 3 10 Toy.defaults Toy.st)
           = Returned (Recommend.Table rows)).
Proof.
  destruct toy_matrix_fits as [F1 [F2 F3]].
  apply (@recommend_returns_on_fitting_input stable_argsort "hobbit" Toy.df
           0 1 2 3 10 Toy.defaults Toy.st Toy.title_m Toy.genre_m
           Toy.ones_m Toy.ones_m
           (literal (Text.chars "hobbit")) eq_refl eq_refl eq_refl eq_refl
           eq_refl F1 F2 F3 F3).
  intro H. vm_compute in H. discriminate H.
Defined.

(** X18. The script does not fail on inputs that fit either: with sliders
    of non-zero sum, a query that is empty or a pattern [re.compile]
    accepts, four square matrices of the frame's size and a choice inside
    the select box, it returns: no list when no book is selected, the
    list otherwise. *)
Theorem script_returns_on_fitting_input
    (raw : dataframe) (ms : App.matrices) (sb : App.sidebar) (pick : nat)
    (w : weights) (r : Re.regex) :
  normalize (App.sliders sb) = Returned w ->
  App.is_empty (App.query sb) = true
  \/ Re.compile (Text.strip (Text.lower (App.query sb))) = Re.Pattern r ->
  fits raw (App.cos_sim_title ms) -> fits raw (App.cos_sim_genre ms) ->
  fits raw (App.cos_sim_rating ms) -> fits raw (App.cos_sim_year ms) ->
  (forall filtered,
     App.filtered_df sb (map App.clean raw) = Returned filtered ->
     filtered <> [] -> pick < length filtered) ->
  exists result, App.script raw ms sb pick = Returned result.
Proof.
  intros Hn Hq FT FG FR FY Hpick.
  destruct (App.is_empty (App.query sb)) eqn:He.
  { exists None. apply (@no_selection raw ms sb pick w Hn).
    now left. }
  destruct Hq as [Hq|Hc]; [discriminate|].
  unfold App.script. rewrite Hn. cbn [obind].
  set (df := map App.clean raw) in *.
  assert (Hlen : length df = length raw) by apply length_map.
  assert (Hf : exists mask,
             App.filtered_df sb df = Returned (select_rows df mask)).
  { unfold App.filtered_df, str_contains. rewrite He, Hc. cbn [obind].
    now eexists. }
  destruct Hf as [mask Hf]. rewrite Hf. cbn [obind].
  destruct (select_rows df mask) as [|[i0 b0] rest] eqn:Es.
  { exists None. unfold App.selected_index. now rewrite andb_false_r. }
  rewrite <- Es in *.
  assert (Hp : pick < length (select_rows df mask)).
  { apply (Hpick _ Hf). rewrite Es. discriminate. }
  destruct (nth_error (select_rows df mask) pick) as [[i bi]|] eqn:Ep;
    [|apply nth_error_None in Ep; lia].
  destruct (first_with_label sb _ _ He Ep)
    as (k & s & bs & Hsel & _ & Hk & _).
  rewrite Hsel. cbn [obind].
  apply nth_error_In, select_rows_in in Hk.
  assert (Hs : s < length df) by (apply nth_error_Some; congruence).
  assert (fits df (App.cos_sim_title ms) /\ fits df (App.cos_sim_genre ms)
          /\ fits df (App.cos_sim_rating ms)
          /\ fits df (App.cos_sim_year ms)) as (FT' & FG' & FR' & FY').
  { unfold fits in *. rewrite Hlen. tauto. }
  destruct (fits_row FT' Hs) as [t [Ht Lt]].
  destruct (fits_row FG' Hs) as [g [Hg Lg]].
  destruct (fits_row FR' Hs) as [r0 [Hr Lr]].
  destruct (fits_row FY' Hs) as [y [Hy Ly]].
  unfold App.recommendations. rewrite Hk.
  destruct ms as [MT MG MR MY]. cbn [App.cos_sim_title App.cos_sim_genre
    App.cos_sim_rating App.cos_sim_year] in *.
  rewrite (@app_hybrid_valid df MT MG MR MY s t g r0 y) by assumption.
  cbn [obind].
  destruct (@recs_loop_returns sb df s
              (App.sorted_desc
                 (enumerate (composite w t g r0 y df (cluster bs)))) [])
    as [out Hout].
  { rewrite Forall_forall. intros p Hin. apply (in_map fst) in Hin.
    apply (Permutation_in _ (ranking_labels _)) in Hin.
    apply in_seq in Hin.
    rewrite (@length_composite w t g r0 y df (cluster bs)) in Hin
      by assumption.
    lia. }
  rewrite Hout. cbn [obind]. now eexists.
Qed.

Lemma script_returns_on_fitting_input_witness :
  exists result, App.script Toy.df Toy.ms dune_search 0 = Returned result.
Proof.
  destruct toy_matrix_fits as [F1 [F2 F3]].
  apply (@script_returns_on_fitting_input Toy.df Toy.ms dune_search 0
           (normalized_weights Toy.half_half)
           (literal (Text.chars "dune")) eq_refl (or_intror eq_refl)
           F1 F2 F3 F3).
  intros filtered H _. vm_compute in H. injection H as <-. simpl. lia.
Defined.

(** ** The rating and year matrices of the script *)

Section ColumnSimilarity.

Import Prep.

Lemma qmin_le_l (a b : Q) : (qmin a b <= a)%Q.
Proof.
  unfold qmin. destruct (Qle_bool a b) eqn:E; [apply Qle_refl|].
  destruct (Qlt_le_dec b a) as [H|H]; [now apply Qlt_le_weak|].
  apply Qle_bool_iff in H. congruence.
Qed.

Lemma qmin_le_r (a b : Q) : (qmin a b <= b)%Q.
Proof.
  unfold qmin. destruct (Qle_bool a b) eqn:E; [|apply Qle_refl].
  now apply Qle_bool_iff.
Qed.

Lemma qmax_ge_l (a b : Q) : (a <= qmax a b)%Q.
Proof.
  unfold qmax. destruct (Qle_bool a b) eqn:E; [|apply Qle_refl].
  now apply Qle_bool_iff.
Qed.

Lemma fold_qmin_le (l : list Q) (x : Q) :
  (fold_left qmin l x <= x)%Q
  /\ (forall v, In v l -> fold_left qmin l x <= v)%Q.
Proof.
  revert x. induction l as [|a l IH]; intros x; simpl.
  - split; [apply Qle_refl|tauto].
  - destruct (IH (qmin x a)) as [H1 H2]. split.
    + eapply Qle_trans; [exact H1|apply qmin_le_l].
    + intros v [<-|Hv]; [|now apply H2].
      eapply Qle_trans; [exact H1|apply qmin_le_r].
Qed.

Lemma fold_qmin_in (l : list Q) (x : Q) : In (fold_left qmin l x) (x :: l).
Proof.
  revert x. induction l as [|a l IH]; intros x; simpl; [now left|].
  destruct (IH (qmin x a)) as [H|H]; [|right; now right].
  rewrite <- H. unfold qmin. destruct (Qle_bool x a); [now left|].
  right. now left.
Qed.

Lemma fold_qmax_ge (l : list Q) (x : Q) : (x <= fold_left qmax l x)%Q.
Proof.
  revert x. induction l as [|a l IH]; intros x; simpl; [apply Qle_refl|].
  eapply Qle_trans; [apply qmax_ge_l|apply IH].
Qed.

Lemma handle_zeros_pos (s : Q) : (0 <= s)%Q -> (0 < handle_zeros s)%Q.
Proof.
  intros H. unfold handle_zeros. destruct (Qeq_bool s 0) eqn:E;
    [reflexivity|].
  apply Qeq_bool_neq in E. apply Qle_lteq in H. destruct H as [H|H];
    [exact H|]. now symmetry in H.
Qed.

Lemma unit_row_zero (s : Q) : (s == 0)%Q -> (unit_row s == 0)%Q.
Proof.
  intros H. unfold unit_row, Qdiv.
  generalize (/ handle_zeros (Qabs s))%Q. intros d. rewrite H. ring.
Qed.

Lemma unit_row_pos (s : Q) : (0 < s)%Q -> (unit_row s == 1)%Q.
Proof.
  intros H. unfold unit_row, handle_zeros.
  assert (Ha : (Qabs s == s)%Q) by (apply Qabs_pos; now apply Qlt_le_weak).
  destruct (Qeq_bool (Qabs s) 0) eqn:E.
  - apply Qeq_bool_iff in E. rewrite Ha in E. rewrite E in H.
    now apply Qlt_irrefl in H.
  - rewrite Ha. field. intros C. rewrite C in H. now apply Qlt_irrefl in H.
Qed.

(** Entry [(i, j)] is 1 when both values are above the least value of the
    column, and 0 otherwise. *)
Lemma similarity_of_column_entries (col : list Q) (lo : Q) :
  (forall v, In v col -> lo <= v)%Q ->
  (exists v, In v col /\ (v == lo)%Q) ->
  exists K,
    similarity_of_column col = Returned K
    /\ forall i j, i < length col -> j < length col ->
         (nth j (nth i K []) 0
          == if Qltb lo (nth i col 0) && Qltb lo (nth j col 0)
             then 1 else 0)%Q.
Proof.
  intros Hlow [v0 [Hin0 Hv0]].
  destruct col as [|x rest]; [destruct Hin0|].
  unfold similarity_of_column, min_max_scale. cbn [obind].
  set (data_min := fold_left qmin rest x).
  set (data_max := fold_left qmax rest x).
  set (scale_ := (1 / handle_zeros (data_max - data_min))%Q).
  set (f := fun v => (v * scale_ + (0 - data_min * scale_))%Q).
  assert (Hmin : (data_min == lo)%Q).
  { apply Qle_antisym.
    - rewrite <- Hv0. destruct (fold_qmin_le rest x) as [H1 H2].
      destruct Hin0 as [<-|Hin0]; [exact H1|now apply H2].
    - apply Hlow. apply fold_qmin_in. }
  assert (Hrange : (0 <= data_max - data_min)%Q).
  { assert (data_min <= x)%Q by exact (proj1 (fold_qmin_le rest x)).
    assert (x <= data_max)%Q by apply fold_qmax_ge. lra. }
  assert (Hscale : (0 < scale_)%Q).
  { unfold scale_. apply Qlt_shift_div_l.
    - now apply handle_zeros_pos.
    - rewrite Qmult_0_l. reflexivity. }
  assert (Hf : forall v, (f v == (v - lo) * scale_)%Q).
  { intros v. unfold f. rewrite Hmin. ring. }
  assert (Hunit : forall v, (lo <= v)%Q ->
            (unit_row (f v) == if Qltb lo v then 1 else 0)%Q).
  { intros v Hv. destruct (Qltb lo v) eqn:E.
    - apply Qltb_true_lt in E. apply unit_row_pos. rewrite Hf.
      apply Qmult_lt_0_compat; [lra|exact Hscale].
    - apply Qltb_false_le in E. apply unit_row_zero. rewrite Hf.
      assert (v == lo)%Q by now apply Qle_antisym.
      rewrite H. ring. }
  set (col := x :: rest) in *.
  assert (Hnil : map f col <> []) by discriminate.
  unfold cosine_similarity.
  destruct (map f col) as [|s ss] eqn:Es; [congruence|]. rewrite <- Es.
  eexists. split; [reflexivity|].
  intros i j Hi Hj.
  set (us := map unit_row (map f col)).
  assert (Hlen : length us = length col)
    by (unfold us; now rewrite !length_map).
  assert (Hnth : forall k, k < length col ->
            (nth k us 0 == if Qltb lo (nth k col 0) then 1 else 0)%Q).
  { intros k Hk. unfold us. rewrite map_map.
    rewrite (nth_indep _ 0%Q (unit_row (f 0%Q)))
      by now rewrite length_map.
    rewrite (map_nth (fun v => unit_row (f v))).
    apply Hunit, Hlow, nth_In, Hk. }
  rewrite (nth_indep _ [] (map (fun xj => 0 * xj)%Q us))
    by now rewrite length_map, Hlen.
  rewrite (map_nth (fun xi => map (fun xj => xi * xj)%Q us)).
  rewrite (nth_indep _ 0%Q (nth i us 0%Q * 0)%Q)
    by now rewrite length_map, Hlen.
  rewrite (map_nth (fun xj => nth i us 0%Q * xj)%Q).
  rewrite (Hnth i Hi), (Hnth j Hj).
  destruct (Qltb lo (nth i col 0%Q)), (Qltb lo (nth j col 0%Q));
    reflexivity.
Qed.

End ColumnSimilarity.

Lemma similarity_of_key (key : book -> Q) (df : dataframe) (lowest : book) :
  In lowest df ->
  (forall b, In b df -> key lowest <= key b)%Q ->
  exists K,
    Prep.similarity_of_column (map key df) = Returned K
    /\ forall i j bi bj,
         nth_error df i = Some bi -> nth_error df j = Some bj ->
         (nth j (nth i K []) 0
          == if Qltb (key lowest) (key bi) && Qltb (key lowest) (key bj)
             then 1 else 0)%Q.
Proof.
  intros Hin Hlow.
  destruct (@similarity_of_column_entries (map key df) (key lowest))
    as [K [HK Hent]].
  - intros v Hv. apply in_map_iff in Hv. destruct Hv as [b [<- Hb]].
    now apply Hlow.
  - exists (key lowest). split; [now apply in_map|reflexivity].
  - exists K. split; [exact HK|].
    intros i j bi bj Hi Hj.
    assert (Li : i < length df) by (apply nth_error_Some; congruence).
    assert (Lj : j < length df) by (apply nth_error_Some; congruence).
    rewrite Hent by now rewrite length_map.
    rewrite (nth_indep _ 0%Q (key bi)) by now rewrite length_map.
    rewrite (nth_indep (map key df) 0%Q (key bj)) by now rewrite length_map.
    rewrite !map_nth.
    rewrite (nth_error_nth _ _ bi Hi), (nth_error_nth _ _ bj Hj).
    reflexivity.
Qed.

Lemma Qltb_inject_Z (a b : Z) : Qltb (inject_Z a) (inject_Z b) = Z.ltb a b.
Proof.
  unfold Qltb, Qle_bool. simpl. rewrite !Z.mul_1_r.
  rewrite Z.ltb_antisym. reflexivity.
Qed.

(** X19. The rating matrix of the script, [cos_sim_rating], exists for a
    frame with at least one book and holds only 0 and 1: the entry of two
    books is 1 when both are rated above the lowest rating of the frame and
    0 otherwise. A book with the lowest rating has 0 with every book,
    itself included. *)
Theorem rating_similarity_is_binary (df : dataframe) (lowest : book) :
  In lowest df ->
  (forall b, In b df -> avg_rating lowest <= avg_rating b)%Q ->
  exists K,
    Prep.rating_similarity df = Returned K
    /\ forall i j bi bj,
         nth_error df i = Some bi -> nth_error df j = Some bj ->
         (nth j (nth i K []) 0
          == if Qltb (avg_rating lowest) (avg_rating bi)
                && Qltb (avg_rating lowest) (avg_rating bj)
             then 1 else 0)%Q.
Proof.
  intros Hin Hlow. unfold Prep.rating_similarity.
  now apply similarity_of_key.
Qed.

Lemma rating_similarity_is_binary_witness :
  exists K,
    Prep.rating_similarity Toy.df = Returned K
    /\ forall i j bi bj,
         nth_error Toy.df i = Some bi -> nth_error Toy.df j = Some bj ->
         (nth j (nth i K []) 0
          == if Qltb (avg_rating Toy.abc) (avg_rating bi)
                && Qltb (avg_rating Toy.abc) (avg_rating bj)
             then 1 else 0)%Q.
Proof.
  apply (@rating_similarity_is_binary Toy.df Toy.abc).
  - simpl. tauto.
  - intros b Hb. simpl in Hb.
    repeat (destruct Hb as [<-|Hb]; [vm_compute; discriminate|]).
    destruct Hb.
Defined.

(** X20. The year matrix of the script, [cos_sim_year], exists for a frame
    with at least one book and holds only 0 and 1: the entry of two books
    is 1 when both were published after the earliest year of the frame and
    0 otherwise, however far apart the two years are. *)
Theorem year_similarity_is_binary (df : dataframe) (earliest : book) :
  In earliest df ->
  (forall b, In b df -> (year_published earliest <= year_published b)%Z) ->
  exists K,
    Prep.year_similarity df = Returned K
    /\ forall i j bi bj,
         nth_error df i = Some bi -> nth_error df j = Some bj ->
         (nth j (nth i K []) 0
          == if Z.ltb (year_published earliest) (year_published bi)
                && Z.ltb (year_published earliest) (year_published bj)
             then 1 else 0)%Q.
Proof.
  intros Hin Hlow. unfold Prep.year_similarity.
  destruct (@similarity_of_key (fun b => inject_Z (year_published b))
              df earliest Hin) as [K [HK Hent]].
  - intros b Hb. rewrite <- Zle_Qle. now apply Hlow.
  - exists K. split; [exact HK|].
    intros i j bi bj Hi Hj. rewrite (Hent i j bi bj Hi Hj).
    rewrite !Qltb_inject_Z. reflexivity.
Qed.

Lemma year_similarity_is_binary_witness :
  exists K,
    Prep.year_similarity Toy.df = Returned K
    /\ forall i j bi bj,
         nth_error Toy.df i = Some bi -> nth_error Toy.df j = Some bj ->
         (nth j (nth i K []) 0
          == if Z.ltb (year_published Toy.emma) (year_published bi)
                && Z.ltb (year_published Toy.emma) (year_published bj)
             then 1 else 0)%Q.
Proof.
  apply (@year_similarity_is_binary Toy.df Toy.emma).
  - simpl. tauto.
  - intros b Hb. simpl in Hb.
    repeat (destruct Hb as [<-|Hb]; [vm_compute; discriminate|]).
    destruct Hb.
Defined.
